(** * EduAttend client script (script.js): a shallow embedding

    The script is browser glue: it resolves the API base URL, wraps [fetch],
    handles the two login forms, guards the two dashboards, renders
    attendance data and marks attendance.  The embedding keeps the script's
    own names.  Browser state (local storage, location, alerts, the requests
    sent, the parts of the DOM the script touches) is threaded explicitly
    through a state-and-exception monad; the backend is a function from
    requests to fetch outcomes carried by the world.

    Strings are sequences of 8-bit code units, numbers are IEEE-754 binary64
    values ([spec_float] with 53 bits of precision), JSON text is parsed by
    the engine.  An [await] is a sequence point: nothing else runs between a
    request and its answer.  An async function called without [await] is
    recorded as pending.  Writes to local storage succeed, the selectors the
    script uses name distinct elements, and console output is not part of the
    model. *)

From Stdlib Require Import ZArith NArith String Ascii List Bool Lia Sorted.
From Stdlib Require Import Floats.SpecFloat.
From stdpp Require Import gmap strings pretty.
Import ListNotations.

Local Open Scope string_scope.
Local Open Scope list_scope.

(** ** Strings *)

(** The double quote character, and a quoted attribute value. *)
Definition dq : string := String (ascii_of_nat 34) EmptyString.

(** The line feed of a template literal. *)
Definition nl : string := String (ascii_of_nat 10) EmptyString.

Definition quoted (s : string) : string := dq +:+ s +:+ dq.

(** White space removed by [String.prototype.trim], among 8-bit code units:
    TAB, LF, VT, FF, CR, SPACE and NBSP. *)
Definition is_white_space (c : ascii) : bool :=
  let n := nat_of_ascii c in
  ((9 <=? n)%nat && (n <=? 13)%nat) || (n =? 32)%nat || (n =? 160)%nat.

Fixpoint trimStart (s : string) : string :=
  match s with
  | EmptyString => EmptyString
  | String c r => if is_white_space c then trimStart r else s
  end.

(** [trimEnd] keeps a character when it is not white space or when something
    remains after it. *)
Fixpoint trimEnd (s : string) : string :=
  match s with
  | EmptyString => EmptyString
  | String c r =>
      match trimEnd r with
      | EmptyString => if is_white_space c then EmptyString else String c EmptyString
      | r' => String c r'
      end
  end.

Definition trim (s : string) : string := trimEnd (trimStart s).

(** [s.startsWith(p)] *)
Definition startsWith (s p : string) : bool := String.prefix p s.

(** [s.includes(p)] *)
Fixpoint includes (s p : string) : bool :=
  String.prefix p s ||
  match s with
  | EmptyString => false
  | String _ r => includes r p
  end.

(** [s.substring(0, n)] *)
Definition substring0 (n : nat) (s : string) : string := String.substring 0 n s.

Definition lower_ascii (c : ascii) : ascii :=
  let n := nat_of_ascii c in
  if ((65 <=? n)%nat && (n <=? 90)%nat) then ascii_of_nat (n + 32) else c.

(** Header names are matched without regard to case. *)
Fixpoint lower (s : string) : string :=
  match s with
  | EmptyString => EmptyString
  | String c r => String (lower_ascii c) (lower r)
  end.

(** [s.replace(/([^:]\/)\/+/g, "$1")]: wherever a character other than a colon
    is followed by two or more slashes, only the first slash is kept.  Matches
    are taken left to right and do not overlap; [skipping] is true right after
    a match, while the slashes that belong to it are dropped. *)
Fixpoint collapse_slashes (skipping : bool) (s : string) : string :=
  match s with
  | EmptyString => EmptyString
  | String c r =>
      if skipping && Ascii.eqb c "/" then collapse_slashes true r
      else
        match r with
        | String "/" (String "/" r2) =>
            if Ascii.eqb c ":" then String c (collapse_slashes false r)
            else String c (String "/" (collapse_slashes true r2))
        | _ => String c (collapse_slashes false r)
        end
  end.

(** ** Numbers: IEEE-754 binary64 *)

Definition number : Type := spec_float.

Definition Number_of_Z (z : Z) : number := binary_normalize 53 1024 z 0 false.

Definition Number_of_nat (n : nat) : number := Number_of_Z (Z.of_nat n).

Definition num_div : number -> number -> number := SFdiv 53 1024.
Definition num_mul : number -> number -> number := SFmul 53 1024.
Definition num_sub : number -> number -> number := SFsub 53 1024.

(** [x > y] *)
Definition num_gt (x y : number) : bool := SFltb y x.

(** The integer [floor (n * 2^e + 1/2)]. *)
Definition round_half_up (n e : Z) : Z :=
  match e with
  | Z.neg k => (2 * n + 2 ^ Z.pos k) / 2 ^ (Z.pos k + 1)
  | _ => n * 2 ^ e
  end.

(** [Math.round]: the integral number closest to [x], the one closer to
    +infinity when two are equally close; zeros, infinities and NaN are
    returned as they are, and a result of zero keeps the sign of [x]. *)
Definition Math_round (x : number) : number :=
  match x with
  | S754_finite s m e =>
      let r := round_half_up (if s then Z.neg m else Z.pos m) e in
      if (r =? 0)%Z then S754_zero s else Number_of_Z r
  | _ => x
  end.

(** The value of a number when it is an integer. *)
Definition integer_value (x : number) : option Z :=
  match x with
  | S754_zero _ => Some 0%Z
  | S754_finite s m e =>
      let n := if s then Z.neg m else Z.pos m in
      match e with
      | Z.neg k => if (n mod 2 ^ Z.pos k =? 0)%Z then Some (n / 2 ^ Z.pos k)%Z else None
      | _ => Some (n * 2 ^ e)%Z
      end
  | _ => None
  end.

(** ** Values and exceptions *)

#[local] Set Warnings "-register-all".

(** What [JSON.parse] returns.  An object is the list of its own properties,
    no name twice; [undefined] is the [None] of [option json]. *)
Inductive json : Type :=
  | JNull
  | JBool (b : bool)
  | JNum (x : number)
  | JStr (s : string)
  | JArr (items : list json)
  | JObj (props : list (string * json)).

(** Exceptions.  The script only reads their [message]. *)
Inductive exn : Type :=
  | Error (msg : string)
  | TypeError (msg : string)
  | SyntaxError (msg : string).

Definition message (e : exn) : string :=
  match e with
  | Error m | TypeError m | SyntaxError m => m
  end.

(** How an evaluation completes. *)
Inductive completion (A : Type) : Type :=
  | Normal (a : A)
  | Throw (e : exn).

Arguments Normal {A} a.
Arguments Throw {A} e.

(** Sequencing of evaluations that touch no state: the first exception wins. *)
Definition and_then {A B} (c : completion A) (k : A -> completion B) : completion B :=
  match c with
  | Normal a => k a
  | Throw e => Throw e
  end.

(** [try { c } catch (error) { h error }] on such evaluations. *)
Definition or_catch {A} (c : completion A) (h : exn -> completion A) : completion A :=
  match c with
  | Normal a => Normal a
  | Throw e => h e
  end.

Declare Scope js_scope.
Delimit Scope js_scope with js.
Notation "'let?' x := c 'in' k" := (and_then c (fun x => k))
  (at level 10, x pattern, c at level 100, k at level 200) : js_scope.

(** The places where the engine itself raises; the text of its message is the
    engine's. *)
Inductive fault : Type :=
  | ReadOfNull (prop : string)
  | ReadOfUndefined (prop : string)
  | WriteOfNull (prop : string)
  | NotAFunction (callee : string)
  | BadJSON (text : string).

(** The parts of the browser that the script uses and that are left open: the
    JSON grammar, number and object printing, the wording of engine errors,
    URI encoding, case mapping and date formatting. *)
Class Engine : Type := {
  (** [JSON.parse] on a text whose first character after white space is not
      [<]; [None] is a syntax error. *)
  JSON_parse_value : string -> option json;
  JSON_stringify : json -> string;
  (** [String(x)] for a number that is not a small integer. *)
  Number_toString_other : number -> string;
  (** [String(v)] for an array or an object. *)
  Object_toString : json -> string;
  engine_message : fault -> string;
  encodeURIComponent : string -> string;
  (** [s.toLowerCase()] *)
  toLowerCase : string -> string;
  (** [new Date(v).toLocaleTimeString([], { hour: '2-digit', minute: '2-digit' })] *)
  Date_toLocaleTimeString : option json -> string;
  (** [new Date(v).toLocaleDateString()] *)
  Date_toLocaleDateString : option json -> string
}.

Section Values.
Context `{Engine}.

(** [JSON.parse(text)].  No JSON text starts with [<], so a text that does,
    after white space, is a syntax error in every engine. *)
Definition JSON_parse (text : string) : completion json :=
  if startsWith (trim text) "<" then Throw (SyntaxError (engine_message (BadJSON text)))
  else match JSON_parse_value text with
       | Some v => Normal v
       | None => Throw (SyntaxError (engine_message (BadJSON text)))
       end.

(** [JSON.parse(localStorage.getItem(k))]: a missing item is [null], which is
    converted to the text [null] and parses to [null]. *)
Definition JSON_parse_item (item : option string) : completion json :=
  match item with
  | None => Normal JNull
  | Some text => JSON_parse text
  end.

Definition Number_toString (x : number) : string :=
  match x with
  | S754_nan => "NaN"
  | S754_infinity s => if s then "-Infinity" else "Infinity"
  | _ =>
      match integer_value x with
      | Some z => if (Z.abs z <? 10 ^ 21)%Z then pretty z else Number_toString_other x
      | None => Number_toString_other x
      end
  end.

(** [String(v)], as in a template literal or a storage write. *)
Definition ToString (v : option json) : string :=
  match v with
  | None => "undefined"
  | Some JNull => "null"
  | Some (JBool b) => if b then "true" else "false"
  | Some (JNum x) => Number_toString x
  | Some (JStr s) => s
  | Some w => Object_toString w
  end.

(** Truthiness, as tested by [if], [!] and [||]. *)
Definition truthy (v : option json) : bool :=
  match v with
  | None | Some JNull => false
  | Some (JBool b) => b
  | Some (JNum x) =>
      match x with
      | S754_zero _ | S754_nan => false
      | _ => true
      end
  | Some (JStr s) => negb (String.eqb s "")
  | Some _ => true
  end.

Definition truthy_string (s : option string) : bool :=
  match s with
  | Some t => negb (String.eqb t "")
  | None => false
  end.

(** [a || b] *)
Definition or_else (a b : option json) : option json :=
  if truthy a then a else b.

Fixpoint assoc (k : string) (props : list (string * json)) : option json :=
  match props with
  | [] => None
  | (k', v) :: rest => if String.eqb k k' then Some v else assoc k rest
  end.

(** [v.k] for the property names the script reads (none of them is an array
    index or a member of a built-in prototype). *)
Definition get_prop (v : json) (k : string) : completion (option json) :=
  match v with
  | JNull => Throw (TypeError (engine_message (ReadOfNull k)))
  | JObj props => Normal (assoc k props)
  | JArr items =>
      Normal (if String.eqb k "length" then Some (JNum (Number_of_nat (List.length items))) else None)
  | JStr s =>
      Normal (if String.eqb k "length" then Some (JNum (Number_of_nat (String.length s))) else None)
  | _ => Normal None
  end.

(** [v.k] where [v] may be [undefined]. *)
Definition get_prop_opt (v : option json) (k : string) : completion (option json) :=
  match v with
  | None => Throw (TypeError (engine_message (ReadOfUndefined k)))
  | Some w => get_prop w k
  end.

(** [v === s] for a string [s] *)
Definition is_string (v : option json) (s : string) : bool :=
  match v with
  | Some (JStr t) => String.eqb t s
  | _ => false
  end.

(** The text an element shows after [el.textContent = v]: the attribute is
    a nullable string, so [null] and [undefined] clear it. *)
Definition text_of (v : option json) : string :=
  match v with
  | None | Some JNull => ""
  | _ => ToString v
  end.

End Values.

(** ** The browser state *)

(** [window.location] *)
Record Location : Type := {
  hostname : string;
  port : string;
  protocol : string;
  pathname : string
}.

(** The second argument of [apiRequest].  No caller passes [headers]. *)
Record options : Type := {
  opt_method : option string;
  opt_body : option string
}.

(** [options = {}] *)
Definition no_options : options := {| opt_method := None; opt_body := None |}.

(** What [fetch] is called with. *)
Record request : Type := {
  req_url : string;
  req_method : option string;
  req_body : option string;
  req_headers : list (string * string)
}.

(** A response: its status line, its headers by lower-case name, and what
    [response.text()] gives. *)
Record response : Type := {
  status : N;
  statusText : string;
  resp_headers : gmap string string;
  resp_text : completion string
}.

Inductive fetch_outcome : Type :=
  | Rejected (e : exn)
  | Resolved (r : response).

(** [response.ok] *)
Definition ok (r : response) : bool := (200 <=? status r)%N && (status r <=? 299)%N.

(** [response.headers.get(name)] *)
Definition headers_get (r : response) (name : string) : option string :=
  resp_headers r !! lower name.

(** Async functions that were called without [await].  The script runs such
    a call at once up to its first [await], where its request goes out, and
    the rest after the caller has returned; here the call is recorded as
    started and is run from its first statement after the caller, so that
    [requests] holds the requests of the caller itself when it returns. *)
Inductive task : Type :=
  | LoadDashboardStats
  | LoadStudentAttendance
  | LoadStudentsForMarking.

(** The part of the document the script reads and writes.  An element is the
    map of the properties written on it ([textContent], [innerHTML], [src],
    [disabled], [style.background]); it is found by the selector the script
    uses for it.  The action buttons of the marking page are kept by container:
    each container lists the class lists of the buttons inside it. *)
Record dom : Type := {
  elements : gmap string (gmap string string);
  element_lists : gmap string (list (gmap string string));
  root_style : gmap string string;
  action_rows : list (list (list string));
  listeners : list (string * string)
}.

Record world : Type := {
  localStorage : gmap string string;
  location : Location;
  (** the navigation asked for by the last write to [window.location.href] *)
  href : option string;
  alerts : list string;
  (** the requests passed to [fetch], oldest first *)
  requests : list request;
  (** the backend and whatever stands in front of it *)
  network : request -> fetch_outcome;
  document : dom;
  pending : list task;
  (** the script's global constant *)
  API_URL : string
}.

Definition set_localStorage (f : gmap string string -> gmap string string) (w : world) : world :=
  {| localStorage := f (localStorage w); location := location w; href := href w;
     alerts := alerts w; requests := requests w; network := network w;
     document := document w; pending := pending w; API_URL := API_URL w |}.

Definition set_href (target : string) (w : world) : world :=
  {| localStorage := localStorage w; location := location w; href := Some target;
     alerts := alerts w; requests := requests w; network := network w;
     document := document w; pending := pending w; API_URL := API_URL w |}.

Definition add_alert (text : string) (w : world) : world :=
  {| localStorage := localStorage w; location := location w; href := href w;
     alerts := alerts w ++ [text]; requests := requests w; network := network w;
     document := document w; pending := pending w; API_URL := API_URL w |}.

Definition add_request (r : request) (w : world) : world :=
  {| localStorage := localStorage w; location := location w; href := href w;
     alerts := alerts w; requests := requests w ++ [r]; network := network w;
     document := document w; pending := pending w; API_URL := API_URL w |}.

Definition set_document (f : dom -> dom) (w : world) : world :=
  {| localStorage := localStorage w; location := location w; href := href w;
     alerts := alerts w; requests := requests w; network := network w;
     document := f (document w); pending := pending w; API_URL := API_URL w |}.

Definition add_pending (t : task) (w : world) : world :=
  {| localStorage := localStorage w; location := location w; href := href w;
     alerts := alerts w; requests := requests w; network := network w;
     document := document w; pending := pending w ++ [t]; API_URL := API_URL w |}.

Definition set_API_URL (u : string) (w : world) : world :=
  {| localStorage := localStorage w; location := location w; href := href w;
     alerts := alerts w; requests := requests w; network := network w;
     document := document w; pending := pending w; API_URL := u |}.

(** *** Document updates *)

Definition set_elements (f : gmap string (gmap string string) -> gmap string (gmap string string))
    (d : dom) : dom :=
  {| elements := f (elements d); element_lists := element_lists d;
     root_style := root_style d; action_rows := action_rows d; listeners := listeners d |}.

Definition set_element_lists
    (f : gmap string (list (gmap string string)) -> gmap string (list (gmap string string)))
    (d : dom) : dom :=
  {| elements := elements d; element_lists := f (element_lists d);
     root_style := root_style d; action_rows := action_rows d; listeners := listeners d |}.

Definition set_root_style (f : gmap string string -> gmap string string) (d : dom) : dom :=
  {| elements := elements d; element_lists := element_lists d;
     root_style := f (root_style d); action_rows := action_rows d; listeners := listeners d |}.

Definition set_action_rows (f : list (list (list string)) -> list (list (list string)))
    (d : dom) : dom :=
  {| elements := elements d; element_lists := element_lists d;
     root_style := root_style d; action_rows := f (action_rows d); listeners := listeners d |}.

Definition add_listener (target event : string) (d : dom) : dom :=
  {| elements := elements d; element_lists := element_lists d;
     root_style := root_style d; action_rows := action_rows d;
     listeners := listeners d ++ [(target, event)] |}.

(** ** The monad of script code: state and exceptions *)

Definition M (A : Type) : Type := world -> completion A * world.

Definition ret {A} (a : A) : M A := fun w => (Normal a, w).

Definition throw {A} (e : exn) : M A := fun w => (Throw e, w).

Definition bind {A B} (m : M A) (k : A -> M B) : M B :=
  fun w =>
    match m w with
    | (Normal a, w') => k a w'
    | (Throw e, w') => (Throw e, w')
    end.

(** [try { m } catch (error) { h error }] *)
Definition try_catch {A} (m : M A) (h : exn -> M A) : M A :=
  fun w =>
    match m w with
    | (Normal a, w') => (Normal a, w')
    | (Throw e, w') => h e w'
    end.

(** A pure evaluation that may throw. *)
Definition lift {A} (c : completion A) : M A := fun w => (c, w).

(** Reading and writing the state. *)
Definition get {A} (f : world -> A) : M A := fun w => (Normal (f w), w).

Definition modify (f : world -> world) : M unit := fun w => (Normal tt, f w).

Notation "'let*' x := m 'in' k" := (bind m (fun x => k))
  (at level 10, x pattern, m at level 100, k at level 200) : js_scope.
Notation "m ;; k" := (bind m (fun _ => k))
  (at level 100, k at level 200, right associativity) : js_scope.

Local Open Scope js_scope.

(** Browser calls used by the script. *)
Definition getItem (k : string) : M (option string) := get (fun w => localStorage w !! k).

Definition setItem (k v : string) : M unit := modify (set_localStorage (insert k v)).

Definition removeItem (k : string) : M unit := modify (set_localStorage (delete k)).

Definition navigate (target : string) : M unit := modify (set_href target).

Definition alert (text : string) : M unit := modify (add_alert text).

(** [fetch(url, init)]: the request is sent, the network answers. *)
Definition fetch (r : request) : M response :=
  modify (add_request r) ;;
  let* out := get (fun w => network w r) in
  match out with
  | Rejected e => throw e
  | Resolved resp => ret resp
  end.

(** [document.querySelector(sel)] and [document.getElementById(id)]: whether
    the page has the element. *)
Definition querySelector (sel : string) : M bool :=
  get (fun w => bool_decide (is_Some (elements (document w) !! sel))).

(** [querySelectorAll(sel).length] *)
Definition count_all (sel : string) : M nat :=
  get (fun w => List.length (default [] (element_lists (document w) !! sel))).

Definition addEventListener (target event : string) : M unit :=
  modify (set_document (add_listener target event)).

Section Document.
Context `{Engine}.

(** [el.prop = v] on the element found by [sel]; a type error when the page
    has no such element. *)
Definition set_property (sel prop v : string) : M unit :=
  fun w =>
    match elements (document w) !! sel with
    | Some el =>
        (Normal tt, set_document (set_elements (insert sel (<[prop := v]> el))) w)
    | None => (Throw (TypeError (engine_message (WriteOfNull prop))), w)
    end.

(** [if (el) el.prop = v] *)
Definition set_property_if_present (sel prop v : string) : M unit :=
  let* found := querySelector sel in
  if found then set_property sel prop v else ret tt.

(** [el.value] *)
Definition get_value (sel : string) : M string :=
  fun w =>
    match elements (document w) !! sel with
    | Some el => (Normal (default "" (el !! "value")), w)
    | None => (Throw (TypeError (engine_message (ReadOfNull "value"))), w)
    end.

(** [querySelectorAll(sel)[i].prop = v] *)
Definition set_property_at (sel : string) (i : nat) (prop v : string) : M unit :=
  fun w =>
    let l := default [] (element_lists (document w) !! sel) in
    match l !! i with
    | Some el =>
        (Normal tt,
         set_document (set_element_lists (insert sel (<[i := <[prop := v]> el]> l))) w)
    | None => (Throw (TypeError (engine_message (WriteOfNull prop))), w)
    end.

End Document.

(** ** The script *)

Section Script.
Context `{Engine}.

(** [getBaseUrl] (lines 2-23). *)
Definition getBaseUrl : M string :=
  let* overrideUrl := getItem "eduAttendBackendUrl" in
  if truthy_string overrideUrl then ret (default "" overrideUrl)
  else
    let* loc := get location in
    let isLocal :=
      String.eqb (hostname loc) "localhost" || String.eqb (hostname loc) "127.0.0.1" ||
      startsWith (hostname loc) "192.168." || startsWith (hostname loc) "10." ||
      startsWith (hostname loc) "172." in
    let isFile := String.eqb (protocol loc) "file:" in
    if String.eqb (port loc) "5000" then ret "/api"
    else if isLocal || isFile then ret "http://localhost:5000/api"
    else ret "/api".

(** Loading the script (lines 25 and 104): the base URL is resolved once and
    the page-load handler is registered. *)
Definition script_load : M unit :=
  let* url := getBaseUrl in
  modify (set_API_URL url) ;;
  addEventListener "document" "DOMContentLoaded".

(** The test applied to a response body on lines 63 and 74. *)
Definition html_shaped (text : string) : bool :=
  startsWith (trim text) "<!DOCTYPE html>" || startsWith (trim text) "<html".

(** The three diagnostics of [apiRequest] about HTML bodies. *)
Definition msg_alive_html : string :=
  "The backend is alive but returned an HTML error page. Check backend logs for route matching issues.".

Definition msg_intercepted (serverHeader : option string) : string :=
  "The request was intercepted by a different server (" +:+
  (if truthy_string serverHeader then default "" serverHeader else "Unknown") +:+
  "). This usually means your deployment's /api route is not correctly pointing to the Node.js backend.".

Definition msg_not_reached (serverHeader : option string) : string :=
  "CRITICAL: The backend server was NOT reached. Request was handled by: " +:+
  (if truthy_string serverHeader then default "" serverHeader else "a static host") +:+
  ". Ensure your deployment configuration routes /api to the Node server.".

Definition msg_html_page (url : string) : string :=
  "The backend responded with an HTML page for " +:+ url +:+
  ". This implies a 404 or a server-side redirect occurred.".

(** [data.message = v] on the object built on line 73. *)
Definition set_message (data : json) (v : string) : json :=
  match data with
  | JObj props =>
      JObj (if existsb (fun kv => String.eqb (fst kv) "message") props
            then map (fun kv => if String.eqb (fst kv) "message" then (fst kv, JStr v) else kv) props
            else props ++ [("message", JStr v)])
  | _ => data
  end.

(** The URL [apiRequest] calls for an endpoint (lines 40-41). *)
Definition request_url (api endpoint : string) : string :=
  let cleanEndpoint := if startsWith endpoint "/" then endpoint else "/" +:+ endpoint in
  collapse_slashes false (api +:+ cleanEndpoint).

(** Lines 51-89 of [apiRequest]: the data read from the body. *)
Definition read_body (url : string) (response : response) (text : string) : completion json :=
  let serverHeader := headers_get response "Server" in
  let backendHeader := headers_get response "X-Backend-Server" in
  let contentType := headers_get response "content-type" in
  if truthy_string contentType && includes (default "" contentType) "application/json" then
    or_catch
      (if negb (String.eqb (trim text) "") then JSON_parse text
       else Normal (JObj [("message", JStr "Success (No data returned)")]))
      (fun jsonError =>
         if html_shaped text then
           Throw (Error (if bool_decide (backendHeader = Some "EduAttend-Node")
                         then msg_alive_html
                         else msg_intercepted serverHeader))
         else Throw (Error ("Invalid JSON from server: " +:+ substring0 30 text +:+ "...")))
  else
    let data := if negb (String.eqb text "") then JObj [("message", JStr text)] else JObj [] in
    if html_shaped text then
      if negb (truthy_string backendHeader)
      then Normal (set_message data (msg_not_reached serverHeader))
      else Normal (set_message data (msg_html_page url))
    else Normal data.

(** Lines 46-94 of [apiRequest]: what is made of a response. *)
Definition read_response (url : string) (response : response) : completion json :=
  let? text := resp_text response in
  let? data := read_body url response text in
  if negb (ok response) then
    let? m := get_prop data "message" in
    let? m_or_e := (if truthy m then Normal m else get_prop data "error") in
    Throw (Error (ToString (or_else m_or_e
      (Some (JStr ("Error " +:+ pretty (status response) +:+ ": " +:+ statusText response))))))
  else Normal data.

(** Lines 95-101 of [apiRequest]: the outer [catch]. *)
Definition rethrow (url : string) (error : exn) : exn :=
  if String.eqb (message error) "Failed to fetch"
  then Error ("Could not connect to the backend server at " +:+ url)
  else error.

(** The request [apiRequest] sends (lines 30-44). *)
Definition api_request (token : option string) (api endpoint : string) (opts : options) : request :=
  {| req_url := request_url api endpoint;
     req_method := opt_method opts;
     req_body := opt_body opts;
     req_headers :=
       [("Content-Type", "application/json")] ++
       (if truthy_string token then [("Authorization", "Bearer " +:+ default "" token)] else []) |}.

(** [apiRequest] (lines 29-102). *)
Definition apiRequest (endpoint : string) (opts : options) : M json :=
  let* token := getItem "eduAttendToken" in
  let* api := get API_URL in
  let url := request_url api endpoint in
  try_catch
    (let* response := fetch (api_request token api endpoint opts) in
     lift (read_response url response))
    (fun error => throw (rethrow url error)).

(** *** The login forms (lines 118-182) *)

(** What differs between the two submit handlers. *)
Record portal : Type := {
  form : string;
  id_field : string;
  role : string;
  waiting_html : string;
  refusal : string;
  dashboard : string;
  idle_html : string
}.

Definition faculty_portal : portal := {|
  form := "#facultyLoginForm";
  id_field := "#facultyId";
  role := "faculty";
  waiting_html := "<i class=" +:+ quoted "fa-solid fa-spinner fa-spin" +:+ "></i> Authenticating...";
  refusal := "This portal is for faculty only.";
  dashboard := "dashboard.html";
  idle_html := "Sign In <i class=" +:+ quoted "fa-solid fa-arrow-right" +:+ "></i>"
|}.

Definition student_portal : portal := {|
  form := "#studentLoginForm";
  id_field := "#studentEmail";
  role := "student";
  waiting_html := "<i class=" +:+ quoted "fa-solid fa-spinner fa-spin" +:+ "></i> Checking records...";
  refusal := "This portal is for students only.";
  dashboard := "student-dashboard.html";
  idle_html := "Login <i class=" +:+ quoted "fa-solid fa-arrow-right" +:+ "></i>"
|}.

(** The body sent by a login form. *)
Definition login_body (p : portal) (username password : string) : string :=
  JSON_stringify (JObj [("username", JStr username); ("password", JStr password);
                        ("role", JStr (role p))]).

(** The options of the login request. *)
Definition login_options (p : portal) (username password : string) : options :=
  {| opt_method := Some "POST"; opt_body := Some (login_body p username password) |}.

(** The [try] block of a submit handler (lines 131-142, 164-175). *)
Definition login_attempt (p : portal) (username password : string) : M unit :=
  let* data := apiRequest "/auth/login" (login_options p username password) in
  let* r := lift (get_prop data "role") in
  if negb (is_string r (role p)) then throw (Error (refusal p))
  else
    let* token := lift (get_prop data "token") in
    setItem "eduAttendToken" (ToString token) ;;
    setItem "eduAttendUser" (JSON_stringify data) ;;
    navigate (dashboard p).

(** The [catch] block of a submit handler (lines 143-147, 176-180). *)
Definition login_failed (p : portal) (error : exn) : M unit :=
  alert (message error) ;;
  set_property (form p +:+ " .login-button") "disabled" "false" ;;
  set_property (form p +:+ " .login-button") "innerHTML" (idle_html p).

(** A submit handler.  The elements it reads before the [try] block must be
    on the page, or the handler stops with a type error before any request. *)
Definition login_submit (p : portal) : M unit :=
  let button := form p +:+ " .login-button" in
  let* username := get_value (id_field p) in
  let* password := get_value "#password" in
  set_property button "disabled" "true" ;;
  set_property button "innerHTML" (waiting_html p) ;;
  try_catch (login_attempt p username password) (login_failed p).

Definition facultyForm_submit : M unit := login_submit faculty_portal.

Definition studentForm_submit : M unit := login_submit student_portal.

(** *** Page load (lines 104-260) *)

(** [user.name || user.username] *)
Definition display_name (user : json) : completion (option json) :=
  match get_prop user "name" with
  | Normal n => if truthy n then Normal n else get_prop user "username"
  | Throw e => Throw e
  end.

(** [!user || user.role !== r] *)
Definition wrong_session (user : json) (r : string) : completion bool :=
  if negb (truthy (Some user)) then Normal true
  else match get_prop user "role" with
       | Normal v => Normal (negb (is_string v r))
       | Throw e => Throw e
       end.

(** The marking page block (lines 224-259). *)
Definition attendance_page_init : M unit :=
  let* path := get (fun w => pathname (location w)) in
  if includes path "attendance.html" then
    modify (add_pending LoadStudentsForMarking) ;;
    let* searchInput := querySelector ".search-box input" in
    (if searchInput then addEventListener ".search-box input" "input" else ret tt) ;;
    let* saveBtn := querySelector ".login-button" in
    (if saveBtn then addEventListener ".login-button" "click" else ret tt) ;;
    let* markAllBtn := querySelector "#mark-all-present" in
    (if markAllBtn then addEventListener "#mark-all-present" "click" else ret tt)
  else ret tt.

(** The student dashboard block (lines 200-221), then the rest of the
    handler. *)
Definition student_dashboard_init : M unit :=
  let* path := get (fun w => pathname (location w)) in
  if includes path "student-dashboard.html" then
    let* item := getItem "eduAttendUser" in
    let* user := lift (JSON_parse_item item) in
    let* wrong := lift (wrong_session user "student") in
    if wrong then navigate "student-login.html"
    else
      let* name := lift (display_name user) in
      let* username := lift (get_prop user "username") in
      set_property_if_present ".main-content header h1" "textContent" "Student Dashboard" ;;
      set_property_if_present ".main-content header p" "textContent"
        ("Welcome back, " +:+ ToString name +:+ "!") ;;
      set_property_if_present ".hide-mobile p" "textContent" (text_of name) ;;
      set_property_if_present ".hide-mobile p:last-child" "textContent"
        ("ID: " +:+ ToString (or_else username (Some (JStr "N/A")))) ;;
      set_property_if_present ".user-avatar" "src"
        ("https://ui-avatars.com/api/?name=" +:+ encodeURIComponent (ToString name) +:+
         "&background=0284c7&color=fff") ;;
      modify (add_pending LoadStudentAttendance) ;;
      attendance_page_init
  else attendance_page_init.

(** The faculty dashboard block (lines 185-197), then the rest of the
    handler. *)
Definition dashboard_init : M unit :=
  let* path := get (fun w => pathname (location w)) in
  if includes path "dashboard.html" then
    let* item := getItem "eduAttendUser" in
    let* user := lift (JSON_parse_item item) in
    let* wrong := lift (wrong_session user "faculty") in
    if wrong then navigate "faculty-login.html"
    else
      let* name := lift (display_name user) in
      set_property_if_present ".main-content header h1" "textContent"
        ("Welcome, " +:+ ToString name) ;;
      modify (add_pending LoadDashboardStats) ;;
      student_dashboard_init
  else student_dashboard_init.

(** The [DOMContentLoaded] handler. *)
Definition DOMContentLoaded : M unit :=
  let* togglePassword := querySelector "#togglePassword" in
  let* passwordInput := querySelector "#password" in
  (if togglePassword && passwordInput then addEventListener "#togglePassword" "click" else ret tt) ;;
  let* facultyForm := querySelector "#facultyLoginForm" in
  (if facultyForm then addEventListener "#facultyLoginForm" "submit" else ret tt) ;;
  let* studentForm := querySelector "#studentLoginForm" in
  (if studentForm then addEventListener "#studentLoginForm" "submit" else ret tt) ;;
  dashboard_init.

(** *** Rendering (lines 262-401) *)

(** [v === 0] *)
Definition is_zero (v : option json) : bool :=
  match v with
  | Some (JNum (S754_zero _)) => true
  | _ => false
  end.

(** [history.slice(0, n)] followed by [.forEach]: the records visited.  Only
    an array has both methods; a string has [slice] but its result has no
    [forEach]. *)
Definition slice_for_each (history : json) (n : nat) : completion (list json) :=
  match history with
  | JArr items => Normal (firstn n items)
  | JStr _ => Throw (TypeError (engine_message (NotAFunction "forEach")))
  | _ => Throw (TypeError (engine_message (NotAFunction "slice")))
  end.

(** [items.forEach(f)] *)
Fixpoint forEach {A} (items : list A) (f : A -> M unit) : M unit :=
  match items with
  | [] => ret tt
  | x :: rest => f x ;; forEach rest f
  end.

(** [el.appendChild(row)], on the markup of [el]. *)
Definition appendChild (sel row : string) : M unit :=
  fun w =>
    match elements (document w) !! sel with
    | Some el =>
        (Normal tt,
         set_document (set_elements
           (insert sel (<["innerHTML" := default "" (el !! "innerHTML") +:+ row]> el))) w)
    | None => (Throw (TypeError (engine_message (ReadOfNull "appendChild"))), w)
    end.

Definition no_recent_attendance : string :=
  "<tr><td colspan=" +:+ quoted "4" +:+ " style=" +:+ quoted "text-align: center;" +:+
  ">No recent attendance recorded.</td></tr>".

(** [v.toLowerCase()] on a value read from a record. *)
Definition lower_case_of (v : option json) : completion string :=
  match v with
  | None => Throw (TypeError (engine_message (ReadOfUndefined "toLowerCase")))
  | Some JNull => Throw (TypeError (engine_message (ReadOfNull "toLowerCase")))
  | Some (JStr s) => Normal (toLowerCase s)
  | Some _ => Throw (TypeError (engine_message (NotAFunction "toLowerCase")))
  end.

(** [record.student.name || record.student.username] *)
Definition student_name (record : json) : completion (option json) :=
  let? student := get_prop record "student" in
  let? n := get_prop_opt student "name" in
  if truthy n then Normal n else get_prop_opt student "username".

(** The markup given to one table row (lines 279-288). *)
Definition recent_row_innerHTML (record : json) : completion string :=
  let? created := get_prop record "created_at" in
  let date := Date_toLocaleTimeString created in
  let? name := student_name record in
  let? subject := get_prop record "subject" in
  let? status := get_prop record "status" in
  let? lowered := lower_case_of status in
  Normal (nl +:+
          "                        <td style=" +:+ dq +:+
          "display: flex; align-items: center; gap: 0.75rem;" +:+ dq +:+ ">" +:+ nl +:+
          "                            <img src=" +:+ dq +:+
          "https://ui-avatars.com/api/?name=" +:+ encodeURIComponent (ToString name) +:+
          "&background=f1f5f9&color=6366f1" +:+ dq +:+ " style=" +:+ dq +:+
          "width: 32px; border-radius: 8px;" +:+ dq +:+ ">" +:+ nl +:+
          "                            " +:+ ToString name +:+ nl +:+
          "                        </td>" +:+ nl +:+
          "                        <td>" +:+ ToString subject +:+ "</td>" +:+ nl +:+
          "                        <td>" +:+ date +:+ "</td>" +:+ nl +:+
          "                        <td><span class=" +:+ dq +:+ "status-badge " +:+ lowered +:+
          dq +:+ ">" +:+ ToString status +:+ "</span></td>" +:+ nl +:+
          "                    ").

(** The row as the table holds it once appended (lines 278 and 289): the
    markup as written, without the browser's normalisation. *)
Definition recent_row_html (record : json) : completion string :=
  let? inner := recent_row_innerHTML record in
  Normal ("<tr>" +:+ inner +:+ "</tr>").

(** Lines 266-267: the number of students goes to the first stat card. *)
Definition show_student_count (students : json) : M unit :=
  let* stats := count_all ".stat-card h3" in
  if (1 <=? stats)%nat then
    let* n := lift (get_prop students "length") in
    set_property_at ".stat-card h3" 0 "textContent" (text_of n)
  else ret tt.

(** Lines 271-292: the table of recent attendance. *)
Definition show_recent (history : json) : M unit :=
  let* tableBody := querySelector "table tbody" in
  if tableBody then
    set_property "table tbody" "innerHTML" "" ;;
    let* n := lift (get_prop history "length") in
    if is_zero n then set_property "table tbody" "innerHTML" no_recent_attendance
    else
      let* records := lift (slice_for_each history 5) in
      forEach records (fun record =>
        let* row := lift (recent_row_html record) in
        appendChild "table tbody" row)
  else ret tt.

(** [loadDashboardStats] (lines 263-296). *)
Definition loadDashboardStats : M unit :=
  try_catch
    (let* students := apiRequest "/users/students" no_options in
     show_student_count students ;;
     let* history := apiRequest "/attendance/all" no_options in
     show_recent history)
    (fun error => ret tt).

(** [history.filter(a => a.status === wanted)] on the elements of an array. *)
Fixpoint filter_status (wanted : string) (items : list json) : completion (list json) :=
  match items with
  | [] => Normal []
  | a :: rest =>
      match get_prop a "status" with
      | Throw e => Throw e
      | Normal st =>
          match filter_status wanted rest with
          | Throw e => Throw e
          | Normal kept => Normal (if is_string st wanted then a :: kept else kept)
          end
      end
  end.

(** [history.map(a => a.subject)] on the elements of an array. *)
Fixpoint map_subject (items : list json) : completion (list (option json)) :=
  match items with
  | [] => Normal []
  | a :: rest =>
      match get_prop a "subject" with
      | Throw e => Throw e
      | Normal sb =>
          match map_subject rest with
          | Throw e => Throw e
          | Normal sbs => Normal (sb :: sbs)
          end
      end
  end.

(** Lines 362-363 read [history.length] and call [history.filter]: past them
    [history] is an array. *)
Definition records_of (history : json) : completion (list json) :=
  match history with
  | JArr items => Normal items
  | JNull => Throw (TypeError (engine_message (ReadOfNull "length")))
  | _ => Throw (TypeError (engine_message (NotAFunction "filter")))
  end.

(** The figures of lines 362-365. *)
Record attendance_stats : Type := {
  totalClasses : number;
  presentCount : number;
  missCount : number;
  percentage : number
}.

Definition percentage_of (presentCount totalClasses : number) : number :=
  if num_gt totalClasses (Number_of_Z 0)
  then Math_round (num_mul (num_div presentCount totalClasses) (Number_of_Z 100))
  else Number_of_Z 0.

Definition compute_stats (items : list json) : completion attendance_stats :=
  match filter_status "Present" items with
  | Throw e => Throw e
  | Normal present =>
      let totalClasses := Number_of_nat (List.length items) in
      let presentCount := Number_of_nat (List.length present) in
      Normal {| totalClasses := totalClasses;
                presentCount := presentCount;
                missCount := num_sub totalClasses presentCount;
                percentage := percentage_of presentCount totalClasses |}
  end.

Definition log_heading : string :=
  "<h3 style=" +:+ quoted "margin-bottom: 1.5rem; color: #1e293b;" +:+ ">Recent Attendance Log</h3>".

Definition no_attendance_records : string :=
  "<p style=" +:+ quoted "color: #64748b;" +:+ ">No attendance records found.</p>".

(** The markup added for one record (lines 387-393). *)
Definition log_item_html (record : json) : completion string :=
  let? subject := get_prop record "subject" in
  let? date := get_prop record "date" in
  let? status := get_prop record "status" in
  let? lowered := lower_case_of status in
  Normal (nl +:+
          "                        <div class=" +:+ dq +:+ "course-item" +:+ dq +:+ ">" +:+ nl +:+
          "                            <div class=" +:+ dq +:+ "course-name" +:+ dq +:+ ">" +:+
          ToString subject +:+ "</div>" +:+ nl +:+
          "                            <div style=" +:+ dq +:+
          "color: #64748b; font-size: 0.85rem;" +:+ dq +:+ ">" +:+
          Date_toLocaleDateString date +:+ "</div>" +:+ nl +:+
          "                            <div style=" +:+ dq +:+ "font-weight: 600;" +:+ dq +:+
          " class=" +:+ dq +:+ "status-" +:+ lowered +:+ dq +:+ ">" +:+ ToString status +:+
          "</div>" +:+ nl +:+
          "                        </div>" +:+ nl +:+
          "                    ").

(** The loop of lines 386-394: the markup grows by one entry per record. *)
Fixpoint append_log_items (html : string) (records : list json) : completion string :=
  match records with
  | [] => Normal html
  | record :: rest =>
      match log_item_html record with
      | Throw e => Throw e
      | Normal item => append_log_items (html +:+ item) rest
      end
  end.

(** Lines 368-375: the figures go to the four stat cards. *)
Definition show_stats (st : attendance_stats) : M unit :=
  let* stats := count_all ".stat-card div:first-child" in
  if (4 <=? stats)%nat then
    set_property_at ".stat-card div:first-child" 0 "style.background"
      ("conic-gradient(var(--primary-blue) " +:+ Number_toString (percentage st) +:+
       "%, #f1f5f9 0)") ;;
    modify (set_document (set_root_style
      (insert "--attendance-pct" ("'" +:+ Number_toString (percentage st) +:+ "%'")))) ;;
    set_property_at ".stat-card div:first-child" 1 "textContent"
      (Number_toString (totalClasses st)) ;;
    set_property_at ".stat-card div:first-child" 2 "textContent"
      (Number_toString (presentCount st)) ;;
    set_property_at ".stat-card div:first-child" 3 "textContent"
      (Number_toString (missCount st))
  else ret tt.

(** Lines 378-397: the attendance log. *)
Definition show_log (items : list json) : M unit :=
  let* listContainer := querySelector ".performance-list" in
  if listContainer then
    let* subjects := lift (map_subject items) in
    let* html :=
      (if (List.length items =? 0)%nat then ret (log_heading +:+ no_attendance_records)
       else lift (append_log_items log_heading (firstn 10 items))) in
    set_property ".performance-list" "innerHTML" html
  else ret tt.

(** [loadStudentAttendance] (lines 359-401). *)
Definition loadStudentAttendance : M unit :=
  try_catch
    (let* history := apiRequest "/attendance/my-history" no_options in
     let* items := lift (records_of history) in
     let* st := lift (compute_stats items) in
     show_stats st ;;
     show_log items)
    (fun error => ret tt).

(** *** Marking (lines 338-356) *)

(** [classList.remove(c)] and [classList.add(c)] *)
Definition classList_remove (c : string) (classes : list string) : list string :=
  filter (fun c' => negb (String.eqb c' c)) classes.

Definition classList_add (c : string) (classes : list string) : list string :=
  if existsb (String.eqb c) classes then classes else classes ++ [c].

(** Lines 349-351 on the container of the button: [active] is taken from
    every action button of the container and given to button [i]. *)
Definition activate (i : nat) (buttons : list (list string)) : list (list string) :=
  let cleared :=
    map (fun classes =>
           if existsb (String.eqb "action-btn") classes
           then classList_remove "active" classes else classes) buttons in
  match cleared !! i with
  | Some classes => <[i := classList_add "active" classes]> cleared
  | None => cleared
  end.

(** The body sent by [markAttendance]. *)
Definition mark_body (studentId status : string) : string :=
  JSON_stringify (JObj [("studentId", JStr studentId); ("status", JStr status);
                        ("subject", JStr "CS101-A")]).

(** [markAttendance(studentId, status, btn)]: the button is button [i] of
    container [r]; a button that is in no container has no parent element. *)
Definition markAttendance (studentId status : string) (btn : nat * nat) : M unit :=
  try_catch
    (apiRequest "/attendance/mark"
       {| opt_method := Some "POST"; opt_body := Some (mark_body studentId status) |} ;;
     let* rows := get (fun w => action_rows (document w)) in
     match rows !! fst btn with
     | Some buttons =>
         if (snd btn <? List.length buttons)%nat
         then modify (set_document (set_action_rows
                (fun rs => <[fst btn := activate (snd btn) buttons]> rs)))
         else throw (TypeError (engine_message (ReadOfNull "querySelectorAll")))
     | None => throw (TypeError (engine_message (ReadOfNull "querySelectorAll")))
     end)
    (fun error => alert ("Failed to mark attendance: " +:+ message error)).

(** *** Logout (lines 404-408) *)

Definition logout : M unit :=
  removeItem "eduAttendToken" ;;
  removeItem "eduAttendUser" ;;
  navigate "index.html".

End Script.

(** ** The rest of the script *)

(** *** Markup (lines 315-328) *)

(** A template literal: its texts and the values put between them. *)
Inductive piece : Type :=
  | text (s : string)
  | value (s : string).

Definition content (p : piece) : string :=
  match p with
  | text s => s
  | value s => s
  end.

(** The string a template literal evaluates to. *)
Definition render (pieces : list piece) : string :=
  fold_right (fun p rest => content p +:+ rest) "" pieces.

(** [s] without the prefix [p], when [s] starts with [p]. *)
Fixpoint strip_prefix (p s : string) : option string :=
  match p with
  | EmptyString => Some s
  | String a p' =>
      match s with
      | String b s' => if Ascii.eqb a b then strip_prefix p' s' else None
      | EmptyString => None
      end
  end.

(** The text before the next double quote. *)
Fixpoint until_quote (s : string) : string :=
  match s with
  | EmptyString => EmptyString
  | String c r =>
      if Ascii.eqb c (ascii_of_nat 34) then EmptyString else String c (until_quote r)
  end.

(** The names of a [class] attribute, which are separated by spaces. *)
Fixpoint class_names (current s : string) : list string :=
  match s with
  | EmptyString => if String.eqb current "" then [] else [current]
  | String c r =>
      if Ascii.eqb c " " then
        if String.eqb current "" then class_names "" r else current :: class_names "" r
      else class_names (current +:+ String c "") r
  end.

(** The buttons a piece of markup brings when it becomes the content of an
    element: each tag written [<button class="..."] is a button with the
    classes of the attribute, in the order of the markup. *)
Fixpoint buttons_of (markup : string) : list (list string) :=
  match markup with
  | EmptyString => []
  | String c r =>
      match strip_prefix ("<button class=" +:+ dq) markup with
      | Some rest => class_names "" (until_quote rest) :: buttons_of r
      | None => buttons_of r
      end
  end.

Section MarkingPage.
Context `{Engine}.

(** *** The student list of the marking page (lines 299-335) *)

(** The template of one student row (lines 315-328). *)
Definition student_row_pieces (name username id : option json) : list piece :=
  [text (nl +:+ "                <div class=" +:+ dq +:+ "student-info" +:+ dq +:+ ">" +:+ nl
         +:+ "                    <img src=" +:+ dq +:+ "https://ui-avatars.com/api/?name=");
   value (encodeURIComponent (ToString name));
   text ("&background=f1f5f9&color=6366f1" +:+ dq +:+ " class=" +:+ dq +:+ "student-avatar"
         +:+ dq +:+ ">" +:+ nl +:+ "                    <div>" +:+ nl
         +:+ "                        <p class=" +:+ dq +:+ "student-name" +:+ dq +:+ ">");
   value (ToString name);
   text ("</p>" +:+ nl +:+ "                        <p class=" +:+ dq +:+ "student-id" +:+ dq
         +:+ ">#");
   value (ToString username);
   text ("</p>" +:+ nl +:+ "                    </div>" +:+ nl +:+ "                </div>"
         +:+ nl +:+ "                <div class=" +:+ dq +:+ "attendance-actions" +:+ dq
         +:+ " data-student-id=" +:+ dq);
   value (ToString id);
   text (dq +:+ ">" +:+ nl +:+ "                    <button class=" +:+ dq
         +:+ "action-btn btn-p" +:+ dq +:+ " onclick=" +:+ dq +:+ "markAttendance('");
   value (ToString id);
   text ("', 'Present', this)" +:+ dq +:+ ">Present</button>" +:+ nl
         +:+ "                    <button class=" +:+ dq +:+ "action-btn btn-a" +:+ dq
         +:+ " onclick=" +:+ dq +:+ "markAttendance('");
   value (ToString id);
   text ("', 'Absent', this)" +:+ dq +:+ ">Absent</button>" +:+ nl
         +:+ "                    <button class=" +:+ dq +:+ "action-btn btn-l" +:+ dq
         +:+ " onclick=" +:+ dq +:+ "markAttendance('");
   value (ToString id);
   text ("', 'Late', this)" +:+ dq +:+ ">Late</button>" +:+ nl +:+ "                </div>"
         +:+ nl +:+ "            ")].

(** The markup given to one student row (lines 315-328). *)
Definition student_row_innerHTML (student : json) : completion string :=
  let? name := display_name student in
  let? username := get_prop student "username" in
  let? id := get_prop student "_id" in
  Normal (render (student_row_pieces name username id)).

(** The row as the list holds it once appended (lines 313-314 and 329). *)
Definition student_row_html (student : json) : completion string :=
  let? inner := student_row_innerHTML student in
  Normal ("<div class=" +:+ quoted "student-row" +:+ ">" +:+ inner +:+ "</div>").

Definition no_students_found : string :=
  "<div style=" +:+ quoted "text-align: center; padding: 2rem; color: #64748b;" +:+
  ">No students found in the database.</div>".

Definition error_loading_students : string :=
  "<div style=" +:+ quoted "text-align: center; padding: 2rem; color: #ef4444;" +:+
  ">Error loading students.</div>".

(** [listContainer.innerHTML = markup] for a markup without action buttons:
    the rows that were in the list are gone.  The action buttons of the page
    are those of the rows of the list. *)
Definition replace_marking_list (markup : string) : M unit :=
  set_property ".marking-list" "innerHTML" markup ;;
  modify (set_document (set_action_rows (fun _ => []))).

(** [listContainer.appendChild(row)]: the markup of the row joins the list,
    and the buttons of that markup, which all sit in the one container of
    the row, become a container of the page. *)
Definition append_student_row (row : string) : M unit :=
  appendChild ".marking-list" row ;;
  modify (set_document (set_action_rows (fun rows => rows ++ [buttons_of row]))).

(** [students.forEach]: only an array has the method. *)
Definition for_each_of (students : json) : completion (list json) :=
  match students with
  | JArr items => Normal items
  | _ => Throw (TypeError (engine_message (NotAFunction "forEach")))
  end.

(** [loadStudentsForMarking] (lines 299-335). *)
Definition loadStudentsForMarking : M unit :=
  let* listContainer := querySelector ".marking-list" in
  if negb listContainer then ret tt
  else
    try_catch
      (let* students := apiRequest "/users/students" no_options in
       replace_marking_list "" ;;
       let* n := lift (get_prop students "length") in
       if is_zero n then replace_marking_list no_students_found
       else
         let* items := lift (for_each_of students) in
         forEach items (fun student =>
           let* row := lift (student_row_html student) in
           append_student_row row))
      (fun error => replace_marking_list error_loading_students).

(** *** The buttons of the marking page (lines 239-258) *)

(** The click handler of the save button (lines 241-244). *)
Definition saveBtn_click : M unit :=
  alert "Attendance session saved successfully!" ;;
  navigate "dashboard.html".

(** A list with the places of its elements. *)
Definition indexed {A} (l : list A) : list (nat * A) := combine (seq 0 (List.length l)) l.

(** [document.querySelectorAll('.btn-p')] filtered by line 252: the buttons
    of class [btn-p] that are not active, in document order, each as its
    container and its place there. *)
Definition present_buttons_to_click (rows : list (list (list string))) : list (nat * nat) :=
  flat_map (fun row =>
    flat_map (fun button =>
      if existsb (String.eqb "btn-p") (snd button) &&
         negb (existsb (String.eqb "active") (snd button))
      then [(fst row, fst button)] else [])
      (indexed (snd row)))
    (indexed rows).

(** The click handler of the mark-all button (lines 249-257).  Each click
    calls [markAttendance] with the student of the container ([ids] gives the
    [data-student-id] of each container) and status [Present]; the calls are
    not awaited, so the handler's alert comes before their answers, which are
    taken in the order of the clicks. *)
Definition markAllBtn_click (ids : nat -> string) : M unit :=
  let* rows := get (fun w => action_rows (document w)) in
  alert "All students marked as present!" ;;
  forEach (present_buttons_to_click rows)
    (fun btn => markAttendance (ids (fst btn)) "Present" btn).

End MarkingPage.

(** *** The password toggle (lines 110-115) *)

(** What the click handler touches: the [type] attribute of the password
    input and the class list of the toggle icon. *)
Record toggle_state : Type := {
  input_type : option string;
  icon_classes : list string
}.

(** [classList.toggle(c)] *)
Definition classList_toggle (c : string) (classes : list string) : list string :=
  if existsb (String.eqb c) classes then classList_remove c classes
  else classes ++ [c].

(** The click handler of the toggle (lines 110-115). *)
Definition togglePassword_click (s : toggle_state) : toggle_state :=
  let type := if bool_decide (input_type s = Some "password") then "text" else "password" in
  {| input_type := Some type;
     icon_classes := classList_toggle "fa-eye-slash" (classList_toggle "fa-eye" (icon_classes s)) |}.

(** * Example engine, pages and backends

    One concrete engine and a few concrete states, on which the properties
    below are instantiated.  The engine serialises and prints the values that
    occur in the examples (no fractional numbers, no escapes in strings),
    parses back exactly the texts it serialises from [documents], and shows a
    date as the text it was given. *)

Module Sample.

Fixpoint stringify (v : json) : string :=
  match v with
  | JNull => "null"
  | JBool b => if b then "true" else "false"
  | JNum x => match integer_value x with Some z => pretty z | None => "null" end
  | JStr s => quoted s
  | JArr items =>
      "[" +:+
      (fix join (l : list json) : string :=
         match l with
         | [] => ""
         | x :: rest =>
             match rest with
             | [] => stringify x
             | _ => stringify x +:+ "," +:+ join rest
             end
         end) items +:+ "]"
  | JObj props =>
      "{" +:+
      (fix join (l : list (string * json)) : string :=
         match l with
         | [] => ""
         | (k, x) :: rest =>
             match rest with
             | [] => quoted k +:+ ":" +:+ stringify x
             | _ => quoted k +:+ ":" +:+ stringify x +:+ "," +:+ join rest
             end
         end) props +:+ "}"
  end.

(** [String(v)] for arrays and objects of such values. *)
Fixpoint to_text (v : json) : string :=
  match v with
  | JNull => ""
  | JBool b => if b then "true" else "false"
  | JNum x => match integer_value x with Some z => pretty z | None => "NaN" end
  | JStr s => s
  | JArr items =>
      (fix join (l : list json) : string :=
         match l with
         | [] => ""
         | x :: rest =>
             match rest with
             | [] => to_text x
             | _ => to_text x +:+ "," +:+ join rest
             end
         end) items
  | JObj _ => "[object Object]"
  end.

Definition record (student subject status : string) : json :=
  JObj [("student", JObj [("name", JStr student); ("username", JStr student)]);
        ("subject", JStr subject); ("status", JStr status);
        ("date", JStr "2024-03-01"); ("created_at", JStr "2024-03-01T09:00:00Z")].

Definition faculty_session : json :=
  JObj [("token", JStr "tok-faculty"); ("role", JStr "faculty");
        ("name", JStr "Ada"); ("username", JStr "ada")].

Definition student_session : json :=
  JObj [("token", JStr "tok-student"); ("role", JStr "student");
        ("name", JStr "Bob"); ("username", JStr "bob")].

(** Ten records marked Present and five marked Absent. *)
Definition records_10_5 : list json :=
  repeat (record "Bob" "CS101-A" "Present") 10 ++ repeat (record "Bob" "CS101-A" "Absent") 5.

Definition history_10_5 : json := JArr records_10_5.

Definition documents : list json :=
  [JNull; JArr []; faculty_session; student_session; history_10_5;
   JArr [student_session]].

Definition parse (text : string) : option json :=
  find (fun v => String.eqb (stringify v) text) documents.

#[local] Instance engine : Engine := {|
  JSON_parse_value := parse;
  JSON_stringify := stringify;
  Number_toString_other := fun _ => "NaN";
  Object_toString := to_text;
  engine_message := fun f =>
    match f with
    | ReadOfNull k => "Cannot read properties of null (reading '" +:+ k +:+ "')"
    | ReadOfUndefined k => "Cannot read properties of undefined (reading '" +:+ k +:+ "')"
    | WriteOfNull k => "Cannot set properties of null (setting '" +:+ k +:+ "')"
    | NotAFunction f => f +:+ " is not a function"
    | BadJSON _ => "Unexpected token in JSON"
    end;
  encodeURIComponent := fun s => s;
  toLowerCase := lower;
  Date_toLocaleTimeString := fun v => match v with Some (JStr s) => s | _ => "Invalid Date" end;
  Date_toLocaleDateString := fun v => match v with Some (JStr s) => s | _ => "Invalid Date" end
|}.

Definition site (path : string) : Location :=
  {| hostname := "attend.example.edu"; port := ""; protocol := "https:"; pathname := path |}.

Definition page (els : list (string * gmap string string))
    (lists : list (string * list (gmap string string))) : dom :=
  {| elements := list_to_map els; element_lists := list_to_map lists;
     root_style := ∅; action_rows := []; listeners := [] |}.

Definition state (storage : list (string * string)) (path : string)
    (net : request -> fetch_outcome) (d : dom) : world :=
  {| localStorage := list_to_map storage; location := site path; href := None;
     alerts := []; requests := []; network := net; document := d; pending := [];
     API_URL := "/api" |}.

(** Responses of the backend and of a static host in front of it. *)
Definition json_response (v : json) : response :=
  {| status := 200; statusText := "OK";
     resp_headers := list_to_map [("content-type", "application/json; charset=utf-8");
                                  ("x-backend-server", "EduAttend-Node")];
     resp_text := Normal (stringify v) |}.

Definition html_response (code : N) (content_type : string)
    (more : list (string * string)) : response :=
  {| status := code; statusText := "Not Found";
     resp_headers := list_to_map (("content-type", content_type) :: more);
     resp_text := Normal "<!DOCTYPE html><html><body>Not Found</body></html>" |}.

(** A backend that answers each endpoint with a fixed value. *)
Definition backend (answers : list (string * json)) (r : request) : fetch_outcome :=
  match find (fun a => String.eqb ("/api" +:+ fst a) (req_url r)) answers with
  | Some a => Resolved (json_response (snd a))
  | None => Rejected (TypeError "Failed to fetch")
  end.

Definition login_page (form id_field : string) : dom :=
  page [(id_field, {["value" := "ada"]}); ("#password", {["value" := "secret"]});
        (form, ∅); (form +:+ " .login-button", ∅)] [].

Definition student_dashboard_page : dom :=
  page [(".main-content header h1", ∅); (".performance-list", ∅)]
       [(".stat-card div:first-child", [∅; ∅; ∅; ∅])].

Definition faculty_dashboard_page : dom :=
  page [(".main-content header h1", ∅); ("table tbody", {["innerHTML" := "<tr></tr>"]})]
       [(".stat-card h3", [∅; ∅])].

Definition marking_page : dom :=
  {| elements := ∅; element_lists := ∅; root_style := ∅;
     action_rows := [[["action-btn"; "btn-p"; "active"]; ["action-btn"; "btn-a"];
                      ["action-btn"; "btn-l"]]];
     listeners := [] |}.

End Sample.

(** * Vocabulary of the properties

    Derived readings of the script, used to state what it does. *)

Section Vocabulary.
Context `{Engine}.

(** The completion of [apiRequest], read off the network's answer. *)
Definition api_outcome (w : world) (endpoint : string) (opts : options) : completion json :=
  let url := request_url (API_URL w) endpoint in
  match network w (api_request (localStorage w !! "eduAttendToken") (API_URL w) endpoint opts) with
  | Rejected error => Throw (rethrow url error)
  | Resolved response =>
      match read_response url response with
      | Normal data => Normal data
      | Throw error => Throw (rethrow url error)
      end
  end.

(** The state in which the request of a submit handler is made. *)
Definition login_busy (p : portal) (button_el : gmap string string) (w : world) : world :=
  set_document
    (set_elements (insert (form p +:+ " .login-button")
       (<["innerHTML" := waiting_html p]> (<["disabled" := "true"]> button_el))))
    (set_document
       (set_elements (insert (form p +:+ " .login-button") (<["disabled" := "true"]> button_el)))
       w).

(** The value [getBaseUrl] returns, read off the override and the location. *)
Definition base_url_of (overrideUrl : option string) (loc : Location) : string :=
  if truthy_string overrideUrl then default "" overrideUrl
  else if String.eqb (port loc) "5000" then "/api"
  else if String.eqb (hostname loc) "localhost" || String.eqb (hostname loc) "127.0.0.1" ||
          startsWith (hostname loc) "192.168." || startsWith (hostname loc) "10." ||
          startsWith (hostname loc) "172." || String.eqb (protocol loc) "file:"
  then "http://localhost:5000/api"
  else "/api".

(** A host name the script takes for a development machine. *)
Definition local_host (h : string) : Prop :=
  h = "localhost" \/ h = "127.0.0.1" \/
  (exists rest, h = "192.168." +:+ rest) \/
  (exists rest, h = "10." +:+ rest) \/
  (exists rest, h = "172." +:+ rest).

(** No override is in use: none is stored, or the empty string is. *)
Definition no_override (w : world) : Prop :=
  localStorage w !! "eduAttendBackendUrl" = None \/
  localStorage w !! "eduAttendBackendUrl" = Some "".

(** A record whose [status] is exactly the string [s]. *)
Definition status_is (a : json) (s : string) : bool :=
  match a with
  | JObj props => is_string (assoc "status" props) s
  | _ => false
  end.

(** The number of records marked Present. *)
Definition count_present (items : list json) : nat :=
  List.length (List.filter (fun a => status_is a "Present") items).

(** The integer nearest to [100 * p / t], the upper one at a half. *)
Definition nearest_percent (p t : nat) : Z :=
  (200 * Z.of_nat p + Z.of_nat t) / (2 * Z.of_nat t).

(** [100 * p / t] lies halfway between two integers. *)
Definition halfway (p t : nat) : bool :=
  ((200 * Z.of_nat p) mod (2 * Z.of_nat t) =? Z.of_nat t)%Z.

(** Equality of numbers as data. *)
Definition same_number (x y : number) : bool :=
  match x, y with
  | S754_zero s, S754_zero s' => Bool.eqb s s'
  | S754_infinity s, S754_infinity s' => Bool.eqb s s'
  | S754_nan, S754_nan => true
  | S754_finite s m e, S754_finite s' m' e' => Bool.eqb s s' && Pos.eqb m m' && Z.eqb e e'
  | _, _ => false
  end.

(** The percentage of [p] among [t] is the nearest integer, either
    neighbour at a half. *)
Definition percentage_checked (p t : nat) : bool :=
  let r := percentage_of (Number_of_nat p) (Number_of_nat t) in
  same_number r (Number_of_Z (nearest_percent p t)) ||
  (halfway p t && same_number r (Number_of_Z (nearest_percent p t - 1))).

End Vocabulary.

(** ** Further example data *)

Module Cases.

Definition student (id name username : string) : json :=
  JObj [("_id", JStr id); ("name", JStr name); ("username", JStr username)].

Definition students : list json := [student "s1" "Bob" "bob"; student "s2" "" "eve"].

Definition two_students : json := JArr students.

Definition students_and_null : json := JArr [student "s1" "Bob" "bob"; JNull].

Definition invalid_credentials : json := JObj [("error", JStr "Invalid credentials")].

Definition failed_to_fetch : json := JObj [("message", JStr "Failed to fetch")].

(** Seven records, the sixth of which has no student. *)
Definition seven : list json :=
  repeat (Sample.record "Bob" "CS101-A" "Present") 5 ++
  [JObj [("status", JStr "Late")]; Sample.record "Bob" "CS101-A" "Absent"].

Definition seven_records : json := JArr seven.

(** Twelve complete records. *)
Definition twelve : list json := repeat (Sample.record "Bob" "CS101-A" "Present") 12.

Definition twelve_records : json := JArr twelve.

(** Three records, the second of which has no status. *)
Definition three : list json :=
  [Sample.record "Bob" "CS101-A" "Present"; JObj [("subject", JStr "CS101-A")];
   Sample.record "Bob" "CS101-A" "Absent"].

Definition three_records : json := JArr three.

Definition documents : list json :=
  Sample.documents ++
  [two_students; students_and_null; invalid_credentials; failed_to_fetch; seven_records;
   twelve_records; three_records; JObj []].

Definition parse (text : string) : option json :=
  find (fun v => String.eqb (Sample.stringify v) text) documents.

#[local] Instance engine : Engine := {|
  JSON_parse_value := parse;
  JSON_stringify := Sample.stringify;
  Number_toString_other := fun _ => "NaN";
  Object_toString := Sample.to_text;
  engine_message := @engine_message Sample.engine;
  encodeURIComponent := fun s => s;
  toLowerCase := lower;
  Date_toLocaleTimeString := @Date_toLocaleTimeString Sample.engine;
  Date_toLocaleDateString := @Date_toLocaleDateString Sample.engine
|}.

(** A response with a status, a content type and a body. *)
Definition answer (code : N) (reason content_type body : string) : response :=
  {| status := code; statusText := reason;
     resp_headers := list_to_map [("content-type", content_type);
                                  ("x-backend-server", "EduAttend-Node")];
     resp_text := Normal body |}.

(** A network that gives every request the same response. *)
Definition always (r : response) : request -> fetch_outcome := fun _ => Resolved r.

(** A backend that answers each endpoint with a status and a JSON value. *)
Definition backend (answers : list (string * (N * json))) (r : request) : fetch_outcome :=
  match find (fun a => String.eqb ("/api" +:+ fst a) (req_url r)) answers with
  | Some a =>
      Resolved (answer (fst (snd a)) "" "application/json" (Sample.stringify (snd (snd a))))
  | None => Rejected (TypeError "Failed to fetch")
  end.

Definition blank_page : dom := Sample.page [] [].

Definition list_page : dom :=
  {| elements := {[".marking-list" := {["innerHTML" := "<p>Loading...</p>"]}]};
     element_lists := ∅; root_style := ∅;
     action_rows := [[["action-btn"; "btn-p"; "active"]]];
     listeners := [] |}.

End Cases.

(** * Vocabulary of the further properties *)

Section MoreVocabulary.
Context `{Engine}.

(** Somewhere in [s] a character other than a colon is followed by two
    slashes. *)
Fixpoint has_doubled_slash (s : string) : bool :=
  match s with
  | EmptyString => false
  | String c r => (negb (Ascii.eqb c ":") && startsWith r "//") || has_doubled_slash r
  end.

(** The test of line 53 on the content type of a response. *)
Definition json_typed (r : response) : bool :=
  truthy_string (headers_get r "content-type") &&
  includes (default "" (headers_get r "content-type")) "application/json".

(** The request [apiRequest] sends from a state. *)
Definition request_of (w : world) (endpoint : string) (opts : options) : request :=
  api_request (localStorage w !! "eduAttendToken") (API_URL w) endpoint opts.

(** The outcome of the login request is data whose role is the portal's. *)
Definition login_accepted (p : portal) (outcome : completion json) : bool :=
  match outcome with
  | Normal data =>
      match get_prop data "role" with
      | Normal r => is_string r (role p)
      | Throw _ => false
      end
  | Throw _ => false
  end.

(** A computation that stays on the page: it leaves the storage, the
    address, the alerts, the network, the base URL and the started loaders as
    they are, and removes no element. *)
Definition quiet {A} (m : M A) : Prop :=
  forall w : world,
    let w' := snd (m w) in
    localStorage w' = localStorage w /\ location w' = location w /\ href w' = href w /\
    alerts w' = alerts w /\ network w' = network w /\ API_URL w' = API_URL w /\
    pending w' = pending w /\
    (forall sel : string,
       is_Some (elements (document w) !! sel) -> is_Some (elements (document w') !! sel)).

(** The rows that come out before the first record that cannot be shown. *)
Fixpoint shown_before_failure (markup : json -> completion string) (items : list json)
    : list string :=
  match items with
  | [] => []
  | x :: rest =>
      match markup x with
      | Normal row => row :: shown_before_failure markup rest
      | Throw _ => []
      end
  end.

(** Pieces of markup put one after another. *)
Definition join (rows : list string) : string := fold_right String.append "" rows.

(** [el.classList.contains(c)] *)
Definition has_class (c : string) (classes : list string) : bool :=
  existsb (String.eqb c) classes.

(** The number of buttons of a container that are active. *)
Definition active_count (buttons : list (list string)) : nat :=
  List.length (List.filter (has_class "active") buttons).

(** A container all of whose buttons are action buttons, one of them active
    at most. *)
Definition one_choice (buttons : list (list string)) : Prop :=
  Forall (fun classes => has_class "action-btn" classes = true) buttons /\
  (active_count buttons <= 1)%nat.

(** A click on a button of the marking page: the student, the status and the
    button. *)
Definition click : Type := (string * string) * (nat * nat).

(** The field is shown in clear. *)
Definition in_clear (s : toggle_state) : bool :=
  bool_decide (input_type s = Some "text").

(** Clicks on the buttons of the marking page, one after another. *)
Definition clicks_run (clicks : list click) : M unit :=
  forEach clicks (fun c => markAttendance (fst (fst c)) (snd (fst c)) (snd c)).








(** A Present button that is not active sits at place [btn]. *)
Definition to_click (rows : list (list (list string))) (btn : nat * nat) : Prop :=
  exists (buttons : list (list string)) (classes : list string),
    rows !! fst btn = Some buttons /\ buttons !! snd btn = Some classes /\
    In "btn-p" classes /\ ~ In "active" classes.

(** Document order on the places of buttons. *)
Definition before (a b : nat * nat) : Prop :=
  (fst a < fst b)%nat \/ (fst a = fst b /\ (snd a < snd b)%nat).

(** The request that marks a student Present. *)
Definition present_request (w : world) (studentId : string) : request :=
  request_of w "/attendance/mark"
    {| opt_method := Some "POST";
       opt_body := Some (JSON_stringify (JObj [("studentId", JStr studentId);
                                               ("status", JStr "Present");
                                               ("subject", JStr "CS101-A")])) |}.

(** The request of a submit handler, from the values of the two fields. *)
Definition login_request (p : portal) (w : world) (id_el pw_el : gmap string string) : request :=
  request_of w "/auth/login"
    (login_options p (default "" (id_el !! "value")) (default "" (pw_el !! "value"))).

End MoreVocabulary.

(** * Properties *)

(** ** Running script code step by step *)

Section Steps.
Context `{Engine}.

Lemma bind_normal {A B} (m : M A) (k : A -> M B) (w w' : world) (a : A) :
  m w = (Normal a, w') -> bind m k w = k a w'.
Proof. unfold bind. intros ->. reflexivity. Qed.

Lemma bind_throw {A B} (m : M A) (k : A -> M B) (w w' : world) (e : exn) :
  m w = (Throw e, w') -> bind m k w = (Throw e, w').
Proof. unfold bind. intros ->. reflexivity. Qed.

Lemma set_property_at_run (sel : string) (i : nat) (prop v : string) (w : world)
    (l : list (gmap string string)) (el : gmap string string) :
  element_lists (document w) !! sel = Some l -> l !! i = Some el ->
  set_property_at sel i prop v w =
  (Normal tt, set_document (set_element_lists (insert sel (<[i := <[prop := v]> el]> l))) w).
Proof. intros Hl Hi. unfold set_property_at. rewrite Hl. cbn [from_option id]. rewrite Hi. reflexivity. Qed.

Lemma set_property_run (sel prop v : string) (w : world) (el : gmap string string) :
  elements (document w) !! sel = Some el ->
  set_property sel prop v w =
  (Normal tt, set_document (set_elements (insert sel (<[prop := v]> el))) w).
Proof. intros Hel. unfold set_property. rewrite Hel. reflexivity. Qed.

End Steps.

(** ** What a call of [apiRequest] does *)

Section ApiRequestFacts.
Context `{Engine}.

(** [apiRequest] sends exactly one request and changes nothing else. *)
Lemma apiRequest_run (endpoint : string) (opts : options) (w : world) :
  apiRequest endpoint opts w =
  (api_outcome w endpoint opts,
   add_request (api_request (localStorage w !! "eduAttendToken") (API_URL w) endpoint opts) w).
Proof.
  unfold apiRequest, api_outcome, bind, try_catch, fetch, getItem, get, modify, lift, throw, ret, bind.
  cbn.
  destruct (network w _) as [error | response]; [reflexivity|].
  destruct (read_response _ response); reflexivity.
Qed.

(** The outcome depends on the storage, the base URL and the network only. *)
Lemma api_outcome_ext (w1 w2 : world) (endpoint : string) (opts : options) :
  localStorage w1 = localStorage w2 -> API_URL w1 = API_URL w2 -> network w1 = network w2 ->
  api_outcome w1 endpoint opts = api_outcome w2 endpoint opts.
Proof.
  intros Hs Hu Hn. unfold api_outcome. rewrite Hs, Hu, Hn. reflexivity.
Qed.

End ApiRequestFacts.

(** ** Logout *)

(** C8.  [logout] removes the two session keys [eduAttendToken] and
    [eduAttendUser] from local storage and navigates to [index.html]; every
    other stored key, the [eduAttendBackendUrl] override among them, keeps
    its value. *)
Theorem logout_removes_session_only (w : world) :
  let w' := snd (logout w) in
  fst (logout w) = Normal tt /\
  localStorage w' = delete "eduAttendUser" (delete "eduAttendToken" (localStorage w)) /\
  localStorage w' !! "eduAttendToken" = None /\
  localStorage w' !! "eduAttendUser" = None /\
  (forall k : string, k <> "eduAttendToken" -> k <> "eduAttendUser" ->
     localStorage w' !! k = localStorage w !! k) /\
  localStorage w' !! "eduAttendBackendUrl" = localStorage w !! "eduAttendBackendUrl" /\
  href w' = Some "index.html".
Proof.
  cbn.
  assert (Hframe : forall k : string, k <> "eduAttendToken" -> k <> "eduAttendUser" ->
            delete "eduAttendUser" (delete "eduAttendToken" (localStorage w)) !! k
            = localStorage w !! k).
  { intros k Ht Hu. rewrite lookup_delete_ne by congruence.
    apply lookup_delete_ne. congruence. }
  repeat split.
  - rewrite lookup_delete_ne by discriminate. apply lookup_delete_eq.
  - apply lookup_delete_eq.
  - exact Hframe.
  - apply Hframe; discriminate.
Qed.

(** ** Marking attendance *)

Section Marking.
Context `{Engine}.

(** C9.  Whatever the student, the status and the button, [markAttendance]
    sends one POST to [/attendance/mark] whose body is the serialised object
    with the given [studentId] and [status] and with [subject] fixed to
    [CS101-A]. *)
Theorem markAttendance_request (studentId status : string) (btn : nat * nat) (w : world) :
  requests (snd (markAttendance studentId status btn w)) =
  requests w ++
  [ {| req_url := request_url (API_URL w) "/attendance/mark";
       req_method := Some "POST";
       req_body := Some (JSON_stringify (JObj [("studentId", JStr studentId);
                                               ("status", JStr status);
                                               ("subject", JStr "CS101-A")]));
       req_headers := req_headers (api_request (localStorage w !! "eduAttendToken")
                                     (API_URL w) "/attendance/mark" no_options) |} ].
Proof.
  unfold markAttendance, try_catch, bind. rewrite apiRequest_run.
  destruct (api_outcome w _ _) as [data | error]; cbn -[Nat.ltb]; [|reflexivity].
  destruct (action_rows (document w) !! fst btn) as [buttons|]; cbn -[Nat.ltb]; [|reflexivity].
  destruct (snd btn <? List.length buttons)%nat; reflexivity.
Qed.

(** X5.  When the call succeeds, [active] is taken from every action button
    of the clicked button's container and given to the clicked button; no
    alert is shown. *)
Theorem markAttendance_success (studentId status : string) (btn : nat * nat) (w : world)
    (data : json) (buttons : list (list string)) :
  fst (apiRequest "/attendance/mark"
         {| opt_method := Some "POST"; opt_body := Some (mark_body studentId status) |} w)
    = Normal data ->
  action_rows (document w) !! fst btn = Some buttons ->
  (snd btn < List.length buttons)%nat ->
  let w' := snd (markAttendance studentId status btn w) in
  action_rows (document w') = <[fst btn := activate (snd btn) buttons]> (action_rows (document w)) /\
  alerts w' = alerts w.
Proof.
  intros Hok Hrow Hlt. unfold markAttendance, try_catch, bind.
  rewrite apiRequest_run in *. cbn in Hok. rewrite Hok. cbn -[Nat.ltb]. rewrite Hrow.
  apply Nat.ltb_lt in Hlt. rewrite Hlt. split; reflexivity.
Qed.

(** C10.  When the request to [/attendance/mark] throws, [markAttendance]
    leaves the document as it was, the class lists of the action buttons in
    particular, and the failure is shown in one alert. *)
Theorem markAttendance_failure (studentId status : string) (btn : nat * nat) (w : world)
    (error : exn) :
  fst (apiRequest "/attendance/mark"
         {| opt_method := Some "POST"; opt_body := Some (mark_body studentId status) |} w)
    = Throw error ->
  let w' := snd (markAttendance studentId status btn w) in
  fst (markAttendance studentId status btn w) = Normal tt /\
  action_rows (document w') = action_rows (document w) /\
  document w' = document w /\
  alerts w' = alerts w ++ ["Failed to mark attendance: " +:+ message error] /\
  localStorage w' = localStorage w /\
  href w' = href w.
Proof.
  intros Hfail. unfold markAttendance, try_catch, bind.
  rewrite apiRequest_run in *. cbn in Hfail. rewrite Hfail. cbn.
  repeat split.
Qed.

End Marking.

(** ** Base URL resolution *)

Lemma startsWith_spec (s p : string) :
  startsWith s p = true <-> exists rest : string, s = p +:+ rest.
Proof.
  unfold startsWith. revert s. induction p as [|a p IH]; intros s.
  - split; [intros _; exists s; reflexivity | intros _; destruct s; reflexivity].
  - destruct s as [|b s]; cbn.
    + split; [discriminate | intros [rest Hrest]; discriminate].
    + destruct (ascii_dec a b) as [Heq|Hne].
      * subst b. rewrite IH. split; intros [rest Hr]; exists rest; [rewrite Hr; reflexivity|].
        change (String a s = String a (p +:+ rest)) in Hr. congruence.
      * split; [discriminate|].
        intros [rest Hrest]. change (String b s = String a (p +:+ rest)) in Hrest. congruence.
Qed.

Lemma local_host_test (h : string) :
  String.eqb h "localhost" || String.eqb h "127.0.0.1" || startsWith h "192.168." ||
  startsWith h "10." || startsWith h "172." = true <-> local_host h.
Proof.
  unfold local_host.
  rewrite !orb_true_iff, !String.eqb_eq, !startsWith_spec. tauto.
Qed.

Lemma getBaseUrl_run (w : world) :
  getBaseUrl w = (Normal (base_url_of (localStorage w !! "eduAttendBackendUrl") (location w)), w).
Proof.
  unfold getBaseUrl, base_url_of, bind, getItem, get, ret.
  cbn -[String.eqb startsWith].
  destruct (truthy_string _); [reflexivity|].
  destruct (String.eqb (port (location w)) "5000"); [reflexivity|].
  match goal with |- context [if ?b then _ else _] => destruct b end; reflexivity.
Qed.

(** C5, amended.  [getBaseUrl] only reads the state, and resolves the base
    URL in this order: a stored override that is not empty is returned;
    otherwise port 5000 gives [/api]; otherwise a local host name or the
    [file:] protocol gives [http://localhost:5000/api]; otherwise [/api]. *)
Theorem getBaseUrl_priority (w : world) :
  snd (getBaseUrl w) = w /\
  (forall u : string, localStorage w !! "eduAttendBackendUrl" = Some u -> u <> "" ->
     fst (getBaseUrl w) = Normal u) /\
  (no_override w -> port (location w) = "5000" -> fst (getBaseUrl w) = Normal "/api") /\
  (no_override w -> port (location w) <> "5000" ->
     local_host (hostname (location w)) \/ protocol (location w) = "file:" ->
     fst (getBaseUrl w) = Normal "http://localhost:5000/api") /\
  (no_override w -> port (location w) <> "5000" ->
     ~ local_host (hostname (location w)) -> protocol (location w) <> "file:" ->
     fst (getBaseUrl w) = Normal "/api").
Proof.
  rewrite getBaseUrl_run. cbn [fst snd]. unfold base_url_of, no_override.
  pose proof (local_host_test (hostname (location w))) as Hhost.
  destruct (String.eqb (hostname (location w)) "localhost" || _ || _ || _ || _) eqn:Htest.
  all: destruct (String.eqb_spec (port (location w)) "5000") as [Hp|Hp].
  all: destruct (String.eqb_spec (protocol (location w)) "file:") as [Hf|Hf].
  all: destruct (localStorage w !! "eduAttendBackendUrl") as [u|] eqn:Hov; cbn.
  all: try destruct (String.eqb_spec u "") as [->|Hu]; cbn.
  all: repeat split; intros; simplify_eq; try reflexivity; try tauto.
  all: try (exfalso; intuition congruence).
Qed.

(** ** Login *)

(** Unfolding of the projections of an updated state. *)
Ltac world_simpl :=
  cbn [fst snd localStorage location href alerts requests network document pending API_URL
       elements element_lists root_style action_rows listeners
       set_localStorage set_href add_alert add_request set_document add_pending set_API_URL
       set_elements set_element_lists set_root_style set_action_rows add_listener] in *.

Section Login.
Context `{Engine}.

(** The [try] block, case by case on the outcome of the request. *)
Lemma login_attempt_run (p : portal) (username password : string) (w : world) :
  login_attempt p username password w =
  let w1 := add_request (api_request (localStorage w !! "eduAttendToken") (API_URL w)
                           "/auth/login" (login_options p username password)) w in
  match api_outcome w "/auth/login" (login_options p username password) with
  | Throw e => (Throw e, w1)
  | Normal data =>
      match get_prop data "role", get_prop data "token" with
      | Throw e, _ => (Throw e, w1)
      | Normal r, tok =>
          if is_string r (role p) then
            match tok with
            | Normal t =>
                (Normal tt,
                 set_href (dashboard p)
                   (set_localStorage (insert "eduAttendUser" (JSON_stringify data))
                      (set_localStorage (insert "eduAttendToken" (ToString t)) w1)))
            | Throw e => (Throw e, w1)
            end
          else (Throw (Error (refusal p)), w1)
      end
  end.
Proof.
  unfold login_attempt, bind. rewrite apiRequest_run. fold (login_options p username password).
  destruct (api_outcome w _ _) as [data|e]; [|reflexivity].
  unfold lift. destruct (get_prop data "role") as [r|e]; [|reflexivity].
  destruct (is_string r (role p)); cbn; [|reflexivity].
  destruct (get_prop data "token"); reflexivity.
Qed.

Lemma login_submit_unfold (p : portal) (w : world) (id_el pw_el button_el : gmap string string) :
  elements (document w) !! id_field p = Some id_el ->
  elements (document w) !! "#password" = Some pw_el ->
  elements (document w) !! (form p +:+ " .login-button") = Some button_el ->
  login_submit p w =
  try_catch
    (login_attempt p (default "" (id_el !! "value")) (default "" (pw_el !! "value")))
    (login_failed p) (login_busy p button_el w).
Proof.
  intros Hid Hpw Hbtn.
  unfold login_submit, login_busy, bind, get_value, set_property.
  rewrite Hid, Hpw, Hbtn. world_simpl. rewrite lookup_insert_eq. reflexivity.
Qed.

(** The [catch] block shows one alert and touches nothing but the button. *)
Lemma login_failed_run (p : portal) (error : exn) (w : world) (el : gmap string string) :
  elements (document w) !! (form p +:+ " .login-button") = Some el ->
  exists w' : world,
    login_failed p error w = (Normal tt, w') /\
    localStorage w' = localStorage w /\ href w' = href w /\ requests w' = requests w /\
    alerts w' = alerts w ++ [message error].
Proof.
  intros Hbtn. unfold login_failed, bind, alert, modify, set_property.
  world_simpl. rewrite Hbtn. world_simpl. rewrite lookup_insert_eq.
  eexists. split; [reflexivity|]. world_simpl. repeat split.
Qed.

Lemma login_busy_outcome (p : portal) (button_el : gmap string string) (w : world)
    (endpoint : string) (opts : options) :
  api_outcome (login_busy p button_el w) endpoint opts = api_outcome w endpoint opts.
Proof. apply api_outcome_ext; reflexivity. Qed.

(** C1.  Unless the login request of a portal returns data whose [role] is
    the portal's role, the submit handler writes nothing to local storage
    (neither [eduAttendToken] nor [eduAttendUser]), asks for no navigation,
    and shows one alert.  When data came back with another role, or with
    none, the alert is the portal's refusal. *)
Theorem login_wrong_role_refused (p : portal) (w : world)
    (id_el pw_el button_el : gmap string string) :
  elements (document w) !! id_field p = Some id_el ->
  elements (document w) !! "#password" = Some pw_el ->
  elements (document w) !! (form p +:+ " .login-button") = Some button_el ->
  (forall (data : json) (r : option json),
     fst (apiRequest "/auth/login"
            (login_options p (default "" (id_el !! "value")) (default "" (pw_el !! "value"))) w)
       = Normal data ->
     get_prop data "role" = Normal r -> is_string r (role p) = false) ->
  let w' := snd (login_submit p w) in
  fst (login_submit p w) = Normal tt /\
  localStorage w' = localStorage w /\
  href w' = href w /\
  exists msg : string,
    alerts w' = alerts w ++ [msg] /\
    (forall data : json,
       fst (apiRequest "/auth/login"
              (login_options p (default "" (id_el !! "value")) (default "" (pw_el !! "value"))) w)
         = Normal data ->
       data <> JNull -> msg = refusal p).
Proof.
  intros Hid Hpw Hbtn Hrole.
  rewrite apiRequest_run in Hrole |- *. cbn [fst] in Hrole |- *.
  rewrite (login_submit_unfold p w id_el pw_el button_el Hid Hpw Hbtn).
  unfold try_catch. rewrite login_attempt_run, login_busy_outcome. cbv zeta.
  set (w1 := add_request _ (login_busy p button_el w)).
  assert (Hb1 : elements (document w1) !! (form p +:+ " .login-button")
                = Some (<["innerHTML" := waiting_html p]> (<["disabled" := "true"]> button_el))).
  { subst w1. unfold login_busy. world_simpl. apply lookup_insert_eq. }
  assert (Hfail : forall e : exn,
            let w' := snd (login_failed p e w1) in
            fst (login_failed p e w1) = Normal tt /\ localStorage w' = localStorage w /\
            href w' = href w /\ alerts w' = alerts w ++ [message e]).
  { intros e. destruct (login_failed_run p e w1 _ Hb1) as (w3 & -> & Hs & Hh & _ & Ha).
    cbn [fst snd]. rewrite Hs, Hh, Ha. repeat split. }
  destruct (api_outcome w "/auth/login" _) as [data|e] eqn:Hdata.
  - destruct (get_prop data "role") as [r|e] eqn:Hr.
    + rewrite (Hrole data r eq_refl Hr).
      destruct (Hfail (Error (refusal p))) as (Hc & Hs & Hh & Ha).
      repeat split; try assumption. exists (refusal p). split; [exact Ha | reflexivity].
    + destruct (Hfail e) as (Hc & Hs & Hh & Ha).
      repeat split; try assumption. exists (message e). split; [exact Ha|].
      intros data' [= <-] Hnn. destruct data; cbn in Hr; congruence.
  - clear Hrole. destruct (Hfail e) as (Hc & Hs & Hh & Ha).
    repeat split; try assumption. exists (message e). split; [exact Ha|].
    intros data' Hdata'. discriminate Hdata'.
Qed.


End Login.

(** ** HTML bodies *)

Section HtmlBodies.
Context `{Engine}.

Lemma html_shaped_starts (text : string) :
  html_shaped text = true -> exists rest : string, trim text = "<" +:+ rest.
Proof.
  unfold html_shaped. rewrite orb_true_iff, !startsWith_spec.
  intros [[rest ->] | [rest ->]]; eexists; reflexivity.
Qed.

(** An HTML-shaped text is not JSON. *)
Lemma html_shaped_not_json (text : string) :
  html_shaped text = true -> exists e : exn, JSON_parse text = Throw e.
Proof.
  intros Hhtml. destruct (html_shaped_starts text Hhtml) as [rest Hrest].
  assert (Hlt : startsWith (trim text) "<" = true) by (apply startsWith_spec; eauto).
  unfold JSON_parse. rewrite Hlt. eauto.
Qed.

Lemma html_shaped_not_blank (text : string) :
  html_shaped text = true -> String.eqb (trim text) "" = false /\ String.eqb text "" = false.
Proof.
  intros Hhtml. destruct (html_shaped_starts text Hhtml) as [rest Hrest].
  split.
  - rewrite Hrest. reflexivity.
  - destruct text; [discriminate Hrest | reflexivity].
Qed.

(** The data read from an HTML-shaped body. *)
Lemma read_body_html (url : string) (resp : response) (text : string) :
  html_shaped text = true ->
  read_body url resp text =
  if truthy_string (headers_get resp "content-type") &&
     includes (default "" (headers_get resp "content-type")) "application/json"
  then Throw (Error (if bool_decide (headers_get resp "X-Backend-Server" = Some "EduAttend-Node")
                     then msg_alive_html
                     else msg_intercepted (headers_get resp "Server")))
  else Normal (JObj [("message",
                      JStr (if truthy_string (headers_get resp "X-Backend-Server")
                            then msg_html_page url
                            else msg_not_reached (headers_get resp "Server")))]).
Proof.
  intros Hhtml. unfold read_body.
  destruct (html_shaped_not_blank text Hhtml) as [Htrim Htext].
  destruct (html_shaped_not_json text Hhtml) as [e He].
  rewrite Hhtml, Htrim, Htext, He. cbn [negb or_catch].
  destruct (truthy_string (headers_get resp "content-type") && _); [reflexivity|].
  destruct (truthy_string (headers_get resp "X-Backend-Server")); reflexivity.
Qed.

(** None of the diagnostics is the text that the outer [catch] rewrites. *)
Lemma rethrow_diagnostic (url : string) (server : option string) (alive reached : bool) :
  rethrow url (Error (if alive then msg_alive_html else msg_intercepted server))
    = Error (if alive then msg_alive_html else msg_intercepted server) /\
  rethrow url (Error (if reached then msg_html_page url else msg_not_reached server))
    = Error (if reached then msg_html_page url else msg_not_reached server).
Proof. destruct alive, reached; split; reflexivity. Qed.

(** C4, amended.  For a response whose body is HTML-shaped, [apiRequest]
    classifies by the [X-Backend-Server] header as follows.  When the content
    type contains [application/json] it throws: the message says the backend
    is alive but returned an HTML page when the header is exactly
    [EduAttend-Node], and that another server intercepted the request
    otherwise.  For any other content type the message says the backend was
    not reached when the header is missing or empty, and that the backend
    answered with an HTML page otherwise; that message is thrown when the
    status is not 2xx and is returned as [data.message] when it is.  The four
    messages are the texts of lines 65, 66, 84 and 86. *)
Theorem html_body_classification (w : world) (endpoint : string) (opts : options)
    (resp : response) (text : string) :
  network w (api_request (localStorage w !! "eduAttendToken") (API_URL w) endpoint opts)
    = Resolved resp ->
  resp_text resp = Normal text ->
  html_shaped text = true ->
  let server := headers_get resp "Server" in
  let backend := headers_get resp "X-Backend-Server" in
  let contentType := headers_get resp "content-type" in
  let url := request_url (API_URL w) endpoint in
  fst (apiRequest endpoint opts w) =
  if truthy_string contentType && includes (default "" contentType) "application/json"
  then
    Throw (Error
      (if bool_decide (backend = Some "EduAttend-Node")
       then "The backend is alive but returned an HTML error page. Check backend logs for route matching issues."
       else "The request was intercepted by a different server (" +:+
            (if truthy_string server then default "" server else "Unknown") +:+
            "). This usually means your deployment's /api route is not correctly pointing to the Node.js backend."))
  else
    let m :=
      if truthy_string backend
      then "The backend responded with an HTML page for " +:+ url +:+
           ". This implies a 404 or a server-side redirect occurred."
      else "CRITICAL: The backend server was NOT reached. Request was handled by: " +:+
           (if truthy_string server then default "" server else "a static host") +:+
           ". Ensure your deployment configuration routes /api to the Node server." in
    if ok resp then Normal (JObj [("message", JStr m)]) else Throw (Error m).
Proof.
  intros Hnet Htext Hhtml. cbv zeta.
  rewrite apiRequest_run. cbn [fst]. unfold api_outcome. rewrite Hnet.
  unfold read_response. rewrite Htext. cbn [and_then].
  rewrite (read_body_html _ resp text Hhtml).
  destruct (rethrow_diagnostic (request_url (API_URL w) endpoint) (headers_get resp "Server")
              (bool_decide (headers_get resp "X-Backend-Server" = Some "EduAttend-Node"))
              (truthy_string (headers_get resp "X-Backend-Server"))) as [Hjson Hother].
  destruct (truthy_string (headers_get resp "content-type") && _).
  - cbn [and_then]. rewrite Hjson. reflexivity.
  - cbn [and_then]. destruct (ok resp); cbn [negb]; [reflexivity|].
    destruct (truthy_string (headers_get resp "X-Backend-Server")); reflexivity.
Qed.

End HtmlBodies.

(** ** Page load *)

Lemma includes_unfold (s p : string) :
  includes s p =
  String.prefix p s || match s with EmptyString => false | String _ r => includes r p end.
Proof. destruct s; reflexivity. Qed.

Lemma prefix_app_includes (a b s : string) :
  String.prefix (a +:+ b) s = true -> includes s b = true.
Proof.
  revert s. induction a as [|c a IH]; intros s Hpre.
  - rewrite includes_unfold. change ("" +:+ b) with b in Hpre. rewrite Hpre. reflexivity.
  - change (String c a +:+ b) with (String c (a +:+ b)) in Hpre.
    destruct s as [|c' s]; [discriminate Hpre|].
    cbn in Hpre. destruct (ascii_dec c c'); [|discriminate Hpre].
    rewrite includes_unfold, (IH s Hpre). apply orb_true_r.
Qed.

(** A text that contains [a] followed by [b] contains [b]. *)
Lemma includes_app (s a b : string) :
  includes s (a +:+ b) = true -> includes s b = true.
Proof.
  induction s as [|c s IH]; rewrite includes_unfold; intros Hinc.
  - rewrite orb_false_r in Hinc. apply (prefix_app_includes a b), Hinc.
  - apply orb_true_iff in Hinc as [Hpre | Hrest].
    + apply (prefix_app_includes a b), Hpre.
    + rewrite includes_unfold, (IH Hrest). apply orb_true_r.
Qed.

(** The path test of the faculty block also holds on the student dashboard. *)
Lemma student_dashboard_is_dashboard (path : string) :
  includes path "student-dashboard.html" = true -> includes path "dashboard.html" = true.
Proof. apply (includes_app path "student-" "dashboard.html"). Qed.

Section PageLoad.
Context `{Engine}.

(** [wrong_session] always completes. *)
Lemma wrong_session_total (user : json) (r : string) :
  wrong_session user r =
  Normal (negb (truthy (Some user)) ||
          match user with
          | JObj props => negb (is_string (assoc "role" props) r)
          | _ => true
          end).
Proof.
  unfold wrong_session. destruct user as [|b|x|s|items|props]; try reflexivity.
  - destruct b; reflexivity.
  - destruct (truthy (Some (JNum x))); reflexivity.
  - destruct (truthy (Some (JStr s))); reflexivity.
Qed.

(** The first part of the handler registers listeners and nothing else. *)
Lemma DOMContentLoaded_unfold (w : world) :
  exists w0 : world,
    DOMContentLoaded w = dashboard_init w0 /\
    localStorage w0 = localStorage w /\ location w0 = location w /\ href w0 = href w /\
    alerts w0 = alerts w /\ requests w0 = requests w /\ pending w0 = pending w /\
    network w0 = network w /\ API_URL w0 = API_URL w /\
    elements (document w0) = elements (document w) /\
    element_lists (document w0) = element_lists (document w) /\
    root_style (document w0) = root_style (document w) /\
    action_rows (document w0) = action_rows (document w).
Proof.
  unfold DOMContentLoaded, bind, querySelector, get, addEventListener, modify, ret.
  world_simpl.
  repeat (match goal with
          | |- context [bool_decide ?P] => destruct (bool_decide P)
          end; cbn [andb]; world_simpl).
  all: eexists; (split; [reflexivity|]); world_simpl; repeat split.
Qed.

(** The guard of the faculty block: on a page whose path contains
    [dashboard.html], a session that is absent or not a faculty session is
    sent to the faculty login, and nothing is rendered or loaded. *)
Lemma dashboard_guard (w : world) (user : json) :
  includes (pathname (location w)) "dashboard.html" = true ->
  JSON_parse_item (localStorage w !! "eduAttendUser") = Normal user ->
  wrong_session user "faculty" = Normal true ->
  let w' := snd (DOMContentLoaded w) in
  fst (DOMContentLoaded w) = Normal tt /\
  href w' = Some "faculty-login.html" /\
  pending w' = pending w /\
  requests w' = requests w /\
  elements (document w') = elements (document w) /\
  element_lists (document w') = element_lists (document w).
Proof.
  intros Hpath Huser Hwrong.
  destruct (DOMContentLoaded_unfold w)
    as (w0 & -> & Hs & Hl & Hh & Ha & Hr & Hp & _ & _ & He & Hel & _ & _).
  unfold dashboard_init, getItem, navigate, bind, get, lift, modify.
  world_simpl. rewrite Hl, Hpath. world_simpl. rewrite Hs, Huser. world_simpl.
  rewrite Hwrong. world_simpl. repeat split; assumption.
Qed.

(** C6, at its failing input.  On a page whose path contains
    [student-dashboard.html], a stored session whose role is [student] is
    sent to [faculty-login.html] by the faculty block: the student block is
    not reached, the student dashboard is not rendered and its attendance is
    not loaded. *)
Theorem student_session_sent_to_faculty_login (w : world) (user : json) :
  includes (pathname (location w)) "student-dashboard.html" = true ->
  JSON_parse_item (localStorage w !! "eduAttendUser") = Normal user ->
  get_prop user "role" = Normal (Some (JStr "student")) ->
  let w' := snd (DOMContentLoaded w) in
  fst (DOMContentLoaded w) = Normal tt /\
  href w' = Some "faculty-login.html" /\
  pending w' = pending w /\
  requests w' = requests w /\
  elements (document w') = elements (document w) /\
  element_lists (document w') = element_lists (document w).
Proof.
  intros Hpath Huser Hrole.
  apply (dashboard_guard w user); [apply student_dashboard_is_dashboard, Hpath | exact Huser |].
  rewrite wrong_session_total.
  destruct user as [|b|x|s|items|props]; cbn in Hrole; try discriminate Hrole.
  injection Hrole as ->. reflexivity.
Qed.

(** X3.  On a page whose path contains [dashboard.html], a stored session
    that is absent, or whose role is not [faculty], is sent to
    [faculty-login.html]; no element is written, no request is sent and no
    loading is started. *)
Theorem faculty_dashboard_guarded (w : world) (user : json) :
  includes (pathname (location w)) "dashboard.html" = true ->
  JSON_parse_item (localStorage w !! "eduAttendUser") = Normal user ->
  (forall r, get_prop user "role" = Normal r -> is_string r "faculty" = false) ->
  let w' := snd (DOMContentLoaded w) in
  fst (DOMContentLoaded w) = Normal tt /\
  href w' = Some "faculty-login.html" /\
  pending w' = pending w /\
  requests w' = requests w /\
  elements (document w') = elements (document w) /\
  element_lists (document w') = element_lists (document w).
Proof.
  intros Hpath Huser Hrole. apply (dashboard_guard w user Hpath Huser).
  rewrite wrong_session_total. f_equal.
  destruct user as [|b|x|s|items|props]; try (apply orb_true_r); try reflexivity.
  cbn [truthy negb orb]. rewrite (Hrole (assoc "role" props) eq_refl). reflexivity.
Qed.

Lemma set_property_if_present_run (sel prop v : string) (w : world) :
  exists w' : world,
    set_property_if_present sel prop v w = (Normal tt, w') /\
    localStorage w' = localStorage w /\ location w' = location w /\ href w' = href w /\
    pending w' = pending w.
Proof.
  unfold set_property_if_present, bind, querySelector, get, set_property, ret.
  destruct (elements (document w) !! sel) as [el|] eqn:Hel.
  - rewrite bool_decide_true by eauto. rewrite Hel.
    eexists. split; [reflexivity|]. world_simpl. repeat split.
  - rewrite bool_decide_false by (intros [el Hsome]; discriminate Hsome).
    eexists. split; [reflexivity|]. repeat split.
Qed.

(** A session that passes the faculty guard is an object whose role is
    [faculty]; it fails the student guard. *)
Lemma faculty_session_is_not_student (user : json) :
  wrong_session user "faculty" = Normal false ->
  wrong_session user "student" = Normal true /\
  exists name, display_name user = Normal name.
Proof.
  rewrite !wrong_session_total. intros [= Hwrong].
  apply orb_false_iff in Hwrong as [Htruthy Hrole].
  destruct user as [|b|x|s|items|props]; try discriminate Hrole.
  apply negb_false_iff in Hrole. split.
  - f_equal. cbn [truthy negb orb].
    destruct (assoc "role" props) as [[| | |t| |]|]; try discriminate Hrole.
    cbn in Hrole |- *. apply String.eqb_eq in Hrole. subst t. reflexivity.
  - unfold display_name. cbn [get_prop]. destruct (truthy (assoc "name" props)); eauto.
Qed.

(** X4.  On a page whose path contains [student-dashboard.html] the handler
    never starts [loadStudentAttendance], whatever is stored: the faculty
    block either redirects first or, for a faculty session, starts
    [loadDashboardStats] and leaves the redirect to the student block. *)
Theorem student_dashboard_never_initialised (w : world) :
  includes (pathname (location w)) "student-dashboard.html" = true ->
  let w' := snd (DOMContentLoaded w) in
  (pending w' = pending w /\ (href w' = Some "faculty-login.html" \/ href w' = href w)) \/
  (pending w' = pending w ++ [LoadDashboardStats] /\ href w' = Some "student-login.html").
Proof.
  intros Hstudent. pose proof (student_dashboard_is_dashboard _ Hstudent) as Hpath.
  destruct (DOMContentLoaded_unfold w)
    as (w0 & -> & Hs & Hl & Hh & Ha & Hr & Hp & _ & _ & He & Hel & _ & _).
  unfold dashboard_init.
  erewrite bind_normal by reflexivity. rewrite Hl, Hpath.
  erewrite bind_normal by reflexivity. rewrite Hs.
  destruct (JSON_parse_item (localStorage w !! "eduAttendUser")) as [user|e] eqn:Huser.
  2: { erewrite bind_throw by reflexivity. cbn [snd]. left. split; [exact Hp | right; exact Hh]. }
  erewrite bind_normal by reflexivity.
  rewrite wrong_session_total.
  erewrite bind_normal by reflexivity.
  match goal with |- context [if ?b then navigate _ else _] => destruct b eqn:Hwrong end.
  { unfold navigate, modify. world_simpl. left. split; [exact Hp | left; reflexivity]. }
  assert (Hfaculty : wrong_session user "faculty" = Normal false)
    by (rewrite wrong_session_total; f_equal; exact Hwrong).
  clear Hwrong.
  destruct (faculty_session_is_not_student user Hfaculty) as (Hnot & name & Hname).
  erewrite bind_normal by (unfold lift; rewrite Hname; reflexivity).
  match goal with
  | |- context [set_property_if_present ?sel ?prop ?v] =>
      destruct (set_property_if_present_run sel prop v w0) as (w1 & Hset & Hs1 & Hl1 & Hh1 & Hp1)
  end.
  erewrite bind_normal by exact Hset.
  erewrite bind_normal by reflexivity.
  unfold student_dashboard_init.
  erewrite bind_normal by reflexivity. world_simpl. rewrite Hl1, Hl, Hstudent.
  erewrite bind_normal by reflexivity. world_simpl. rewrite Hs1, Hs, Huser.
  erewrite bind_normal by reflexivity.
  erewrite bind_normal by (unfold lift; rewrite Hnot; reflexivity).
  unfold navigate, modify. world_simpl. right. rewrite Hp1, Hp. split; reflexivity.
Qed.

End PageLoad.

(** ** Integers as numbers *)

Lemma digits2_pos_size (p : positive) : digits2_pos p = Pos.size p.
Proof. induction p; cbn; congruence. Qed.

Lemma digits2_pos_iter_xO (p k : positive) :
  digits2_pos (Pos.iter xO p k) = (digits2_pos p + k)%positive.
Proof.
  revert p. induction k using Pos.peano_ind; intros p.
  - cbn. lia.
  - rewrite Pos.iter_succ. cbn. rewrite IHk. lia.
Qed.

Lemma digits2_pos_bound (p : positive) :
  (Z.pos p < 2 ^ 53)%Z -> (Z.pos (digits2_pos p) <= 53)%Z.
Proof.
  intros Hlt. rewrite digits2_pos_size.
  pose proof (Pos.size_le p) as Hle.
  destruct (Z_le_gt_dec (Z.pos (Pos.size p)) 53) as [|Hgt]; [assumption|exfalso].
  apply Pos2Z.pos_le_pos in Hle. rewrite Pos2Z.inj_pow in Hle.
  assert (H54 : (2 ^ 54 <= 2 ^ Z.pos (Pos.size p))%Z) by (apply Z.pow_le_mono_r; lia).
  change (2 ^ 54)%Z with (2 * 2 ^ 53)%Z in H54. lia.
Qed.

(** A 53-bit mantissa with an exponent in range is kept as it is. *)
Lemma binary_round_aux_exact (m : positive) (e : Z) :
  Z.pos (digits2_pos m) = 53%Z -> (-1074 <= e <= 971)%Z ->
  binary_round_aux 53 1024 false (Z.pos m) e loc_Exact = S754_finite false m e.
Proof.
  intros Hd He.
  assert (Hz : (fexp 53 1024 (Zdigits2 (Z.pos m) + e) - e = 0)%Z).
  { cbn [Zdigits2]. rewrite Hd. unfold fexp, emin. lia. }
  unfold binary_round_aux, shr_fexp. rewrite Hz.
  cbn -[fexp Zdigits2 Z.leb Z.sub]. rewrite Hz.
  cbn -[Z.leb Z.sub].
  assert (Hle : (e <=? 1024 - 53)%Z = true) by (apply Z.leb_le; lia).
  rewrite Hle. reflexivity.
Qed.

(** A positive integer below 2^53 is a positive finite number. *)
Lemma Number_of_Z_positive (p : positive) :
  (Z.pos p < 2 ^ 53)%Z -> exists m e, Number_of_Z (Z.pos p) = S754_finite false m e.
Proof.
  intros Hlt. pose proof (digits2_pos_bound p Hlt) as Hd.
  unfold Number_of_Z, binary_normalize, binary_round.
  assert (Hfexp : fexp 53 1024 (Z.pos (digits2_pos p) + 0) = (Z.pos (digits2_pos p) - 53)%Z).
  { unfold fexp, emin. lia. }
  rewrite Hfexp. unfold shl_align.
  replace (Z.pos (digits2_pos p) - 53 - 0)%Z with (Z.pos (digits2_pos p) - 53)%Z by lia.
  destruct (Z.pos (digits2_pos p) - 53)%Z as [|k|k] eqn:Hk; [| lia |].
  - do 2 eexists. apply binary_round_aux_exact; lia.
  - do 2 eexists. apply binary_round_aux_exact; [|lia].
    rewrite digits2_pos_iter_xO. lia.
Qed.

(** [n > 0] on the number of a length is [n > 0] on the length. *)
Lemma length_positive (n : nat) :
  (0 < Z.of_nat n < 2 ^ 53)%Z -> num_gt (Number_of_nat n) (Number_of_Z 0) = true.
Proof.
  intros [Hpos Hlt]. unfold Number_of_nat.
  destruct (Z.of_nat n) as [|p|p] eqn:Hn; try lia.
  destruct (Number_of_Z_positive p Hlt) as (m & e & ->). reflexivity.
Qed.

(** ** The percentage, checked against exact rounding *)

Lemma same_number_eq (x y : number) : same_number x y = true -> x = y.
Proof.
  destruct x as [s|s| |s m e], y as [s'|s'| |s' m' e']; cbn; try discriminate.
  - intros Hs. apply Bool.eqb_prop in Hs. congruence.
  - intros Hs. apply Bool.eqb_prop in Hs. congruence.
  - reflexivity.
  - rewrite !andb_true_iff. intros [[Hs Hm] He].
    apply Bool.eqb_prop in Hs. apply Pos.eqb_eq in Hm. apply Z.eqb_eq in He. congruence.
Qed.

Lemma percentage_checked_up_to_100 :
  forallb (fun t => forallb (fun p => percentage_checked p t) (seq 0 (S t))) (seq 1 100) = true.
Proof. vm_compute. reflexivity. Qed.

(** ** Attendance figures and placeholders *)

Section Rendering.
Context `{Engine}.

Lemma get_prop_status (a : json) (s : string) :
  a <> JNull -> exists st, get_prop a "status" = Normal st /\ is_string st s = status_is a s.
Proof.
  intros Hnn. destruct a as [|b|x|t|items|props]; try congruence; cbn; eauto.
Qed.

(** On records none of which is [null], [filter] keeps those with the wanted
    status. *)
Lemma filter_status_spec (wanted : string) (items : list json) :
  Forall (fun a => a <> JNull) items ->
  filter_status wanted items = Normal (List.filter (fun a => status_is a wanted) items).
Proof.
  induction 1 as [|a items Ha _ IH]; [reflexivity|].
  cbn [filter_status List.filter].
  destruct (get_prop_status a wanted Ha) as (st & -> & ->). rewrite IH. reflexivity.
Qed.

Lemma map_subject_total (items : list json) :
  Forall (fun a => a <> JNull) items -> exists subjects, map_subject items = Normal subjects.
Proof.
  induction 1 as [|a items Ha _ [subjects IH]]; [cbn; eauto|].
  cbn [map_subject]. rewrite IH.
  destruct a; try congruence; cbn; eauto.
Qed.

(** The figures computed from a history. *)
Lemma compute_stats_spec (items : list json) :
  Forall (fun a => a <> JNull) items ->
  compute_stats items =
  Normal {| totalClasses := Number_of_nat (List.length items);
            presentCount := Number_of_nat (count_present items);
            missCount := num_sub (Number_of_nat (List.length items))
                                 (Number_of_nat (count_present items));
            percentage := percentage_of (Number_of_nat (count_present items))
                                        (Number_of_nat (List.length items)) |}.
Proof.
  intros Hnn. unfold compute_stats. rewrite (filter_status_spec "Present" items Hnn).
  reflexivity.
Qed.

(** The stat cards are written without touching any other element. *)
Lemma show_stats_run (st : attendance_stats) (w : world) :
  exists w' : world,
    show_stats st w = (Normal tt, w') /\
    elements (document w') = elements (document w) /\
    localStorage w' = localStorage w /\ API_URL w' = API_URL w /\ network w' = network w /\
    alerts w' = alerts w /\ href w' = href w /\
    forall l : list (gmap string string),
      element_lists (document w) !! ".stat-card div:first-child" = Some l ->
      (4 <= List.length l)%nat ->
      exists (l' : list (gmap string string)) (card : gmap string string),
        element_lists (document w') !! ".stat-card div:first-child" = Some l' /\
        l' !! 0%nat = Some card /\
        card !! "style.background" =
          Some ("conic-gradient(var(--primary-blue) " +:+ Number_toString (percentage st) +:+
                "%, #f1f5f9 0)").
Proof.
  unfold show_stats.
  erewrite bind_normal by reflexivity.
  destruct (element_lists (document w) !! ".stat-card div:first-child") as [l|] eqn:Hl;
    cbn [from_option id].
  2: { eexists. split; [reflexivity|]. repeat split. intros l Hl'. discriminate Hl'. }
  destruct l as [|e0 [|e1 [|e2 [|e3 rest]]]].
  1-4: eexists; (split; [reflexivity|]); repeat split;
       intros l [= <-] Hlen; cbn in Hlen; lia.
  cbn [List.length Nat.leb].
  erewrite bind_normal; [| eapply set_property_at_run; [exact Hl | reflexivity]].
  erewrite bind_normal by reflexivity.
  erewrite bind_normal;
    [| eapply set_property_at_run; [world_simpl; apply lookup_insert_eq | reflexivity]].
  erewrite bind_normal;
    [| eapply set_property_at_run; [world_simpl; apply lookup_insert_eq | reflexivity]].
  erewrite set_property_at_run; [| world_simpl; apply lookup_insert_eq | reflexivity].
  eexists. split; [reflexivity|]. world_simpl. repeat split.
  intros l [= <-] _. do 2 eexists. split; [apply lookup_insert_eq|].
  split; [reflexivity|]. apply lookup_insert_eq.
Qed.


(** The log of an empty history. *)
Lemma show_log_empty (w : world) (el : gmap string string) :
  elements (document w) !! ".performance-list" = Some el ->
  show_log [] w =
  (Normal tt,
   set_document (set_elements (insert ".performance-list"
     (<["innerHTML" := log_heading +:+ no_attendance_records]> el))) w).
Proof.
  intros Hel. unfold show_log.
  erewrite bind_normal by reflexivity.
  unfold querySelector, get in *. rewrite Hel.
  rewrite bool_decide_true by eauto.
  erewrite bind_normal by reflexivity. erewrite bind_normal by reflexivity.
  apply set_property_run, Hel.
Qed.

(** What [loadStudentAttendance] does with an array of records none of
    which is [null]: one request, the figures, then the log. *)
Lemma loadStudentAttendance_run (w : world) (items : list json) (st : attendance_stats) :
  fst (apiRequest "/attendance/my-history" no_options w) = Normal (JArr items) ->
  compute_stats items = Normal st ->
  loadStudentAttendance w =
  (Normal tt,
   snd (show_log items (snd (show_stats st
     (add_request (api_request (localStorage w !! "eduAttendToken") (API_URL w)
                     "/attendance/my-history" no_options) w))))).
Proof.
  intros Hhist Hst. rewrite apiRequest_run in Hhist. cbn [fst] in Hhist.
  unfold loadStudentAttendance, try_catch.
  erewrite bind_normal by (rewrite apiRequest_run, Hhist; reflexivity).
  erewrite bind_normal by reflexivity.
  erewrite bind_normal by (unfold lift; rewrite Hst; reflexivity).
  match goal with |- context [show_stats st ?w0] => set (w1 := w0) end.
  destruct (show_stats_run st w1) as (w2 & Hstats & _).
  erewrite bind_normal by exact Hstats. rewrite Hstats. cbn [snd].
  destruct (show_log items w2) as [[[]|e] w3]; reflexivity.
Qed.



(** The student count is written without touching any other element. *)
Lemma show_student_count_run (students : json) (w : world) :
  students <> JNull ->
  exists w' : world,
    show_student_count students w = (Normal tt, w') /\
    elements (document w') = elements (document w) /\
    localStorage w' = localStorage w /\ API_URL w' = API_URL w /\ network w' = network w.
Proof.
  intros Hnn. unfold show_student_count.
  erewrite bind_normal by reflexivity.
  destruct (element_lists (document w) !! ".stat-card h3") as [l|] eqn:Hl;
    cbn [from_option id].
  2: { eexists. split; [reflexivity|]. repeat split. }
  destruct l as [|e0 rest].
  { eexists. split; [reflexivity|]. repeat split. }
  cbn [List.length Nat.leb].
  assert (Hlen : exists n, get_prop students "length" = Normal n)
    by (destruct students; try congruence; cbn; eauto).
  destruct Hlen as [n Hn].
  erewrite bind_normal by (unfold lift; rewrite Hn; reflexivity).
  erewrite set_property_at_run; [| exact Hl | reflexivity].
  eexists. split; [reflexivity|]. world_simpl. repeat split.
Qed.

(** The table of an empty history. *)
Lemma show_recent_empty (w : world) (el : gmap string string) :
  elements (document w) !! "table tbody" = Some el ->
  show_recent (JArr []) w =
  (Normal tt,
   set_document (set_elements (insert "table tbody" (<["innerHTML" := no_recent_attendance]>
                                                       (<["innerHTML" := ""]> el))))
     (set_document (set_elements (insert "table tbody" (<["innerHTML" := ""]> el))) w)).
Proof.
  intros Hel. unfold show_recent.
  erewrite bind_normal by reflexivity.
  unfold querySelector, get. rewrite Hel, bool_decide_true by eauto.
  erewrite bind_normal by (apply set_property_run, Hel).
  erewrite bind_normal by reflexivity.
  cbn [is_zero]. apply set_property_run. world_simpl. apply lookup_insert_eq.
Qed.

(** The student count does not stop the loader when there is no stat card to
    write it to, whatever the students request returned. *)
Lemma show_student_count_without_cards (students : json) (w : world) :
  default [] (element_lists (document w) !! ".stat-card h3") = [] ->
  show_student_count students w = (Normal tt, w).
Proof.
  intros Hnone. unfold show_student_count.
  erewrite bind_normal by reflexivity. rewrite Hnone. reflexivity.
Qed.

(** C7.  With an empty attendance history the student dashboard log holds
    the heading and the text [No attendance records found.] and nothing else,
    and the faculty dashboard table holds the single row
    [No recent attendance recorded.]; neither is left empty.  The student
    part needs the history request to return the empty array; the faculty
    part also needs the students request, which comes first, to return
    something whose length can be read (anything but [null]) unless the page
    has no stat card for it. *)
Theorem empty_history_placeholder (w : world) (el : gmap string string) :
  (fst (apiRequest "/attendance/my-history" no_options w) = Normal (JArr []) ->
   elements (document w) !! ".performance-list" = Some el ->
   elements (document (snd (loadStudentAttendance w))) !! ".performance-list" =
     Some (<["innerHTML" :=
               "<h3 style=" +:+ dq +:+ "margin-bottom: 1.5rem; color: #1e293b;" +:+ dq +:+
               ">Recent Attendance Log</h3>" +:+
               "<p style=" +:+ dq +:+ "color: #64748b;" +:+ dq +:+
               ">No attendance records found.</p>"]> el)) /\
  (forall students : json,
     fst (apiRequest "/users/students" no_options w) = Normal students ->
     students <> JNull \/ default [] (element_lists (document w) !! ".stat-card h3") = [] ->
     fst (apiRequest "/attendance/all" no_options w) = Normal (JArr []) ->
     elements (document w) !! "table tbody" = Some el ->
     elements (document (snd (loadDashboardStats w))) !! "table tbody" =
       Some (<["innerHTML" :=
                 "<tr><td colspan=" +:+ dq +:+ "4" +:+ dq +:+ " style=" +:+ dq +:+
                 "text-align: center;" +:+ dq +:+
                 ">No recent attendance recorded.</td></tr>"]> el)).
Proof.
  split.
  - intros Hhist Hel.
    rewrite (loadStudentAttendance_run w [] _ Hhist (compute_stats_spec [] ltac:(constructor))).
    cbn [snd].
    match goal with |- context [show_stats ?st0 ?w0] => set (st := st0); set (w1 := w0) end.
    destruct (show_stats_run st w1) as (w2 & Hstats & Hels & _).
    rewrite Hstats. cbn [snd].
    assert (Hel2 : elements (document w2) !! ".performance-list" = Some el)
      by (rewrite Hels; exact Hel).
    rewrite (show_log_empty w2 el Hel2). world_simpl. apply lookup_insert_eq.
  - intros students Hstudents Hnn Hhist Hel.
    rewrite apiRequest_run in Hstudents, Hhist. cbn [fst] in Hstudents, Hhist.
    unfold loadDashboardStats, try_catch.
    erewrite bind_normal by (rewrite apiRequest_run, Hstudents; reflexivity).
    match goal with
    | |- context [bind (show_student_count students) _ ?w0] => set (w1 := w0)
    end.
    assert (Hcount : exists w2 : world,
              show_student_count students w1 = (Normal tt, w2) /\
              elements (document w2) = elements (document w1) /\
              localStorage w2 = localStorage w1 /\ API_URL w2 = API_URL w1 /\
              network w2 = network w1).
    { destruct Hnn as [Hnn | Hnone].
      - apply show_student_count_run, Hnn.
      - exists w1. split; [apply show_student_count_without_cards; exact Hnone|].
        repeat split. }
    destruct Hcount as (w2 & Hcount & Hels & Hs & Hu & Hn).
    erewrite bind_normal by exact Hcount.
    assert (Hhist2 : api_outcome w2 "/attendance/all" no_options = Normal (JArr [])).
    { rewrite <- Hhist. apply api_outcome_ext; [rewrite Hs | rewrite Hu | rewrite Hn];
        reflexivity. }
    erewrite bind_normal by (rewrite apiRequest_run, Hhist2; reflexivity).
    erewrite show_recent_empty by (world_simpl; rewrite Hels; exact Hel).
    world_simpl. rewrite lookup_insert_eq, insert_insert_eq. reflexivity.
Qed.

End Rendering.

(** * The properties on the example states *)

(** A faculty login answered with a student session: nothing is stored, the
    page stays, the refusal is shown. *)
Lemma login_wrong_role_refused_witness :
  let w := Sample.state [] "/faculty-login.html"
             (Sample.backend [("/auth/login", Sample.student_session)])
             (Sample.login_page "#facultyLoginForm" "#facultyId") in
  fst (@apiRequest Sample.engine "/auth/login"
         (@login_options Sample.engine faculty_portal "ada" "secret") w)
    = Normal Sample.student_session /\
  localStorage (snd (@facultyForm_submit Sample.engine w)) = ∅ /\
  href (snd (@facultyForm_submit Sample.engine w)) = None /\
  alerts (snd (@facultyForm_submit Sample.engine w)) = ["This portal is for faculty only."].
Proof.
  intros w.
  assert (Hdata : fst (@apiRequest Sample.engine "/auth/login"
                         (@login_options Sample.engine faculty_portal "ada" "secret") w)
                  = Normal Sample.student_session) by (vm_compute; reflexivity).
  split; [exact Hdata|].
  destruct (@login_wrong_role_refused Sample.engine faculty_portal w
              {["value" := "ada"]} {["value" := "secret"]} ∅)
    as (_ & Hstore & Hhref & msg & Halerts & Hmsg).
  - vm_compute; reflexivity.
  - vm_compute; reflexivity.
  - vm_compute; reflexivity.
  - intros data r Hd Hr.
    change (default "" ({["value" := "ada"]} !! "value")) with "ada" in Hd.
    change (default "" ({["value" := "secret"]} !! "value")) with "secret" in Hd.
    rewrite Hdata in Hd. injection Hd as <-. injection Hr as <-. reflexivity.
  - unfold facultyForm_submit.
    rewrite Hstore, Hhref, Halerts, (Hmsg Sample.student_session Hdata) by discriminate.
    repeat split.
Defined.



(** A static host answers with an HTML page and no backend header. *)
Lemma html_body_classification_witness :
  let resp := Sample.html_response 404 "text/html" [("server", "nginx")] in
  let w := Sample.state [] "/dashboard.html" (fun _ => Resolved resp)
             Sample.faculty_dashboard_page in
  fst (@apiRequest Sample.engine "/users/students" no_options w)
    = Throw (Error "CRITICAL: The backend server was NOT reached. Request was handled by: nginx. Ensure your deployment configuration routes /api to the Node server.").
Proof.
  intros resp w.
  rewrite (@html_body_classification Sample.engine w "/users/students" no_options resp
             "<!DOCTYPE html><html><body>Not Found</body></html>");
    reflexivity.
Defined.

(** C4 as stated fails when the content type is JSON and the backend
    header is present with another value: the message says that another
    server intercepted the request.  It also fails to surface anything when
    the status is 2xx: the message is returned as data. *)
Lemma html_body_header_present_counterexample :
  let intercepted := Sample.html_response 404 "application/json"
                       [("server", "nginx"); ("x-backend-server", "edge-proxy")] in
  let served := Sample.html_response 200 "text/html" [("x-backend-server", "EduAttend-Node")] in
  let state_of (r : response) :=
    Sample.state [] "/dashboard.html" (fun _ => Resolved r) Sample.faculty_dashboard_page in
  (headers_get intercepted "X-Backend-Server" = Some "edge-proxy" /\
   fst (@apiRequest Sample.engine "/users/students" no_options (state_of intercepted))
     = Throw (Error "The request was intercepted by a different server (nginx). This usually means your deployment's /api route is not correctly pointing to the Node.js backend.")) /\
  (headers_get served "X-Backend-Server" = Some "EduAttend-Node" /\
   fst (@apiRequest Sample.engine "/users/students" no_options (state_of served))
     = Normal (JObj [("message", JStr "The backend responded with an HTML page for /api/users/students. This implies a 404 or a server-side redirect occurred.")])).
Proof. vm_compute. repeat split. Qed.

(** C5 as stated fails for an override stored as the empty string: it is
    present, and [/api] is returned instead. *)
Lemma getBaseUrl_empty_override_counterexample :
  let w := Sample.state [("eduAttendBackendUrl", "")] "/index.html"
             (Sample.backend []) (Sample.page [] []) in
  localStorage w !! "eduAttendBackendUrl" = Some "" /\
  fst (getBaseUrl w) = Normal "/api".
Proof. vm_compute. split; reflexivity. Qed.


(** A student opens the student dashboard and lands on the faculty login. *)
Lemma student_session_sent_to_faculty_login_witness :
  let w := Sample.state [("eduAttendUser", Sample.stringify Sample.student_session)]
             "/student-dashboard.html"
             (Sample.backend [("/attendance/my-history", Sample.history_10_5)])
             Sample.student_dashboard_page in
  href (snd (@DOMContentLoaded Sample.engine w)) = Some "faculty-login.html" /\
  pending (snd (@DOMContentLoaded Sample.engine w)) = [] /\
  requests (snd (@DOMContentLoaded Sample.engine w)) = [].
Proof.
  intros w.
  destruct (@student_session_sent_to_faculty_login Sample.engine w Sample.student_session)
    as (_ & Hhref & Hpending & Hrequests & _).
  - vm_compute; reflexivity.
  - vm_compute; reflexivity.
  - reflexivity.
  - rewrite Hhref, Hpending, Hrequests. repeat split.
Defined.

(** Both dashboards with an empty history. *)
Lemma empty_history_placeholder_witness :
  let student := Sample.state [] "/student-dashboard.html"
                   (Sample.backend [("/attendance/my-history", JArr [])])
                   Sample.student_dashboard_page in
  let faculty := Sample.state [] "/dashboard.html"
                   (Sample.backend [("/users/students", JArr [Sample.student_session]);
                                    ("/attendance/all", JArr [])])
                   Sample.faculty_dashboard_page in
  elements (document (snd (@loadStudentAttendance Sample.engine student)))
    !! ".performance-list" =
    Some {["innerHTML" :=
             "<h3 style=" +:+ dq +:+ "margin-bottom: 1.5rem; color: #1e293b;" +:+ dq +:+
             ">Recent Attendance Log</h3>" +:+
             "<p style=" +:+ dq +:+ "color: #64748b;" +:+ dq +:+
             ">No attendance records found.</p>"]} /\
  elements (document (snd (@loadDashboardStats Sample.engine faculty)))
    !! "table tbody" =
    Some {["innerHTML" :=
             "<tr><td colspan=" +:+ dq +:+ "4" +:+ dq +:+ " style=" +:+ dq +:+
             "text-align: center;" +:+ dq +:+
             ">No recent attendance recorded.</td></tr>"]}.
Proof.
  intros student faculty. split.
  - rewrite (proj1 (@empty_history_placeholder Sample.engine student ∅));
      vm_compute; reflexivity.
  - rewrite (proj2 (@empty_history_placeholder Sample.engine faculty
                      {["innerHTML" := "<tr></tr>"]}) (JArr [Sample.student_session]));
      [| vm_compute; reflexivity | left; discriminate | vm_compute; reflexivity
       | vm_compute; reflexivity].
    vm_compute; reflexivity.
Defined.

(** The backend cannot be reached while a student is marked Absent. *)
Lemma markAttendance_failure_witness :
  let w := Sample.state [] "/attendance.html" (Sample.backend []) Sample.marking_page in
  action_rows (document (snd (@markAttendance Sample.engine "s1" "Absent" (0, 1)%nat w)))
    = [[["action-btn"; "btn-p"; "active"]; ["action-btn"; "btn-a"]; ["action-btn"; "btn-l"]]] /\
  alerts (snd (@markAttendance Sample.engine "s1" "Absent" (0, 1)%nat w))
    = ["Failed to mark attendance: Could not connect to the backend server at /api/attendance/mark"].
Proof.
  intros w.
  destruct (@markAttendance_failure Sample.engine "s1" "Absent" (0, 1)%nat w
              (Error "Could not connect to the backend server at /api/attendance/mark"))
    as (_ & Hrows & _ & Halerts & _).
  - vm_compute; reflexivity.
  - rewrite Hrows, Halerts. split; reflexivity.
Defined.

(** ** The percentage against exact rounding *)

(** X1.  In double arithmetic a percentage that is exactly halfway between
    two integers goes either way: 1 of 8 (12.5) gives 13, 23 of 40 (57.5)
    gives 57 and 29 of 200 (14.5) gives 14. *)
Theorem percentage_at_halves :
  percentage_of (Number_of_nat 1) (Number_of_nat 8) = Number_of_Z 13 /\
  percentage_of (Number_of_nat 23) (Number_of_nat 40) = Number_of_Z 57 /\
  percentage_of (Number_of_nat 29) (Number_of_nat 200) = Number_of_Z 14.
Proof. vm_compute. repeat split. Qed.

(** X2.  For every history of at most 100 records the percentage is the
    integer nearest to [100 * presentCount / totalClasses]; when that value
    is halfway between two integers it is one of the two. *)
Theorem percentage_nearest_integer (p t : nat) :
  (0 < t <= 100)%nat -> (p <= t)%nat ->
  let r := percentage_of (Number_of_nat p) (Number_of_nat t) in
  (halfway p t = false -> r = Number_of_Z (nearest_percent p t)) /\
  (halfway p t = true ->
   r = Number_of_Z (nearest_percent p t) \/ r = Number_of_Z (nearest_percent p t - 1)).
Proof.
  intros Ht Hp r.
  pose proof percentage_checked_up_to_100 as Hall.
  rewrite forallb_forall in Hall.
  assert (Hin : In t (seq 1 100)) by (apply in_seq; lia).
  specialize (Hall t Hin). rewrite forallb_forall in Hall.
  assert (Hinp : In p (seq 0 (S t))) by (apply in_seq; lia).
  specialize (Hall p Hinp). unfold percentage_checked in Hall. fold r in Hall.
  apply orb_true_iff in Hall. split.
  - intros Hhalf. rewrite Hhalf in Hall. destruct Hall as [Hr | Hr]; [|discriminate Hr].
    apply same_number_eq, Hr.
  - intros _. destruct Hall as [Hr | Hr]; [left; apply same_number_eq, Hr|].
    apply andb_true_iff in Hr as [_ Hr]. right. apply same_number_eq, Hr.
Qed.

(** Sixty-seven Present records among one hundred. *)
Lemma percentage_nearest_integer_witness :
  percentage_of (Number_of_nat 67) (Number_of_nat 100) = Number_of_Z 67.
Proof.
  apply (proj1 (percentage_nearest_integer 67 100 ltac:(lia) ltac:(lia))). reflexivity.
Defined.

(** Nobody is logged in and the faculty dashboard is opened. *)
Lemma faculty_dashboard_guarded_witness :
  let w := Sample.state [] "/dashboard.html" (Sample.backend []) Sample.faculty_dashboard_page in
  href (snd (@DOMContentLoaded Sample.engine w)) = Some "faculty-login.html" /\
  pending (snd (@DOMContentLoaded Sample.engine w)) = [] /\
  requests (snd (@DOMContentLoaded Sample.engine w)) = [].
Proof.
  intros w.
  destruct (@faculty_dashboard_guarded Sample.engine w JNull)
    as (_ & Hhref & Hpending & Hrequests & _).
  - vm_compute; reflexivity.
  - reflexivity.
  - intros r Hr. discriminate Hr.
  - rewrite Hhref, Hpending, Hrequests. repeat split.
Defined.

(** A faculty member opens the student dashboard: the faculty statistics are
    started there, then the student block redirects. *)
Lemma student_dashboard_never_initialised_witness :
  let w := Sample.state [("eduAttendUser", Sample.stringify Sample.faculty_session)]
             "/student-dashboard.html" (Sample.backend []) Sample.student_dashboard_page in
  pending (snd (@DOMContentLoaded Sample.engine w)) = [LoadDashboardStats] /\
  href (snd (@DOMContentLoaded Sample.engine w)) = Some "student-login.html".
Proof.
  intros w.
  destruct (@student_dashboard_never_initialised Sample.engine w) as [[Hp Hh] | [Hp Hh]].
  - vm_compute; reflexivity.
  - vm_compute in Hp. discriminate Hp.
  - rewrite Hp, Hh. split; reflexivity.
Defined.

(** A student marked Present is marked Absent instead. *)
Lemma markAttendance_success_witness :
  let w := Sample.state [] "/attendance.html" (Sample.backend [("/attendance/mark", JNull)])
             Sample.marking_page in
  action_rows (document (snd (@markAttendance Sample.engine "s1" "Absent" (0, 1)%nat w)))
    = [[["action-btn"; "btn-p"]; ["action-btn"; "btn-a"; "active"]; ["action-btn"; "btn-l"]]] /\
  alerts (snd (@markAttendance Sample.engine "s1" "Absent" (0, 1)%nat w)) = [].
Proof.
  intros w.
  destruct (@markAttendance_success Sample.engine "s1" "Absent" (0, 1)%nat w JNull
              [["action-btn"; "btn-p"; "active"]; ["action-btn"; "btn-a"]; ["action-btn"; "btn-l"]])
    as (Hrows & Halerts).
  - vm_compute; reflexivity.
  - reflexivity.
  - cbn; lia.
  - rewrite Hrows, Halerts. split; reflexivity.
Defined.

(** The four ways of resolving the base URL: an override, the backend's own
    port, a development host, a production host. *)
Lemma getBaseUrl_priority_witness :
  let at_ (storage : list (string * string)) (loc : Location) :=
    {| localStorage := list_to_map storage; location := loc; href := None; alerts := [];
       requests := []; network := Sample.backend []; document := Sample.page [] [];
       pending := []; API_URL := "" |} in
  fst (getBaseUrl (at_ [("eduAttendBackendUrl", "https://api.example.edu/api")]
                       (Sample.site "/index.html"))) = Normal "https://api.example.edu/api" /\
  fst (getBaseUrl (at_ [] {| hostname := "localhost"; port := "5000"; protocol := "http:";
                             pathname := "/index.html" |})) = Normal "/api" /\
  fst (getBaseUrl (at_ [] {| hostname := "192.168.1.20"; port := "5500"; protocol := "http:";
                             pathname := "/index.html" |})) = Normal "http://localhost:5000/api" /\
  fst (getBaseUrl (at_ [] (Sample.site "/index.html"))) = Normal "/api".
Proof.
  intros at_. split; [|split; [|split]].
  - apply (proj1 (proj2 (getBaseUrl_priority _))); [vm_compute; reflexivity | discriminate].
  - apply (proj1 (proj2 (proj2 (getBaseUrl_priority _)))); [left|]; vm_compute; reflexivity.
  - apply (proj1 (proj2 (proj2 (proj2 (getBaseUrl_priority _))))).
    + left; vm_compute; reflexivity.
    + discriminate.
    + left. right. right. left. exists "1.20". reflexivity.
  - apply (proj2 (proj2 (proj2 (proj2 (getBaseUrl_priority _))))).
    + left; vm_compute; reflexivity.
    + discriminate.
    + intros [Hl | [Hl | [[r Hl] | [[r Hl] | [r Hl]]]]]; discriminate Hl.
    + discriminate.
Defined.

(** * Further properties *)

(** ** The request wrapper *)

Section Wrapper.
Context `{Engine}.

Lemma rethrow_message (url : string) (error : exn) :
  message (rethrow url error) <> "Failed to fetch".
Proof.
  unfold rethrow. destruct (String.eqb_spec (message error) "Failed to fetch") as [Heq|Hne].
  - cbn [message]. intros Hmsg. discriminate Hmsg.
  - exact Hne.
Qed.

Lemma rethrow_other (url : string) (error : exn) :
  message error <> "Failed to fetch" -> rethrow url error = error.
Proof.
  intros Hne. unfold rethrow.
  destruct (String.eqb_spec (message error) "Failed to fetch"); [contradiction | reflexivity].
Qed.

(** X6.  [apiRequest] never throws an error whose message is
    [Failed to fetch]: a rejection of [fetch] with that message is replaced
    by [Could not connect to the backend server at] followed by the URL. *)
Theorem apiRequest_never_failed_to_fetch (endpoint : string) (opts : options) (w : world)
    (error : exn) :
  fst (apiRequest endpoint opts w) = Throw error ->
  message error <> "Failed to fetch" /\
  (forall rejection : exn,
     network w (request_of w endpoint opts) = Rejected rejection ->
     message rejection = "Failed to fetch" ->
     error = Error ("Could not connect to the backend server at " +:+
                    request_url (API_URL w) endpoint)).
Proof.
  rewrite apiRequest_run. cbn [fst]. unfold api_outcome, request_of.
  destruct (network w _) as [rejection | response].
  - intros [= <-]. split; [apply rethrow_message|].
    intros rejection' [= <-] Hmsg. unfold rethrow. rewrite Hmsg. reflexivity.
  - destruct (read_response _ response) as [data | e]; [discriminate|].
    intros [= <-]. split; [apply rethrow_message|]. intros rejection Hrej. discriminate Hrej.
Qed.

(** Past a status that is not 2xx, [read_response] throws. *)
Lemma read_response_not_ok (url : string) (response : response) :
  ok response = false -> exists e, read_response url response = Throw e.
Proof.
  intros Hok. unfold read_response. rewrite Hok. cbn [negb].
  destruct (resp_text response) as [text|e]; cbn [and_then]; [|eauto].
  destruct (read_body url response text) as [data|e]; cbn [and_then]; [|eauto].
  destruct (get_prop data "message") as [m|e]; cbn [and_then]; [|eauto].
  destruct (truthy m); cbn [and_then]; [eauto|].
  destruct (get_prop data "error"); cbn [and_then]; eauto.
Qed.

(** X7.  [apiRequest] returns data only when [fetch] resolved with a 2xx
    status and the body could be read. *)
Theorem apiRequest_data_only_on_2xx (endpoint : string) (opts : options) (w : world)
    (data : json) :
  fst (apiRequest endpoint opts w) = Normal data ->
  exists (response : response) (text : string),
    network w (request_of w endpoint opts) = Resolved response /\
    ok response = true /\
    resp_text response = Normal text.
Proof.
  rewrite apiRequest_run. cbn [fst]. unfold api_outcome, request_of.
  destruct (network w _) as [rejection | response]; [discriminate|].
  intros Hdata. exists response.
  destruct (ok response) eqn:Hok.
  - destruct (resp_text response) as [text|e] eqn:Htext; [eauto|].
    unfold read_response in Hdata. rewrite Htext in Hdata. discriminate Hdata.
  - destruct (read_response_not_ok (request_url (API_URL w) endpoint) response Hok) as [e He].
    rewrite He in Hdata. discriminate Hdata.
Qed.

(** X8.  Whatever the network does, [apiRequest] sends exactly one request
    and changes nothing else: not the storage, not the location, not the
    document, and it shows no alert.  The request always carries
    [Content-Type: application/json], and it carries an [Authorization]
    header exactly when a non-empty token is stored, namely [Bearer] and the
    token. *)
Theorem apiRequest_effect (endpoint : string) (opts : options) (w : world) :
  let w' := snd (apiRequest endpoint opts w) in
  let r := request_of w endpoint opts in
  requests w' = requests w ++ [r] /\
  localStorage w' = localStorage w /\ href w' = href w /\ alerts w' = alerts w /\
  document w' = document w /\ pending w' = pending w /\
  req_method r = opt_method opts /\ req_body r = opt_body opts /\
  In ("Content-Type", "application/json") (req_headers r) /\
  (forall v : string,
     In ("Authorization", v) (req_headers r) <->
     exists token : string,
       localStorage w !! "eduAttendToken" = Some token /\ token <> "" /\
       v = "Bearer " +:+ token).
Proof.
  rewrite apiRequest_run. cbn [snd]. world_simpl. unfold request_of, api_request.
  cbn [req_method req_body req_headers].
  split; [reflexivity|]. split; [reflexivity|]. split; [reflexivity|].
  split; [reflexivity|]. split; [reflexivity|]. split; [reflexivity|].
  split; [reflexivity|]. split; [reflexivity|].
  split; [left; reflexivity|].
  intros v. unfold truthy_string.
  destruct (localStorage w !! "eduAttendToken") as [token|]; cbn [app default from_option id].
  - destruct (String.eqb_spec token "") as [Heq|Hne]; cbn [negb]; split.
    + intros [Hct | []]. discriminate Hct.
    + intros (token' & [= <-] & Hne & _). contradiction.
    + intros [Hct | [Hauth | []]]; [discriminate Hct|].
      injection Hauth as <-. exists token. split; [reflexivity|]. split; [exact Hne | reflexivity].
    + intros (token' & [= <-] & _ & ->). right. left. reflexivity.
  - split.
    + intros [Hct | []]. discriminate Hct.
    + intros (token' & Hnone & _). discriminate Hnone.
Qed.

End Wrapper.

(** ** The shape of the request URL *)

(** The two characters after which a match of the pattern starts to drop. *)
Lemma startsWith_slashes (r : string) :
  startsWith r "//" = true <-> exists r2 : string, r = String "/" (String "/" r2).
Proof.
  rewrite startsWith_spec. split; intros [r2 Hr]; exists r2; exact Hr.
Qed.

Lemma collapse_slashes_match (c : ascii) (r : string) (r2 : string) :
  r = String "/" (String "/" r2) ->
  collapse_slashes false (String c r) =
  if Ascii.eqb c ":" then String c (collapse_slashes false r)
  else String c (String "/" (collapse_slashes true r2)).
Proof. intros ->. reflexivity. Qed.

Lemma collapse_slashes_keep (c : ascii) (r : string) :
  startsWith r "//" = false ->
  collapse_slashes false (String c r) = String c (collapse_slashes false r).
Proof.
  intros Hr. destruct r as [|a r1]; [reflexivity|].
  destruct (ascii_dec a "/") as [->|Ha].
  - destruct r1 as [|a2 r2]; [reflexivity|].
    destruct (ascii_dec a2 "/") as [->|Ha2].
    { assert (Htwo : startsWith (String "/" (String "/" r2)) "//" = true)
        by (apply startsWith_slashes; eauto).
      congruence. }
    destruct a2 as [[] [] [] [] [] [] [] []]; try reflexivity. contradiction.
  - destruct a as [[] [] [] [] [] [] [] []]; try reflexivity. contradiction.
Qed.

Lemma collapse_slashes_skip (c : ascii) (r : string) :
  collapse_slashes true (String c r) =
  if Ascii.eqb c "/" then collapse_slashes true r else collapse_slashes false (String c r).
Proof.
  change (collapse_slashes true (String c r)) with
    (if true && Ascii.eqb c "/" then collapse_slashes true r
     else collapse_slashes false (String c r)).
  reflexivity.
Qed.

(** Outside a match the first character is kept. *)
Lemma collapse_slashes_head (c : ascii) (r : string) :
  exists rest : string, collapse_slashes false (String c r) = String c rest.
Proof.
  destruct (startsWith r "//") eqn:Hr.
  - apply startsWith_slashes in Hr as [r2 Hr].
    rewrite (collapse_slashes_match c r r2 Hr). destruct (Ascii.eqb c ":"); eauto.
  - rewrite (collapse_slashes_keep c r Hr). eauto.
Qed.

Lemma startsWith_cons (a b : ascii) (s p : string) :
  startsWith (String a s) (String b p) = true <-> b = a /\ startsWith s p = true.
Proof.
  unfold startsWith. cbn. destruct (ascii_dec b a) as [Heq|Hne]; split.
  - intros Hp. split; assumption.
  - intros [_ Hp]. exact Hp.
  - discriminate.
  - intros [Heq _]. contradiction.
Qed.

(** Right after a match no slash comes out first. *)
Lemma collapse_slashes_after_match (s : string) :
  startsWith (collapse_slashes true s) "/" = false.
Proof.
  induction s as [|c r IH]; [reflexivity|].
  rewrite collapse_slashes_skip. destruct (Ascii.eqb_spec c "/") as [->|Hc]; [exact IH|].
  destruct (collapse_slashes_head c r) as [rest ->].
  destruct (startsWith (String c rest) "/") eqn:Hs; [|reflexivity].
  apply startsWith_cons in Hs as [Heq _]. congruence.
Qed.

(** Outside a match a slash comes out first only where one went in. *)
Lemma collapse_slashes_one (s : string) :
  startsWith (collapse_slashes false s) "/" = true -> startsWith s "/" = true.
Proof.
  destruct s as [|a r]; [discriminate|].
  destruct (collapse_slashes_head a r) as [rest ->].
  intros Hout. apply startsWith_cons in Hout as [<- _].
  apply startsWith_spec. exists r. reflexivity.
Qed.

(** Two slashes come out first only where two went in. *)
Lemma collapse_slashes_two (s : string) :
  startsWith (collapse_slashes false s) "//" = true -> startsWith s "//" = true.
Proof.
  destruct s as [|a r]; [discriminate|].
  destruct (startsWith r "//") eqn:Hr.
  - destruct (collapse_slashes_head a r) as [rest ->].
    intros Hout. apply startsWith_cons in Hout as [<- _].
    apply startsWith_slashes in Hr as [r2 ->].
    apply startsWith_spec. eexists. reflexivity.
  - rewrite (collapse_slashes_keep a r Hr). intros Hout.
    apply startsWith_cons in Hout as [<- Hout]. apply collapse_slashes_one in Hout.
    apply startsWith_cons. split; [reflexivity | exact Hout].
Qed.

Lemma has_doubled_slash_cons (c : ascii) (r : string) :
  has_doubled_slash (String c r) =
  (negb (Ascii.eqb c ":") && startsWith r "//") || has_doubled_slash r.
Proof. reflexivity. Qed.

Lemma collapse_slashes_clean (n : nat) :
  forall (s : string) (skipping : bool),
    (String.length s <= n)%nat ->
    has_doubled_slash (collapse_slashes skipping s) = false.
Proof.
  induction n as [|n IH]; intros s skipping Hlen.
  - destruct s; [destruct skipping; reflexivity | cbn in Hlen; lia].
  - destruct s as [|c r]; [destruct skipping; reflexivity|].
    cbn [String.length] in Hlen.
    assert (Hfalse : has_doubled_slash (collapse_slashes false (String c r)) = false).
    { destruct (startsWith r "//") eqn:Hr.
      - pose proof Hr as Hr'. apply startsWith_slashes in Hr' as [r2 Hr2].
        rewrite (collapse_slashes_match c r r2 Hr2).
        destruct (Ascii.eqb c ":") eqn:Hc.
        + rewrite has_doubled_slash_cons, Hc. cbn [negb andb orb]. apply IH. lia.
        + rewrite has_doubled_slash_cons.
          assert (Hnone : startsWith (String "/" (collapse_slashes true r2)) "//" = false).
          { destruct (startsWith (String "/" (collapse_slashes true r2)) "//") eqn:Hs;
              [|reflexivity].
            apply startsWith_cons in Hs as [_ Hs].
            rewrite collapse_slashes_after_match in Hs. discriminate Hs. }
          rewrite Hnone, andb_false_r. cbn [orb].
          rewrite has_doubled_slash_cons.
          assert (Hnone2 : startsWith (collapse_slashes true r2) "//" = false).
          { destruct (startsWith (collapse_slashes true r2) "//") eqn:Hs; [|reflexivity].
            apply startsWith_spec in Hs as [rest Hs].
            pose proof (collapse_slashes_after_match r2) as Hone. rewrite Hs in Hone.
            discriminate Hone. }
          rewrite Hnone2, andb_false_r. cbn [orb]. apply IH.
          subst r. cbn [String.length] in Hlen. lia.
      - rewrite (collapse_slashes_keep c r Hr), has_doubled_slash_cons.
        assert (Hnone : startsWith (collapse_slashes false r) "//" = false).
        { destruct (startsWith (collapse_slashes false r) "//") eqn:Hs; [|reflexivity].
          apply collapse_slashes_two in Hs. congruence. }
        rewrite Hnone, andb_false_r. cbn [orb]. apply IH. lia. }
    destruct skipping; [|exact Hfalse].
    rewrite collapse_slashes_skip. destruct (Ascii.eqb c "/"); [apply IH; lia | exact Hfalse].
Qed.

(** A text without a doubled slash is left as it is. *)
Lemma collapse_slashes_fixed (s : string) :
  has_doubled_slash s = false -> collapse_slashes false s = s.
Proof.
  induction s as [|c r IH]; [reflexivity|].
  rewrite has_doubled_slash_cons. intros Hs. apply orb_false_iff in Hs as [Hhere Hr].
  destruct (startsWith r "//") eqn:Htwo.
  - rewrite andb_true_r in Hhere. apply negb_false_iff in Hhere.
    apply startsWith_slashes in Htwo as [r2 Hr2].
    rewrite (collapse_slashes_match c r r2 Hr2), Hhere, (IH Hr). reflexivity.
  - rewrite (collapse_slashes_keep c r Htwo), (IH Hr). reflexivity.
Qed.

Section RequestUrl.
Context `{Engine}.

(** X9.  In the URL [apiRequest] calls, no character other than a colon is
    followed by two slashes, whatever the base URL and the endpoint are. *)
Theorem request_url_no_doubled_slash (api endpoint : string) :
  has_doubled_slash (request_url api endpoint) = false.
Proof.
  unfold request_url. eapply collapse_slashes_clean. reflexivity.
Qed.

(** X10.  The cleaning of line 41 is idempotent, and it leaves alone every
    text in which no character other than a colon is followed by two
    slashes: the scheme separator of an absolute base URL is kept. *)
Theorem collapse_slashes_idempotent (s : string) :
  collapse_slashes false (collapse_slashes false s) = collapse_slashes false s /\
  (has_doubled_slash s = false -> collapse_slashes false s = s).
Proof.
  split; [|apply collapse_slashes_fixed].
  apply collapse_slashes_fixed. eapply collapse_slashes_clean. reflexivity.
Qed.

End RequestUrl.

(** ** What the wrapper makes of a body *)

Section Bodies.
Context `{Engine}.

Lemma json_typed_read_body (url : string) (r : response) (text : string) :
  json_typed r = true ->
  read_body url r text =
  or_catch
    (if negb (String.eqb (trim text) "") then JSON_parse text
     else Normal (JObj [("message", JStr "Success (No data returned)")]))
    (fun jsonError =>
       if html_shaped text then
         Throw (Error (if bool_decide (headers_get r "X-Backend-Server" = Some "EduAttend-Node")
                       then msg_alive_html
                       else msg_intercepted (headers_get r "Server")))
       else Throw (Error ("Invalid JSON from server: " +:+ substring0 30 text +:+ "..."))).
Proof. unfold json_typed, read_body. intros ->. reflexivity. Qed.

(** X11.  A body that is empty or blank, sent with a JSON content type, is
    read as the object [{message: 'Success (No data returned)'}]: with a 2xx
    status it is the data returned, and with any other status the error
    thrown carries that same message. *)
Theorem apiRequest_blank_json_body (endpoint : string) (opts : options) (w : world)
    (r : response) (text : string) :
  network w (request_of w endpoint opts) = Resolved r ->
  json_typed r = true ->
  resp_text r = Normal text ->
  trim text = "" ->
  fst (apiRequest endpoint opts w) =
  if ok r then Normal (JObj [("message", JStr "Success (No data returned)")])
  else Throw (Error "Success (No data returned)").
Proof.
  intros Hnet Htyped Htext Hblank. rewrite apiRequest_run. cbn [fst].
  unfold api_outcome, request_of in *. rewrite Hnet.
  unfold read_response. rewrite Htext. cbn [and_then].
  rewrite (json_typed_read_body _ r text Htyped), Hblank.
  destruct (ok r); reflexivity.
Qed.

(** X12.  A body sent with a JSON content type that is not blank, does not
    parse and is not HTML-shaped makes [apiRequest] throw
    [Invalid JSON from server:] followed by the first thirty characters of
    the body and three dots, whatever the status is. *)
Theorem apiRequest_invalid_json (endpoint : string) (opts : options) (w : world)
    (r : response) (text : string) (jsonError : exn) :
  network w (request_of w endpoint opts) = Resolved r ->
  json_typed r = true ->
  resp_text r = Normal text ->
  trim text <> "" ->
  JSON_parse text = Throw jsonError ->
  html_shaped text = false ->
  fst (apiRequest endpoint opts w) =
  Throw (Error ("Invalid JSON from server: " +:+ substring0 30 text +:+ "...")).
Proof.
  intros Hnet Htyped Htext Hblank Hparse Hhtml. rewrite apiRequest_run. cbn [fst].
  unfold api_outcome, request_of in *. rewrite Hnet.
  unfold read_response. rewrite Htext. cbn [and_then].
  rewrite (json_typed_read_body _ r text Htyped).
  destruct (String.eqb_spec (trim text) "") as [Heq|_]; [contradiction|]. cbn [negb].
  rewrite Hparse. cbn [or_catch]. rewrite Hhtml. cbn [and_then]. reflexivity.
Qed.

(** X13.  For a response whose status is not 2xx and whose body parses to a
    JSON object, the message of the error thrown is [data.message] when
    that is a non-empty string, otherwise [data.error] when that is a
    non-empty string, and [Error <status>: <statusText>] when both are
    missing or falsy; a message equal to [Failed to fetch] is replaced as
    for a rejected request. *)
Theorem apiRequest_error_message (endpoint : string) (opts : options) (w : world)
    (r : response) (text : string) (props : list (string * json)) :
  network w (request_of w endpoint opts) = Resolved r ->
  ok r = false ->
  json_typed r = true ->
  resp_text r = Normal text ->
  trim text <> "" ->
  JSON_parse text = Normal (JObj props) ->
  exists msg : string,
    fst (apiRequest endpoint opts w) =
      Throw (rethrow (request_url (API_URL w) endpoint) (Error msg)) /\
    (forall m : string, assoc "message" props = Some (JStr m) -> m <> "" -> msg = m) /\
    (forall e : string,
       truthy (assoc "message" props) = false ->
       assoc "error" props = Some (JStr e) -> e <> "" -> msg = e) /\
    (truthy (assoc "message" props) = false -> truthy (assoc "error" props) = false ->
     msg = "Error " +:+ pretty (status r) +:+ ": " +:+ statusText r).
Proof.
  intros Hnet Hok Htyped Htext Hblank Hparse. rewrite apiRequest_run. cbn [fst].
  unfold api_outcome, request_of in *. rewrite Hnet.
  unfold read_response. rewrite Htext. cbn [and_then].
  rewrite (json_typed_read_body _ r text Htyped).
  destruct (String.eqb_spec (trim text) "") as [Heq|_]; [contradiction|]. cbn [negb].
  rewrite Hparse. cbn [or_catch and_then]. rewrite Hok. cbn [negb get_prop and_then].
  exists (ToString (or_else
            (if truthy (assoc "message" props) then assoc "message" props
             else assoc "error" props)
            (Some (JStr ("Error " +:+ pretty (status r) +:+ ": " +:+ statusText r))))).
  split; [destruct (truthy (assoc "message" props)); reflexivity|].
  split; [|split].
  - intros m Hm Hne. rewrite Hm. unfold or_else. cbn [truthy].
    destruct (String.eqb_spec m ""); [contradiction|]. cbn [negb truthy].
    destruct (String.eqb_spec m ""); [contradiction|]. reflexivity.
  - intros e Hfalsy He Hne. rewrite Hfalsy, He. unfold or_else. cbn [truthy].
    destruct (String.eqb_spec e ""); [contradiction|]. reflexivity.
  - intros Hm He. rewrite Hm. unfold or_else. rewrite He. reflexivity.
Qed.


End Bodies.

(** ** The submit handlers, from click to result *)

Section Submit.
Context `{Engine}.

(** The state a submit handler leaves, by the outcome of its request. *)
Lemma login_submit_run (p : portal) (w : world) (id_el pw_el button_el : gmap string string) :
  elements (document w) !! id_field p = Some id_el ->
  elements (document w) !! "#password" = Some pw_el ->
  elements (document w) !! (form p +:+ " .login-button") = Some button_el ->
  let opts := login_options p (default "" (id_el !! "value")) (default "" (pw_el !! "value")) in
  let busy := <["innerHTML" := waiting_html p]> (<["disabled" := "true"]> button_el) in
  let w' := snd (login_submit p w) in
  fst (login_submit p w) = Normal tt /\
  requests w' = requests w ++ [login_request p w id_el pw_el] /\
  pending w' = pending w /\
  (forall sel : string, sel <> form p +:+ " .login-button" ->
     elements (document w') !! sel = elements (document w) !! sel) /\
  if login_accepted p (api_outcome w "/auth/login" opts)
  then
    elements (document w') !! (form p +:+ " .login-button") = Some busy /\
    alerts w' = alerts w /\ href w' = Some (dashboard p) /\
    exists (data : json) (token : option json),
      api_outcome w "/auth/login" opts = Normal data /\
      get_prop data "token" = Normal token /\
      localStorage w' =
        <["eduAttendUser" := JSON_stringify data]>
          (<["eduAttendToken" := ToString token]> (localStorage w))
  else
    elements (document w') !! (form p +:+ " .login-button") =
      Some (<["innerHTML" := idle_html p]> (<["disabled" := "false"]> busy)) /\
    (exists msg : string, alerts w' = alerts w ++ [msg]) /\
    href w' = href w /\ localStorage w' = localStorage w.
Proof.
  intros Hid Hpw Hbtn opts busy.
  rewrite (login_submit_unfold p w id_el pw_el button_el Hid Hpw Hbtn).
  unfold try_catch. rewrite login_attempt_run, login_busy_outcome. cbv zeta.
  fold opts. unfold login_request, request_of. fold opts.
  set (w1 := add_request _ (login_busy p button_el w)).
  assert (Hb1 : elements (document w1) !! (form p +:+ " .login-button") = Some busy).
  { subst w1. unfold login_busy. world_simpl. apply lookup_insert_eq. }
  assert (Hfail : forall e : exn,
            let w' := snd (login_failed p e w1) in
            fst (login_failed p e w1) = Normal tt /\
            requests w' = requests w1 /\ pending w' = pending w /\
            (forall sel : string, sel <> form p +:+ " .login-button" ->
               elements (document w') !! sel = elements (document w) !! sel) /\
            elements (document w') !! (form p +:+ " .login-button") =
              Some (<["innerHTML" := idle_html p]> (<["disabled" := "false"]> busy)) /\
            (exists msg : string, alerts w' = alerts w ++ [msg]) /\
            href w' = href w /\ localStorage w' = localStorage w).
  { intros e. unfold login_failed, bind, alert, modify, set_property.
    world_simpl. rewrite Hb1. world_simpl. rewrite lookup_insert_eq. world_simpl.
    split; [reflexivity|]. split; [reflexivity|]. split; [reflexivity|].
    split; [|split; [apply lookup_insert_eq | split; [eauto | split; reflexivity]]].
    intros sel Hsel. subst w1. unfold login_busy. world_simpl.
    rewrite !lookup_insert_ne by congruence. reflexivity. }
  assert (Hreq : requests w1 = requests w ++ [api_request (localStorage w !! "eduAttendToken")
                                                (API_URL w) "/auth/login" opts]).
  { subst w1. reflexivity. }
  unfold login_accepted.
  destruct (api_outcome w "/auth/login" opts) as [data|e] eqn:Hdata.
  - destruct (get_prop data "role") as [r|e] eqn:Hr.
    + destruct (is_string r (role p)) eqn:Hrole.
      * assert (Htok : exists token, get_prop data "token" = Normal token).
        { destruct data; cbn in Hr |- *; try discriminate; eauto. }
        destruct Htok as [token Htok]. rewrite Htok. world_simpl.
        split; [reflexivity|]. split; [exact Hreq|]. split; [reflexivity|].
        split; [|split; [exact Hb1 | split; [reflexivity | split; [reflexivity|]]]].
        2: { exists data, token. split; [reflexivity|]. split; [exact Htok | reflexivity]. }
        intros sel Hsel. subst w1. unfold login_busy. world_simpl.
        rewrite !lookup_insert_ne by congruence. reflexivity.
      * destruct (Hfail (Error (refusal p))) as (Hc & Hq & Hp & Hother & Hb & Ha & Hh & Hs).
        rewrite Hreq in Hq. repeat split; assumption.
    + destruct (Hfail e) as (Hc & Hq & Hp & Hother & Hb & Ha & Hh & Hs).
      rewrite Hreq in Hq. repeat split; assumption.
  - destruct (Hfail e) as (Hc & Hq & Hp & Hother & Hb & Ha & Hh & Hs).
    rewrite Hreq in Hq. repeat split; assumption.
Qed.

(** X15.  A submit handler sends exactly one request, whatever comes back:
    a POST to the login endpoint whose body is the serialised object of the
    user name, the password and the role of the portal. *)
Theorem login_sends_one_request (p : portal) (w : world)
    (id_el pw_el button_el : gmap string string) :
  elements (document w) !! id_field p = Some id_el ->
  elements (document w) !! "#password" = Some pw_el ->
  elements (document w) !! (form p +:+ " .login-button") = Some button_el ->
  exists r : request,
    requests (snd (login_submit p w)) = requests w ++ [r] /\
    req_url r = request_url (API_URL w) "/auth/login" /\
    req_method r = Some "POST" /\
    req_body r = Some (JSON_stringify
                         (JObj [("username", JStr (default "" (id_el !! "value")));
                                ("password", JStr (default "" (pw_el !! "value")));
                                ("role", JStr (role p))])).
Proof.
  intros Hid Hpw Hbtn.
  destruct (login_submit_run p w id_el pw_el button_el Hid Hpw Hbtn) as (_ & Hreq & _).
  exists (login_request p w id_el pw_el). split; [exact Hreq|]. repeat split.
Qed.

(** X16.  When a submit handler has run, the login button is back in use
    with its idle label unless the login was accepted: after any failure
    (no connection, an error status, another role) [disabled] is [false] and
    the label is the portal's idle label; after an accepted login the button
    stays disabled with the waiting label.  No other element is touched. *)
Theorem login_button_after_submit (p : portal) (w : world)
    (id_el pw_el button_el : gmap string string) :
  elements (document w) !! id_field p = Some id_el ->
  elements (document w) !! "#password" = Some pw_el ->
  elements (document w) !! (form p +:+ " .login-button") = Some button_el ->
  let w' := snd (login_submit p w) in
  let accepted :=
    login_accepted p
      (fst (apiRequest "/auth/login"
              (login_options p (default "" (id_el !! "value")) (default "" (pw_el !! "value")))
              w)) in
  (exists el : gmap string string,
     elements (document w') !! (form p +:+ " .login-button") = Some el /\
     el !! "disabled" = Some (if accepted then "true" else "false") /\
     el !! "innerHTML" = Some (if accepted then waiting_html p else idle_html p)) /\
  (forall sel : string, sel <> form p +:+ " .login-button" ->
     elements (document w') !! sel = elements (document w) !! sel).
Proof.
  intros Hid Hpw Hbtn.
  destruct (login_submit_run p w id_el pw_el button_el Hid Hpw Hbtn)
    as (_ & _ & _ & Hother & Hcases).
  cbv zeta in *. rewrite apiRequest_run. cbn [fst].
  split; [|exact Hother].
  destruct (login_accepted p _).
  - destruct Hcases as (Hb & _). eexists. split; [exact Hb|]. split.
    + rewrite lookup_insert_ne by discriminate. apply lookup_insert_eq.
    + apply lookup_insert_eq.
  - destruct Hcases as (Hb & _). eexists. split; [exact Hb|]. split.
    + rewrite lookup_insert_ne by discriminate. apply lookup_insert_eq.
    + apply lookup_insert_eq.
Qed.

(** X17.  When the page lacks the user-name field, the password field or the
    login button of the form, a submit handler stops with a type error
    before its [try] block: no request is sent, no alert is shown and the
    state is left as it was. *)
Theorem login_missing_element (p : portal) (w : world) :
  elements (document w) !! id_field p = None \/
  elements (document w) !! "#password" = None \/
  elements (document w) !! (form p +:+ " .login-button") = None ->
  snd (login_submit p w) = w /\
  exists msg : string, fst (login_submit p w) = Throw (TypeError msg).
Proof.
  intros Hmissing. unfold login_submit, bind, get_value, set_property.
  destruct (elements (document w) !! id_field p) as [id_el|] eqn:Hid.
  2: { split; [reflexivity | eauto]. }
  destruct (elements (document w) !! "#password") as [pw_el|] eqn:Hpw.
  2: { split; [reflexivity | eauto]. }
  destruct Hmissing as [Hm | [Hm | Hm]]; try discriminate Hm.
  rewrite Hm. split; [reflexivity | eauto].
Qed.

Lemma logout_storage (w : world) :
  localStorage (snd (logout w)) =
  delete "eduAttendUser" (delete "eduAttendToken" (localStorage w)).
Proof. reflexivity. Qed.

(** X18.  Logging in and then out leaves no trace of the session: whatever
    the login request returned, the storage after [logout] is the storage
    from before the login without the two session keys, so every other key
    keeps the value it had. *)
Theorem login_then_logout (p : portal) (w : world)
    (id_el pw_el button_el : gmap string string) :
  elements (document w) !! id_field p = Some id_el ->
  elements (document w) !! "#password" = Some pw_el ->
  elements (document w) !! (form p +:+ " .login-button") = Some button_el ->
  localStorage (snd (logout (snd (login_submit p w)))) =
  delete "eduAttendUser" (delete "eduAttendToken" (localStorage w)).
Proof.
  intros Hid Hpw Hbtn. rewrite logout_storage.
  destruct (login_submit_run p w id_el pw_el button_el Hid Hpw Hbtn)
    as (_ & _ & _ & _ & Hcases).
  cbv zeta in Hcases. destruct (login_accepted p _).
  - destruct Hcases as (_ & _ & _ & data & token & _ & _ & ->).
    apply map_eq. intros k.
    destruct (decide (k = "eduAttendUser")) as [->|Hu].
    { rewrite !lookup_delete_eq. reflexivity. }
    rewrite !(lookup_delete_ne _ "eduAttendUser") by congruence.
    destruct (decide (k = "eduAttendToken")) as [->|Ht].
    { rewrite !lookup_delete_eq. reflexivity. }
    rewrite !lookup_delete_ne by congruence.
    rewrite !lookup_insert_ne by congruence. reflexivity.
  - destruct Hcases as (_ & _ & _ & ->). reflexivity.
Qed.

End Submit.

(** ** From a login to the next page *)

Section AfterLogin.
Context `{Engine}.

(** The marking page block only registers listeners and starts the list. *)
Lemma attendance_page_init_run (w : world) :
  exists w' : world,
    attendance_page_init w = (Normal tt, w') /\
    localStorage w' = localStorage w /\ href w' = href w /\ alerts w' = alerts w /\
    requests w' = requests w /\
    elements (document w') = elements (document w) /\
    pending w' =
      pending w ++
      (if includes (pathname (location w)) "attendance.html" then [LoadStudentsForMarking]
       else []).
Proof.
  unfold attendance_page_init, bind, querySelector, get, addEventListener, modify, ret.
  world_simpl.
  destruct (includes (pathname (location w)) "attendance.html").
  - world_simpl.
    repeat (match goal with
            | |- context [bool_decide ?P] => destruct (bool_decide P)
            end; world_simpl).
    all: eexists; (split; [reflexivity|]); world_simpl; repeat split.
  - eexists. split; [reflexivity|]. rewrite app_nil_r. repeat split.
Qed.

(** A path without [dashboard.html] is not the student dashboard's either. *)
Lemma not_dashboard_not_student (path : string) :
  includes path "dashboard.html" = false -> includes path "student-dashboard.html" = false.
Proof.
  intros Hpath. destruct (includes path "student-dashboard.html") eqn:Hs; [|reflexivity].
  apply student_dashboard_is_dashboard in Hs. congruence.
Qed.

(** X19.  The marking page is not guarded: on a page whose path contains
    [attendance.html] and not [dashboard.html], the handler looks at no
    stored session; whatever the storage holds it completes, sends the
    visitor nowhere, shows no alert, leaves the storage as it is and starts
    [loadStudentsForMarking]. *)
Theorem attendance_page_unguarded (w : world) :
  includes (pathname (location w)) "attendance.html" = true ->
  includes (pathname (location w)) "dashboard.html" = false ->
  let w' := snd (DOMContentLoaded w) in
  fst (DOMContentLoaded w) = Normal tt /\
  href w' = href w /\ alerts w' = alerts w /\
  localStorage w' = localStorage w /\
  pending w' = pending w ++ [LoadStudentsForMarking].
Proof.
  intros Hmark Hdash. pose proof (not_dashboard_not_student _ Hdash) as Hstudent.
  destruct (DOMContentLoaded_unfold w)
    as (w0 & -> & Hs & Hl & Hh & Ha & Hr & Hp & _ & _ & He & Hel & _ & _).
  unfold dashboard_init. erewrite bind_normal by reflexivity. rewrite Hl, Hdash.
  unfold student_dashboard_init. erewrite bind_normal by reflexivity. rewrite Hl, Hstudent.
  destruct (attendance_page_init_run w0) as (w1 & -> & Hs1 & Hh1 & Ha1 & Hr1 & _ & Hp1).
  cbn [fst snd]. rewrite Hl, Hmark in Hp1.
  rewrite Hh1, Ha1, Hs1, Hp1, Hh, Ha, Hs, Hp. repeat split.
Qed.

(** An accepted login stores a session that is an object with the role of
    the portal. *)
Lemma accepted_session (p : portal) (data : json) :
  login_accepted p (Normal data) = true ->
  exists props : list (string * json),
    data = JObj props /\ is_string (assoc "role" props) (role p) = true.
Proof.
  unfold login_accepted.
  destruct data as [|b|x|s|items|props]; cbn [get_prop];
    try change (String.eqb "role" "length") with false; cbn [is_string];
    try discriminate.
  intros Hrole. eauto.
Qed.

(** X20.  A student who has just logged in cannot reach the student
    dashboard: after an accepted login through the student form, on the page
    the handler navigates to (any page whose path contains
    [student-dashboard.html], read with the storage the login left), the
    load handler sends the student to [faculty-login.html] and starts no
    loading.  The serialised session is assumed to parse back to itself. *)
Theorem student_login_bounces (w w2 : world) (id_el pw_el button_el : gmap string string)
    (data : json) :
  elements (document w) !! id_field student_portal = Some id_el ->
  elements (document w) !! "#password" = Some pw_el ->
  elements (document w) !! (form student_portal +:+ " .login-button") = Some button_el ->
  fst (apiRequest "/auth/login"
         (login_options student_portal (default "" (id_el !! "value"))
            (default "" (pw_el !! "value"))) w) = Normal data ->
  login_accepted student_portal (Normal data) = true ->
  JSON_parse (JSON_stringify data) = Normal data ->
  localStorage w2 = localStorage (snd (studentForm_submit w)) ->
  includes (pathname (location w2)) "student-dashboard.html" = true ->
  href (snd (studentForm_submit w)) = Some "student-dashboard.html" /\
  fst (DOMContentLoaded w2) = Normal tt /\
  href (snd (DOMContentLoaded w2)) = Some "faculty-login.html" /\
  pending (snd (DOMContentLoaded w2)) = pending w2 /\
  requests (snd (DOMContentLoaded w2)) = requests w2.
Proof.
  intros Hid Hpw Hbtn Hdata Haccepted Hparse Hstore Hpath.
  rewrite apiRequest_run in Hdata. cbn [fst] in Hdata.
  unfold studentForm_submit in *.
  destruct (login_submit_run student_portal w id_el pw_el button_el Hid Hpw Hbtn)
    as (_ & _ & _ & _ & Hcases).
  cbv zeta in Hcases. rewrite Hdata, Haccepted in Hcases.
  destruct Hcases as (_ & _ & Hhref & data' & token & [= <-] & _ & Hs).
  split; [exact Hhref|].
  destruct (accepted_session student_portal data Haccepted) as (props & -> & Hrole).
  destruct (dashboard_guard w2 (JObj props)) as (Hc & Hh & Hp & Hr & _).
  - apply student_dashboard_is_dashboard, Hpath.
  - rewrite Hstore, Hs, lookup_insert_eq. exact Hparse.
  - rewrite wrong_session_total. f_equal. cbn [truthy negb orb].
    destruct (assoc "role" props) as [[| | |t| |]|]; try discriminate Hrole.
    cbn in Hrole |- *. apply String.eqb_eq in Hrole. subst t. reflexivity.
  - repeat split; assumption.
Qed.

(** X21.  After an accepted login through the faculty form, the faculty
    dashboard lets the session in: on a page whose path contains
    [dashboard.html] and not [student-dashboard.html], read with the storage
    the login left, the load handler asks for no navigation and starts
    [loadDashboardStats].  The serialised session is assumed to parse back
    to itself. *)
Theorem faculty_login_admitted (w w2 : world) (id_el pw_el button_el : gmap string string)
    (data : json) :
  elements (document w) !! id_field faculty_portal = Some id_el ->
  elements (document w) !! "#password" = Some pw_el ->
  elements (document w) !! (form faculty_portal +:+ " .login-button") = Some button_el ->
  fst (apiRequest "/auth/login"
         (login_options faculty_portal (default "" (id_el !! "value"))
            (default "" (pw_el !! "value"))) w) = Normal data ->
  login_accepted faculty_portal (Normal data) = true ->
  JSON_parse (JSON_stringify data) = Normal data ->
  localStorage w2 = localStorage (snd (facultyForm_submit w)) ->
  includes (pathname (location w2)) "dashboard.html" = true ->
  includes (pathname (location w2)) "student-dashboard.html" = false ->
  href (snd (facultyForm_submit w)) = Some "dashboard.html" /\
  fst (DOMContentLoaded w2) = Normal tt /\
  href (snd (DOMContentLoaded w2)) = href w2 /\
  exists rest : list task,
    pending (snd (DOMContentLoaded w2)) = pending w2 ++ LoadDashboardStats :: rest.
Proof.
  intros Hid Hpw Hbtn Hdata Haccepted Hparse Hstore Hpath Hstudent.
  rewrite apiRequest_run in Hdata. cbn [fst] in Hdata.
  unfold facultyForm_submit in *.
  destruct (login_submit_run faculty_portal w id_el pw_el button_el Hid Hpw Hbtn)
    as (_ & _ & _ & _ & Hcases).
  cbv zeta in Hcases. rewrite Hdata, Haccepted in Hcases.
  destruct Hcases as (_ & _ & Hhref & data' & token & [= <-] & _ & Hs).
  split; [exact Hhref|].
  destruct (accepted_session faculty_portal data Haccepted) as (props & -> & Hrole).
  destruct (DOMContentLoaded_unfold w2)
    as (w0 & -> & Hs0 & Hl0 & Hh0 & Ha0 & Hr0 & Hp0 & _).
  unfold dashboard_init.
  erewrite bind_normal by reflexivity. rewrite Hl0, Hpath.
  erewrite bind_normal by reflexivity. rewrite Hs0, Hstore, Hs, lookup_insert_eq.
  cbn [JSON_parse_item]. rewrite Hparse.
  erewrite bind_normal by reflexivity.
  change (role faculty_portal) with "faculty" in Hrole.
  rewrite wrong_session_total. cbn [truthy negb orb]. rewrite Hrole. cbn [negb].
  erewrite bind_normal by reflexivity.
  assert (Hname : exists name, display_name (JObj props) = Normal name).
  { unfold display_name. cbn [get_prop]. destruct (truthy (assoc "name" props)); eauto. }
  destruct Hname as [name Hname].
  erewrite bind_normal by (unfold lift; rewrite Hname; reflexivity).
  match goal with
  | |- context [set_property_if_present ?sel ?prop ?v] =>
      destruct (set_property_if_present_run sel prop v w0) as (w1 & Hset & Hs1 & Hl1 & Hh1 & Hp1)
  end.
  erewrite bind_normal by exact Hset.
  erewrite bind_normal by reflexivity.
  unfold student_dashboard_init.
  erewrite bind_normal by reflexivity. world_simpl. rewrite Hl1, Hl0, Hstudent.
  match goal with
  | |- context [attendance_page_init ?w3] =>
      destruct (attendance_page_init_run w3) as (w4 & -> & _ & Hh4 & _ & _ & _ & Hp4)
  end.
  world_simpl. rewrite Hh4, Hp4, Hh1, Hp1, Hh0, Hp0.
  split; [reflexivity|]. split; [reflexivity|].
  eexists. rewrite <- app_assoc. reflexivity.
Qed.

End AfterLogin.

(** ** What the loaders leave alone *)

Section Quiet.
Context `{Engine}.

Lemma quiet_ret {A} (a : A) : quiet (ret a).
Proof. intros w. cbn. repeat split. auto. Qed.

Lemma quiet_throw {A} (e : exn) : quiet (@throw A e).
Proof. intros w. cbn. repeat split. auto. Qed.

Lemma quiet_lift {A} (c : completion A) : quiet (lift c).
Proof. intros w. cbn. repeat split. auto. Qed.

Lemma quiet_get {A} (f : world -> A) : quiet (get f).
Proof. intros w. cbn. repeat split. auto. Qed.

Lemma quiet_step {A} (m : M A) (w : world) (k : world -> Prop) :
  quiet m ->
  (forall w' : world,
     localStorage w' = localStorage w -> location w' = location w -> href w' = href w ->
     alerts w' = alerts w -> network w' = network w -> API_URL w' = API_URL w ->
     pending w' = pending w ->
     (forall sel : string,
        is_Some (elements (document w) !! sel) -> is_Some (elements (document w') !! sel)) ->
     k w') ->
  k (snd (m w)).
Proof.
  intros Hm Hk. destruct (Hm w) as (Hs & Hl & Hh & Ha & Hn & Hu & Hp & He).
  apply Hk; assumption.
Qed.

Lemma quiet_bind {A B} (m : M A) (k : A -> M B) :
  quiet m -> (forall a : A, quiet (k a)) -> quiet (bind m k).
Proof.
  intros Hm Hk w. unfold bind. cbv zeta.
  destruct (Hm w) as (Hs & Hl & Hh & Ha & Hn & Hu & Hp & He).
  destruct (m w) as [[a|e] w1]; cbn [snd] in *.
  - destruct (Hk a w1) as (Hs' & Hl' & Hh' & Ha' & Hn' & Hu' & Hp' & He').
    rewrite Hs', Hl', Hh', Ha', Hn', Hu', Hp'. repeat split; try assumption. auto.
  - repeat split; assumption.
Qed.

Lemma quiet_try_catch {A} (m : M A) (h : exn -> M A) :
  quiet m -> (forall e : exn, quiet (h e)) -> quiet (try_catch m h).
Proof.
  intros Hm Hh w. unfold try_catch. cbv zeta.
  destruct (Hm w) as (Hs & Hl & Hh0 & Ha & Hn & Hu & Hp & He).
  destruct (m w) as [[a|e] w1]; cbn [snd] in *.
  - repeat split; assumption.
  - destruct (Hh e w1) as (Hs' & Hl' & Hh' & Ha' & Hn' & Hu' & Hp' & He').
    rewrite Hs', Hl', Hh', Ha', Hn', Hu', Hp'. repeat split; try assumption. auto.
Qed.

Lemma quiet_forEach {A} (items : list A) (f : A -> M unit) :
  (forall x : A, quiet (f x)) -> quiet (forEach items f).
Proof.
  intros Hf. induction items as [|x rest IH]; cbn [forEach].
  - apply quiet_ret.
  - apply quiet_bind; [apply Hf | intros _; exact IH].
Qed.

Lemma is_Some_insert (m : gmap string (gmap string string)) (k sel : string)
    (v : gmap string string) :
  is_Some (m !! sel) -> is_Some (<[k := v]> m !! sel).
Proof.
  intros Hsel. destruct (decide (k = sel)) as [->|Hne].
  - rewrite lookup_insert_eq. eauto.
  - rewrite lookup_insert_ne by exact Hne. exact Hsel.
Qed.

Lemma quiet_set_property (sel prop v : string) : quiet (set_property sel prop v).
Proof.
  intros w. unfold set_property. destruct (elements (document w) !! sel); world_simpl.
  - repeat split. intros sel'. apply is_Some_insert.
  - repeat split. auto.
Qed.

Lemma quiet_set_property_at (sel : string) (i : nat) (prop v : string) :
  quiet (set_property_at sel i prop v).
Proof.
  intros w. unfold set_property_at. cbv zeta.
  destruct (default [] (element_lists (document w) !! sel) !! i); world_simpl;
    repeat split; auto.
Qed.

Lemma quiet_appendChild (sel row : string) : quiet (appendChild sel row).
Proof.
  intros w. unfold appendChild. destruct (elements (document w) !! sel); world_simpl.
  - repeat split. intros sel'. apply is_Some_insert.
  - repeat split. auto.
Qed.

Lemma quiet_modify_document (f : dom -> dom) :
  (forall d : dom, elements (f d) = elements d) -> quiet (modify (set_document f)).
Proof.
  intros Hf w. unfold modify. world_simpl. repeat split. intros sel. rewrite Hf. auto.
Qed.

Lemma quiet_apiRequest (endpoint : string) (opts : options) : quiet (apiRequest endpoint opts).
Proof. intros w. rewrite apiRequest_run. world_simpl. repeat split. auto. Qed.

Lemma quiet_querySelector (sel : string) : quiet (querySelector sel).
Proof. apply quiet_get. Qed.

Lemma quiet_count_all (sel : string) : quiet (count_all sel).
Proof. apply quiet_get. Qed.

Lemma quiet_replace_marking_list (markup : string) : quiet (replace_marking_list markup).
Proof.
  unfold replace_marking_list. apply quiet_bind; [apply quiet_set_property|].
  intros _. apply quiet_modify_document. reflexivity.
Qed.

Lemma quiet_append_student_row (row : string) : quiet (append_student_row row).
Proof.
  unfold append_student_row. apply quiet_bind; [apply quiet_appendChild|].
  intros _. apply quiet_modify_document. reflexivity.
Qed.

End Quiet.

Create HintDb quiet.

#[export] Hint Resolve quiet_ret quiet_throw quiet_lift quiet_get quiet_set_property
  quiet_set_property_at quiet_appendChild quiet_apiRequest quiet_querySelector
  quiet_count_all quiet_replace_marking_list quiet_append_student_row : quiet.

Ltac quiet_steps :=
  repeat first
    [ solve [auto with quiet]
    | apply quiet_modify_document; reflexivity
    | apply quiet_forEach; intros ?
    | apply quiet_try_catch; [|intros ?]
    | apply quiet_bind; [|intros ?]
    | match goal with
      | |- quiet (if ?b then _ else _) => destruct b
      end ].

Section Loaders.
Context `{Engine}.

Lemma quiet_loadDashboardStats : quiet loadDashboardStats.
Proof. unfold loadDashboardStats, show_student_count, show_recent. quiet_steps. Qed.

Lemma quiet_loadStudentAttendance : quiet loadStudentAttendance.
Proof. unfold loadStudentAttendance, show_stats, show_log. quiet_steps. Qed.

Lemma quiet_loadStudentsForMarking : quiet loadStudentsForMarking.
Proof. unfold loadStudentsForMarking. quiet_steps. Qed.

(** A [try] whose [catch] block only logs completes. *)
Lemma try_catch_swallowed (m : M unit) (w : world) :
  fst (try_catch m (fun _ => ret tt) w) = Normal tt.
Proof. unfold try_catch. destruct (m w) as [[[]|e] w1]; reflexivity. Qed.

Lemma replace_marking_list_completes (markup : string) (w : world) :
  is_Some (elements (document w) !! ".marking-list") ->
  fst (replace_marking_list markup w) = Normal tt.
Proof.
  intros [el Hel]. unfold replace_marking_list, bind, set_property, modify.
  rewrite Hel. reflexivity.
Qed.

(** X22.  The three loaders keep their failures to themselves: whatever the
    network answers and whatever the page holds, each of them completes
    without an error, shows no alert, asks for no navigation and writes
    nothing to local storage. *)
Theorem loaders_swallow_errors (w : world) :
  Forall (fun loader : M unit =>
            fst (loader w) = Normal tt /\
            alerts (snd (loader w)) = alerts w /\
            href (snd (loader w)) = href w /\
            localStorage (snd (loader w)) = localStorage w)
    [loadDashboardStats; loadStudentAttendance; loadStudentsForMarking].
Proof.
  repeat constructor.
  - apply try_catch_swallowed.
  - apply (quiet_loadDashboardStats w).
  - apply (quiet_loadDashboardStats w).
  - apply (quiet_loadDashboardStats w).
  - apply try_catch_swallowed.
  - apply (quiet_loadStudentAttendance w).
  - apply (quiet_loadStudentAttendance w).
  - apply (quiet_loadStudentAttendance w).
  - unfold loadStudentsForMarking. erewrite bind_normal by reflexivity.
    destruct (bool_decide_reflect (is_Some (elements (document w) !! ".marking-list")))
      as [Hpresent|Habsent]; cbn [negb]; [|reflexivity].
    unfold try_catch.
    match goal with
    | |- context [match ?m w with _ => _ end] =>
        assert (Hkeeps : quiet m) by quiet_steps;
        pose proof (quiet_step m w
                      (fun w' => is_Some (elements (document w') !! ".marking-list")) Hkeeps
                      (fun w' _ _ _ _ _ _ _ He => He ".marking-list" Hpresent)) as Hlist;
        destruct (m w) as [[[]|e0] w1]
    end; [reflexivity|].
    apply replace_marking_list_completes. exact Hlist.
  - apply (quiet_loadStudentsForMarking w).
  - apply (quiet_loadStudentsForMarking w).
  - apply (quiet_loadStudentsForMarking w).
Qed.

End Loaders.

(** ** How many records are shown *)

Lemma append_nil_r (s : string) : s +:+ "" = s.
Proof.
  induction s as [|a s IH]; [reflexivity|].
  change (String a s +:+ "") with (String a (s +:+ "")). rewrite IH. reflexivity.
Qed.

Lemma append_assoc (s t u : string) : (s +:+ t) +:+ u = s +:+ (t +:+ u).
Proof.
  induction s as [|a s IH]; [reflexivity|].
  change (String a ((s +:+ t) +:+ u) = String a (s +:+ (t +:+ u))). rewrite IH. reflexivity.
Qed.

Lemma join_cons (row : string) (rows : list string) : join (row :: rows) = row +:+ join rows.
Proof. reflexivity. Qed.

Lemma shown_all (markup : json -> completion string) (items : list json) :
  List.length (shown_before_failure markup items) = List.length items <->
  Forall (fun x => exists row, markup x = Normal row) items.
Proof.
  induction items as [|x rest IH]; cbn [shown_before_failure List.length].
  - split; [constructor | reflexivity].
  - destruct (markup x) as [row|e] eqn:Hx; cbn [List.length]; split.
    + intros Hlen. constructor; [eauto | apply IH; lia].
    + intros Hall. inversion Hall as [|? ? _ Hrest]. apply IH in Hrest. lia.
    + discriminate.
    + intros Hall. inversion Hall as [|? ? [row Hrow] _]. congruence.
Qed.

Lemma shown_length (markup : json -> completion string) (items : list json) :
  (List.length (shown_before_failure markup items) <= List.length items)%nat.
Proof.
  induction items as [|x rest IH]; cbn [shown_before_failure List.length]; [lia|].
  destruct (markup x); cbn [List.length]; lia.
Qed.

Section Records.
Context `{Engine}.


Lemma is_zero_length (n : nat) :
  (0 < Z.of_nat n < 2 ^ 53)%Z -> is_zero (Some (JNum (Number_of_nat n))) = false.
Proof.
  intros [Hpos Hlt]. unfold Number_of_nat.
  destruct (Z.of_nat n) as [|p|p] eqn:Hn; try lia.
  destruct (Number_of_Z_positive p Hlt) as (m & e & ->). reflexivity.
Qed.




(** The markup of the log entries, all of them or none. *)
Lemma append_log_items_shown (records : list json) :
  forall html : string,
    append_log_items html records =
    if (List.length (shown_before_failure log_item_html records) =? List.length records)%nat
    then Normal (html +:+ join (shown_before_failure log_item_html records))
    else match append_log_items html records with
         | Throw e => Throw e
         | Normal _ => Throw (Error "")
         end.
Proof.
  induction records as [|x rest IH]; intros html;
    cbn [append_log_items shown_before_failure List.length].
  - cbn [Nat.eqb join fold_right]. rewrite append_nil_r. reflexivity.
  - destruct (log_item_html x) as [item|e]; cbn [List.length Nat.eqb]; [|reflexivity].
    rewrite (IH (html +:+ item)).
    destruct (_ =? _)%nat.
    + rewrite join_cons, append_assoc. reflexivity.
    + destruct (append_log_items (html +:+ item) rest); reflexivity.
Qed.

(** X24.  The attendance log of the student dashboard is written in one
    piece: when each of the first ten records can be shown, the list holds
    the heading and their entries, ten at most; when one of them cannot
    (it has no [status], say), the list is left as it was, while the stat
    cards have been updated already and the loader still completes. *)
Theorem student_log_entries (w : world) (items : list json) (el : gmap string string) :
  fst (apiRequest "/attendance/my-history" no_options w) = Normal (JArr items) ->
  Forall (fun a => a <> JNull) items ->
  items <> [] ->
  elements (document w) !! ".performance-list" = Some el ->
  let entries := shown_before_failure log_item_html (firstn 10 items) in
  fst (loadStudentAttendance w) = Normal tt /\
  (List.length entries <= 10)%nat /\
  elements (document (snd (loadStudentAttendance w))) !! ".performance-list" =
    Some (if (List.length entries =? List.length (firstn 10 items))%nat
          then <["innerHTML" := log_heading +:+ join entries]> el
          else el).
Proof.
  intros Hhist Hnn Hne Hel entries.
  split; [apply try_catch_swallowed|]. split.
  { subst entries. etransitivity; [apply shown_length|]. rewrite length_firstn. lia. }
  rewrite (loadStudentAttendance_run w items _ Hhist (compute_stats_spec items Hnn)).
  cbn [snd].
  match goal with |- context [show_stats ?st0 ?w0] => set (st := st0); set (w1 := w0) end.
  destruct (show_stats_run st w1) as (w2 & Hstats & Hels & _).
  rewrite Hstats. cbn [snd].
  assert (Hel2 : elements (document w2) !! ".performance-list" = Some el)
    by (rewrite Hels; exact Hel).
  unfold show_log.
  erewrite bind_normal by reflexivity.
  unfold querySelector, get. rewrite Hel2, bool_decide_true by eauto.
  destruct (map_subject_total items Hnn) as [subjects Hsubjects].
  erewrite bind_normal by (unfold lift; rewrite Hsubjects; reflexivity).
  destruct items as [|x rest]; [congruence|]. cbn [List.length Nat.eqb].
  rewrite append_log_items_shown. fold entries.
  destruct (List.length entries =? _)%nat.
  - erewrite bind_normal by reflexivity.
    erewrite set_property_run by exact Hel2. world_simpl. apply lookup_insert_eq.
  - destruct (append_log_items _ _);
      (erewrite bind_throw by reflexivity); cbn [snd]; exact Hel2.
Qed.

End Records.

(** ** The student list and its buttons *)

Lemma has_class_In (c : string) (classes : list string) :
  has_class c classes = true <-> In c classes.
Proof.
  unfold has_class. rewrite existsb_exists. split.
  - intros (x & Hx & Heq). apply String.eqb_eq in Heq. subst x. exact Hx.
  - intros Hc. exists c. split; [exact Hc | apply String.eqb_refl].
Qed.

Lemma In_classList_remove (c c' : string) (classes : list string) :
  In c' (classList_remove c classes) <-> c' <> c /\ In c' classes.
Proof.
  unfold classList_remove. rewrite <- !list_elem_of_In, list_elem_of_filter.
  destruct (String.eqb_spec c' c) as [Heq|Hne]; cbn; intuition congruence.
Qed.

Lemma In_classList_add (c c' : string) (classes : list string) :
  In c' (classList_add c classes) <-> c' = c \/ In c' classes.
Proof.
  unfold classList_add. destruct (existsb (String.eqb c) classes) eqn:Hc.
  - apply (has_class_In c classes) in Hc. split; [auto | intros [->|Hin]; assumption].
  - rewrite in_app_iff. cbn. intuition congruence.
Qed.

Lemma active_count_inactive (buttons : list (list string)) :
  Forall (fun classes => has_class "active" classes = false) buttons ->
  active_count buttons = 0%nat.
Proof.
  unfold active_count. induction 1 as [|classes rest Hc _ IH]; [reflexivity|].
  cbn [List.filter]. rewrite Hc. exact IH.
Qed.

Lemma active_count_insert (buttons : list (list string)) (i : nat) (classes : list string) :
  Forall (fun classes => has_class "active" classes = false) buttons ->
  (active_count (<[i := classes]> buttons) <= 1)%nat.
Proof.
  intros Hall. revert i. induction Hall as [|x rest Hx Hrest IH]; intros i.
  - destruct i; cbn; lia.
  - destruct i as [|i].
    + change (<[0%nat := classes]> (x :: rest)) with (classes :: rest).
      unfold active_count. cbn [List.filter].
      pose proof (active_count_inactive rest Hrest) as Hzero. unfold active_count in Hzero.
      destruct (has_class "active" classes); cbn [List.length]; lia.
    + change (<[S i := classes]> (x :: rest)) with (x :: <[i := classes]> rest).
      unfold active_count in *. cbn [List.filter]. rewrite Hx. apply IH.
Qed.

(** After [activate] a container of action buttons has one active button
    at most, and its buttons are action buttons still. *)
Lemma activate_one_choice (i : nat) (buttons : list (list string)) :
  Forall (fun classes => has_class "action-btn" classes = true) buttons ->
  one_choice (activate i buttons).
Proof.
  intros Hall. unfold activate. cbv zeta.
  set (cleared := map _ buttons).
  assert (Hcleared : Forall (fun classes => has_class "action-btn" classes = true /\
                                            has_class "active" classes = false) cleared).
  { subst cleared. induction Hall as [|x rest Hx _ IH]; constructor; [|exact IH].
    change (existsb (String.eqb "action-btn") x) with (has_class "action-btn" x).
    rewrite Hx. split.
    - apply has_class_In, In_classList_remove. split; [discriminate|].
      apply has_class_In, Hx.
    - destruct (has_class "active" (classList_remove "active" x)) eqn:Hactive; [|reflexivity].
      apply has_class_In, In_classList_remove in Hactive as [Hne _]. congruence. }
  assert (Hbtn : Forall (fun classes => has_class "action-btn" classes = true) cleared)
    by (eapply Forall_impl; [exact Hcleared | intros x [Hx _]; exact Hx]).
  assert (Hoff : Forall (fun classes => has_class "active" classes = false) cleared)
    by (eapply Forall_impl; [exact Hcleared | intros x [_ Hx]; exact Hx]).
  destruct (cleared !! i) as [classes|] eqn:Hi.
  - split.
    + apply Forall_insert; [exact Hbtn|].
      apply has_class_In, In_classList_add. right.
      apply has_class_In. eapply (proj1 (Forall_lookup _ _) Hbtn); exact Hi.
    + apply active_count_insert, Hoff.
  - split; [exact Hbtn|]. rewrite (active_count_inactive _ Hoff). lia.
Qed.

(** ** The buttons of a piece of markup *)










Section RowButtons.
Context `{Engine}.


End RowButtons.

Section MarkingList.
Context `{Engine}.

Lemma get_prop_total (v : json) (k : string) :
  v <> JNull -> exists r : option json, get_prop v k = Normal r.
Proof. intros Hnn. destruct v; try congruence; cbn [get_prop]; eauto. Qed.

Lemma display_name_total (v : json) :
  v <> JNull -> exists r : option json, display_name v = Normal r.
Proof.
  intros Hnn. unfold display_name.
  destruct (get_prop_total v "name" Hnn) as [n ->].
  destruct (truthy n); [eauto | apply get_prop_total, Hnn].
Qed.

Lemma student_row_html_total (student : json) :
  student <> JNull -> exists row : string, student_row_html student = Normal row.
Proof.
  intros Hnn. unfold student_row_html, student_row_innerHTML.
  destruct (display_name_total student Hnn) as [name ->].
  destruct (get_prop_total student "username" Hnn) as [username ->].
  destruct (get_prop_total student "_id" Hnn) as [id ->].
  cbn [and_then]. eauto.
Qed.

Lemma shown_students (items : list json) :
  Forall (fun s => s <> JNull) items ->
  List.length (shown_before_failure student_row_html items) = List.length items.
Proof.
  intros Hnn. apply shown_all. eapply Forall_impl; [exact Hnn|].
  intros s Hs. apply student_row_html_total, Hs.
Qed.

Lemma shown_students_null (items : list json) :
  In JNull items ->
  (List.length (shown_before_failure student_row_html items) < List.length items)%nat.
Proof.
  intros Hnull. pose proof (shown_length student_row_html items) as Hle.
  destruct (Nat.eq_dec (List.length (shown_before_failure student_row_html items))
              (List.length items)) as [Heq|Hne]; [|lia].
  apply shown_all in Heq. rewrite Forall_forall in Heq.
  destruct (Heq JNull) as [row Hrow].
  - apply list_elem_of_In, Hnull.
  - discriminate Hrow.
Qed.

Lemma append_student_row_run (row : string) (w : world) (el : gmap string string) :
  elements (document w) !! ".marking-list" = Some el ->
  append_student_row row w =
  (Normal tt,
   set_document (set_action_rows (fun rows => rows ++ [buttons_of row]))
     (set_document (set_elements (insert ".marking-list"
        (<["innerHTML" := default "" (el !! "innerHTML") +:+ row]> el))) w)).
Proof.
  intros Hel. unfold append_student_row, bind, appendChild, modify. rewrite Hel. reflexivity.
Qed.

(** The rows of the list and their buttons, student by student. *)
Lemma forEach_append_student_row (items : list json) :
  forall (w : world) (el : gmap string string) (shown : string),
    elements (document w) !! ".marking-list" = Some el ->
    el !! "innerHTML" = Some shown ->
    let rows := shown_before_failure student_row_html items in
    let run := forEach items (fun student =>
                 let* row := lift (student_row_html student) in append_student_row row) w in
    (List.length rows = List.length items -> fst run = Normal tt) /\
    ((List.length rows < List.length items)%nat -> exists e : exn, fst run = Throw e) /\
    elements (document (snd run)) !! ".marking-list" =
      Some (<["innerHTML" := shown +:+ join rows]> el) /\
    action_rows (document (snd run)) = action_rows (document w) ++ map buttons_of rows.
Proof.
  induction items as [|x rest IH]; intros w el shown Hel Hshown; cbv zeta;
    cbn [forEach shown_before_failure].
  - cbn [ret fst snd join fold_right List.length map].
    rewrite append_nil_r, insert_id, app_nil_r by exact Hshown.
    split; [reflexivity|]. split; [lia|]. split; [exact Hel | reflexivity].
  - destruct (student_row_html x) as [row|e] eqn:Hx.
    + erewrite bind_normal.
      2: { unfold bind, lift. apply append_student_row_run, Hel. }
      rewrite Hshown. cbn [from_option id].
      match goal with
      | |- context [forEach rest _ ?w0] =>
          destruct (IH w0 (<["innerHTML" := shown +:+ row]> el) (shown +:+ row))
            as (Hall & Hsome & Hmarkup & Hrows)
      end.
      * world_simpl. apply lookup_insert_eq.
      * apply lookup_insert_eq.
      * cbv zeta in *. cbn [List.length].
        split; [intros Hlen; apply Hall; lia|].
        split; [intros Hlen; apply Hsome; lia|].
        split.
        -- rewrite Hmarkup, insert_insert_eq, join_cons, append_assoc. reflexivity.
        -- rewrite Hrows. world_simpl. rewrite <- app_assoc. reflexivity.
    + erewrite bind_throw by (unfold bind, lift; reflexivity).
      cbn [fst snd join fold_right List.length map].
      rewrite append_nil_r, insert_id, app_nil_r by exact Hshown.
      split; [lia|]. split; [eauto|]. split; [exact Hel | reflexivity].
Qed.



(** The request and the clearing of the list, up to the rows. *)
Lemma loadStudentsForMarking_rows (w : world) (el : gmap string string) (items : list json) :
  elements (document w) !! ".marking-list" = Some el ->
  fst (apiRequest "/users/students" no_options w) = Normal (JArr items) ->
  (0 < Z.of_nat (List.length items) < 2 ^ 53)%Z ->
  exists w1 : world,
    elements (document w1) !! ".marking-list" = Some (<["innerHTML" := ""]> el) /\
    action_rows (document w1) = [] /\
    alerts w1 = alerts w /\
    loadStudentsForMarking w =
    try_catch
      (forEach items (fun student =>
         let* row := lift (student_row_html student) in append_student_row row))
      (fun error => replace_marking_list error_loading_students) w1.
Proof.
  intros Hel Hdata Hlen. rewrite apiRequest_run in Hdata. cbn [fst] in Hdata.
  unfold loadStudentsForMarking.
  erewrite bind_normal by reflexivity.
  rewrite bool_decide_true by (rewrite Hel; eauto). cbn [negb].
  eexists. split; [|split; [|split]].
  4: { unfold try_catch.
       erewrite bind_normal by (rewrite apiRequest_run, Hdata; reflexivity).
       unfold replace_marking_list at 1.
       erewrite bind_normal.
       2: { erewrite bind_normal by (apply set_property_run; world_simpl; exact Hel).
            reflexivity. }
       erewrite bind_normal by reflexivity.
       change (String.eqb "length" "length") with true. cbv iota.
       rewrite (is_zero_length _ Hlen).
       erewrite bind_normal by reflexivity. reflexivity. }
  - world_simpl. apply lookup_insert_eq.
  - reflexivity.
  - reflexivity.
Qed.


(** X26.  When the students request fails, or an entry of the array it
    returns is [null], the marking list holds the text
    [Error loading students.] and nothing else: the rows added before the
    failing entry are gone and no button is left.  No alert is shown. *)
Theorem marking_list_failure (w : world) (el : gmap string string) :
  elements (document w) !! ".marking-list" = Some el ->
  (exists e : exn, fst (apiRequest "/users/students" no_options w) = Throw e) \/
  (exists items : list json,
     fst (apiRequest "/users/students" no_options w) = Normal (JArr items) /\
     (Z.of_nat (List.length items) < 2 ^ 53)%Z /\ In JNull items) ->
  let w' := snd (loadStudentsForMarking w) in
  fst (loadStudentsForMarking w) = Normal tt /\
  elements (document w') !! ".marking-list" =
    Some (<["innerHTML" :=
              "<div style=" +:+ dq +:+ "text-align: center; padding: 2rem; color: #ef4444;" +:+
              dq +:+ ">Error loading students.</div>"]> el) /\
  action_rows (document w') = [] /\
  alerts w' = alerts w.
Proof.
  intros Hel Hfailure. cbv zeta.
  change ("<div style=" +:+ dq +:+ "text-align: center; padding: 2rem; color: #ef4444;" +:+
          dq +:+ ">Error loading students.</div>") with error_loading_students.
  assert (Hhandler : forall (w1 : world) (el1 : gmap string string),
            elements (document w1) !! ".marking-list" = Some el1 ->
            replace_marking_list error_loading_students w1 =
            (Normal tt,
             set_document (set_action_rows (fun _ => []))
               (set_document (set_elements (insert ".marking-list"
                  (<["innerHTML" := error_loading_students]> el1))) w1))).
  { intros w1 el1 Hel1. unfold replace_marking_list.
    erewrite bind_normal by (apply set_property_run; exact Hel1). reflexivity. }
  destruct Hfailure as [[e He] | (items & Hdata & Hlen & Hnull)].
  - rewrite apiRequest_run in He. cbn [fst] in He.
    unfold loadStudentsForMarking.
    erewrite bind_normal by reflexivity.
    rewrite bool_decide_true by (rewrite Hel; eauto). cbn [negb].
    unfold try_catch.
    erewrite bind_throw by (rewrite apiRequest_run, He; reflexivity).
    erewrite Hhandler by (world_simpl; exact Hel).
    world_simpl. rewrite lookup_insert_eq. repeat split.
  - pose proof (shown_students_null items Hnull) as Hshort.
    destruct (loadStudentsForMarking_rows w el items Hel Hdata) as (w1 & Hel1 & Hrows1 & Halerts0 & ->).
    { destruct items; [contradiction|]. cbn [List.length] in *. lia. }
    destruct (forEach_append_student_row items w1 (<["innerHTML" := ""]> el) "" Hel1
                (lookup_insert_eq _ _ _)) as (_ & Hsome & Hmarkup & _).
    cbv zeta in *. destruct (Hsome Hshort) as [e He].
    pose proof (quiet_forEach items (fun student =>
                  let* row := lift (student_row_html student) in append_student_row row)
                  ltac:(intros ?; quiet_steps) w1) as (_ & _ & _ & Halerts1 & _).
    unfold try_catch.
    destruct (forEach items _ w1) as [[[]|e'] w2]; [discriminate He|].
    cbn [fst snd] in *.
    erewrite Hhandler by exact Hmarkup.
    world_simpl. rewrite lookup_insert_eq, !insert_insert_eq.
    split; [reflexivity|]. split; [reflexivity|]. split; [reflexivity|].
    rewrite Halerts1. exact Halerts0.
Qed.

End MarkingList.

Section Clicks.
Context `{Engine}.

(** One call of [markAttendance], whatever the answer. *)
Lemma markAttendance_step (studentId status : string) (btn : nat * nat) (w : world) :
  let w' := snd (markAttendance studentId status btn w) in
  fst (markAttendance studentId status btn w) = Normal tt /\
  requests w' =
    requests w ++
    [request_of w "/attendance/mark"
       {| opt_method := Some "POST"; opt_body := Some (mark_body studentId status) |}] /\
  localStorage w' = localStorage w /\ API_URL w' = API_URL w /\ network w' = network w /\
  (exists more : list string, alerts w' = alerts w ++ more) /\
  (action_rows (document w') = action_rows (document w) \/
   exists buttons : list (list string),
     action_rows (document w) !! fst btn = Some buttons /\
     action_rows (document w') =
       <[fst btn := activate (snd btn) buttons]> (action_rows (document w))).
Proof.
  unfold markAttendance, try_catch, bind. rewrite apiRequest_run. unfold request_of.
  destruct (api_outcome w _ _) as [data|e].
  - unfold get. world_simpl.
    destruct (action_rows (document w) !! fst btn) as [buttons|] eqn:Hrow.
    + destruct (snd btn <? List.length buttons)%nat.
      * unfold modify. world_simpl.
        repeat split; [exists []; rewrite app_nil_r; reflexivity|].
        right. exists buttons. split; reflexivity.
      * unfold throw, alert, modify. world_simpl.
        repeat split; [eexists; reflexivity | left; reflexivity].
    + unfold throw, alert, modify. world_simpl.
      repeat split; [eexists; reflexivity | left; reflexivity].
  - unfold alert, modify. world_simpl.
    repeat split; [eexists; reflexivity | left; reflexivity].
Qed.

(** X27.  On the marking page a student has one status shown at most: when
    every container holds action buttons only, one of them active at most
    (as the containers of a freshly loaded list do), this still holds after
    any number of calls of [markAttendance], whatever students, statuses and
    buttons they name and whatever the backend answers. *)
Theorem one_status_per_student (w : world) (clicks : list click) :
  Forall one_choice (action_rows (document w)) ->
  Forall one_choice (action_rows (document (snd (clicks_run clicks w)))).
Proof.
  unfold clicks_run. revert w. induction clicks as [|c rest IH]; intros w Hrows.
  - exact Hrows.
  - cbn [forEach].
    destruct (markAttendance_step (fst (fst c)) (snd (fst c)) (snd c) w)
      as (Hc & _ & _ & _ & _ & _ & Hstep).
    cbv zeta in Hstep.
    destruct (markAttendance (fst (fst c)) (snd (fst c)) (snd c) w) as [r w1] eqn:Hrun.
    cbn [fst snd] in *. subst r. erewrite bind_normal by exact Hrun.
    apply IH. destruct Hstep as [-> | (buttons & Hrow & ->)]; [exact Hrows|].
    apply Forall_insert; [exact Hrows|].
    apply activate_one_choice.
    apply (proj1 (Forall_lookup _ _) Hrows) in Hrow. exact (proj1 Hrow).
Qed.

(** The requests of a series of clicks. *)
Lemma forEach_mark_present (ids : nat -> string) (buttons : list (nat * nat)) :
  forall w : world,
    let run := forEach buttons (fun btn => markAttendance (ids (fst btn)) "Present" btn) w in
    fst run = Normal tt /\
    requests (snd run) =
      requests w ++
      map (fun btn => request_of w "/attendance/mark"
             {| opt_method := Some "POST";
                opt_body := Some (mark_body (ids (fst btn)) "Present") |}) buttons /\
    exists more : list string, alerts (snd run) = alerts w ++ more.
Proof.
  induction buttons as [|btn rest IH]; intros w; cbv zeta; cbn [forEach map].
  - cbn [ret fst snd]. rewrite app_nil_r. split; [reflexivity|]. split; [reflexivity|].
    exists []. rewrite app_nil_r. reflexivity.
  - destruct (markAttendance_step (ids (fst btn)) "Present" btn w)
      as (Hc & Hreq & Hs & Hu & _ & [more Halerts] & _).
    cbv zeta in *.
    destruct (markAttendance (ids (fst btn)) "Present" btn w) as [r w1] eqn:Hrun.
    cbn [fst snd] in *. subst r. erewrite bind_normal by exact Hrun.
    destruct (IH w1) as (Hc' & Hreq' & [more' Halerts']). cbv zeta in *.
    split; [exact Hc'|]. split.
    + rewrite Hreq', Hreq, <- app_assoc. cbn [app]. unfold request_of. rewrite Hs, Hu.
      reflexivity.
    + exists (more ++ more'). rewrite Halerts', Halerts, <- app_assoc. reflexivity.
Qed.

End Clicks.

(** ** The buttons the mark-all handler clicks *)

Lemma In_indexed_from {A} (l : list A) :
  forall (s k : nat) (x : A),
    In (k, x) (combine (seq s (List.length l)) l) <-> (s <= k)%nat /\ l !! (k - s)%nat = Some x.
Proof.
  induction l as [|a l IH]; intros s k x; cbn [List.length seq combine In].
  - split; [contradiction | intros [_ Hnone]; discriminate Hnone].
  - rewrite IH. split.
    + intros [[= <- <-] | [Hle Hk]].
      * split; [lia|]. rewrite Nat.sub_diag. reflexivity.
      * split; [lia|]. replace (k - s)%nat with (S (k - S s)) by lia. exact Hk.
    + intros [Hle Hk]. destruct (Nat.eq_dec s k) as [->|Hne].
      * left. rewrite Nat.sub_diag in Hk. cbn in Hk. congruence.
      * right. split; [lia|]. replace (k - s)%nat with (S (k - S s)) in Hk by lia. exact Hk.
Qed.

Lemma In_indexed {A} (l : list A) (k : nat) (x : A) :
  In (k, x) (indexed l) <-> l !! k = Some x.
Proof.
  unfold indexed. rewrite In_indexed_from, Nat.sub_0_r. split; [intros [_ Hk]; exact Hk|].
  intros Hk. split; [lia | exact Hk].
Qed.

(** The handler clicks the Present buttons that are not active, and no
    other button. *)
Lemma present_buttons_to_click_spec (rows : list (list (list string))) (btn : nat * nat) :
  In btn (present_buttons_to_click rows) <-> to_click rows btn.
Proof.
  unfold present_buttons_to_click, to_click. rewrite in_flat_map. split.
  - intros ([r buttons] & Hrow & Hin). apply In_indexed in Hrow.
    apply in_flat_map in Hin as ([i classes] & Hbutton & Hin). apply In_indexed in Hbutton.
    cbn [fst snd] in Hin.
    destruct (existsb (String.eqb "btn-p") classes) eqn:Hp; [|contradiction].
    destruct (existsb (String.eqb "active") classes) eqn:Ha; [contradiction|].
    destruct Hin as [<- | []]. exists buttons, classes. cbn [fst snd].
    split; [exact Hrow|]. split; [exact Hbutton|]. split.
    + apply has_class_In, Hp.
    + intros Hactive. apply has_class_In in Hactive. unfold has_class in Hactive. congruence.
  - intros (buttons & classes & Hrow & Hbutton & Hp & Ha).
    exists (fst btn, buttons). split; [apply In_indexed, Hrow|].
    apply in_flat_map. exists (snd btn, classes). split; [apply In_indexed, Hbutton|].
    cbn [fst snd]. apply has_class_In in Hp. unfold has_class in Hp. rewrite Hp.
    destruct (existsb (String.eqb "active") classes) eqn:Hactive.
    + exfalso. apply Ha, has_class_In, Hactive.
    + left. destruct btn; reflexivity.
Qed.

Lemma StronglySorted_before_app (l1 l2 : list (nat * nat)) :
  StronglySorted before l1 -> StronglySorted before l2 ->
  (forall a b, In a l1 -> In b l2 -> before a b) ->
  StronglySorted before (l1 ++ l2).
Proof.
  induction 1 as [|a l1 Hl1 IH Ha]; intros Hl2 Hcross; [exact Hl2|].
  cbn [app]. constructor.
  - apply IH; [exact Hl2|]. intros x y Hx Hy. apply Hcross; [right; exact Hx | exact Hy].
  - apply List.Forall_forall. intros y Hy. apply in_app_iff in Hy as [Hy | Hy].
    + rewrite List.Forall_forall in Ha. apply Ha, Hy.
    + apply Hcross; [left; reflexivity | exact Hy].
Qed.

(** The buttons of one container come in the order of their places. *)
Lemma buttons_in_order (r : nat) (buttons : list (list string)) :
  forall s : nat,
    let clicked :=
      flat_map (fun button : nat * list string =>
                  if existsb (String.eqb "btn-p") (snd button) &&
                     negb (existsb (String.eqb "active") (snd button))
                  then [(r, fst button)] else [])
        (combine (seq s (List.length buttons)) buttons) in
    StronglySorted before clicked /\
    forall b : nat * nat, In b clicked -> fst b = r /\ (s <= snd b)%nat.
Proof.
  induction buttons as [|classes buttons IH]; intros s; cbv zeta;
    cbn [List.length seq combine flat_map].
  - split; [constructor | contradiction].
  - destruct (IH (S s)) as [Hsorted Hin]. cbv zeta in *. cbn [fst snd].
    split.
    + apply StronglySorted_before_app; [| exact Hsorted |].
      * destruct (_ && _); repeat constructor.
      * intros a b Ha Hb. destruct (_ && _); [|contradiction].
        destruct Ha as [<- | []]. destruct (Hin b Hb) as [Hr Hs].
        right. cbn [fst snd]. split; [congruence | lia].
    + intros b Hb. apply in_app_iff in Hb as [Hb | Hb].
      * destruct (_ && _); [|contradiction]. destruct Hb as [<- | []]. cbn. split; [reflexivity | lia].
      * destruct (Hin b Hb) as [Hr Hs]. split; [exact Hr | lia].
Qed.

(** The buttons of the page come in document order. *)
Lemma containers_in_order (rows : list (list (list string))) :
  forall s : nat,
    let clicked :=
      flat_map (fun row : nat * list (list string) =>
        flat_map (fun button : nat * list string =>
                    if existsb (String.eqb "btn-p") (snd button) &&
                       negb (existsb (String.eqb "active") (snd button))
                    then [(fst row, fst button)] else [])
          (indexed (snd row)))
        (combine (seq s (List.length rows)) rows) in
    StronglySorted before clicked /\
    forall b : nat * nat, In b clicked -> (s <= fst b)%nat.
Proof.
  induction rows as [|buttons rows IH]; intros s; cbv zeta;
    cbn [List.length seq combine flat_map].
  - split; [constructor | contradiction].
  - destruct (IH (S s)) as [Hsorted Hin]. cbv zeta in *. cbn [fst snd].
    destruct (buttons_in_order s buttons 0) as [Hrow Hrow_in]. cbv zeta in *.
    fold (indexed buttons) in Hrow, Hrow_in.
    split.
    + apply StronglySorted_before_app; [exact Hrow | exact Hsorted |].
      intros a b Ha Hb. left. destruct (Hrow_in a Ha) as [-> _]. specialize (Hin b Hb). lia.
    + intros b Hb. apply in_app_iff in Hb as [Hb | Hb].
      * destruct (Hrow_in b Hb) as [-> _]. lia.
      * specialize (Hin b Hb). lia.
Qed.

Section MarkAll.
Context `{Engine}.

(** X28.  A click on the mark-all button sends one request per Present
    button that is not active, in document order, each marking the student
    of its container Present, and none for any other button; the alert
    [All students marked as present!] is shown whatever the backend answers
    to these requests. *)
Theorem mark_all_requests (ids : nat -> string) (w : world) :
  let w' := snd (markAllBtn_click ids w) in
  exists clicked : list (nat * nat),
    (forall btn : nat * nat, In btn clicked <-> to_click (action_rows (document w)) btn) /\
    StronglySorted before clicked /\
    fst (markAllBtn_click ids w) = Normal tt /\
    requests w' = requests w ++ map (fun btn => present_request w (ids (fst btn))) clicked /\
    exists failures : list string,
      alerts w' = alerts w ++ "All students marked as present!" :: failures.
Proof.
  cbv zeta. exists (present_buttons_to_click (action_rows (document w))).
  split; [intros btn; apply present_buttons_to_click_spec|].
  split; [apply (containers_in_order (action_rows (document w)) 0)|].
  unfold markAllBtn_click.
  erewrite bind_normal by reflexivity.
  erewrite bind_normal by reflexivity.
  match goal with
  | |- context [forEach ?l ?f ?w0] =>
      destruct (forEach_mark_present ids l w0) as (Hc & Hreq & [more Halerts])
  end.
  cbv zeta in *. split; [exact Hc|]. split.
  - rewrite Hreq. reflexivity.
  - exists more. rewrite Halerts. world_simpl. rewrite <- app_assoc. reflexivity.
Qed.

End MarkAll.


(** ** The password toggle *)

Lemma has_class_toggle (c c' : string) (classes : list string) :
  has_class c' (classList_toggle c classes) =
  if String.eqb c' c then negb (has_class c classes) else has_class c' classes.
Proof.
  unfold classList_toggle. fold (has_class c classes).
  destruct (String.eqb_spec c' c) as [->|Hne].
  - destruct (has_class c classes) eqn:Hc; cbn [negb].
    + destruct (has_class c (classList_remove c classes)) eqn:Hr; [|reflexivity].
      apply has_class_In, In_classList_remove in Hr as [Hne _]. congruence.
    + apply has_class_In, in_app_iff. right. left. reflexivity.
  - destruct (has_class c classes) eqn:Hc.
    + destruct (has_class c' classes) eqn:Hc'.
      * apply has_class_In, In_classList_remove. split; [exact Hne | apply has_class_In, Hc'].
      * destruct (has_class c' (classList_remove c classes)) eqn:Hr; [|reflexivity].
        apply has_class_In, In_classList_remove in Hr as [_ Hin].
        apply has_class_In in Hin. congruence.
    + destruct (has_class c' classes) eqn:Hc'.
      * apply has_class_In, in_app_iff. left. apply has_class_In, Hc'.
      * destruct (has_class c' (classes ++ [c])) eqn:Hr; [|reflexivity].
        apply has_class_In, in_app_iff in Hr as [Hin | [Heq | []]].
        -- apply has_class_In in Hin. congruence.
        -- congruence.
Qed.

(** X29.  A click on the toggle shows the password in clear exactly when
    the field was of type [password]; any other type, a missing attribute
    included, becomes [password].  Each click flips the two icon classes
    [fa-eye] and [fa-eye-slash] and no other class, so two clicks bring back
    the classes of the icon, and the type of a field that was [password] or
    [text]. *)
Theorem togglePassword_clicks (s : toggle_state) :
  let once := togglePassword_click s in
  let twice := togglePassword_click once in
  (in_clear once = true <-> input_type s = Some "password") /\
  (in_clear once = false -> input_type once = Some "password") /\
  (forall c : string,
     has_class c (icon_classes once) =
     if String.eqb c "fa-eye" || String.eqb c "fa-eye-slash"
     then negb (has_class c (icon_classes s)) else has_class c (icon_classes s)) /\
  (forall c : string, has_class c (icon_classes twice) = has_class c (icon_classes s)) /\
  (input_type s = Some "password" \/ input_type s = Some "text" ->
   input_type twice = input_type s).
Proof.
  cbv zeta. unfold togglePassword_click, in_clear. cbn [input_type icon_classes].
  assert (Hflip : forall (c : string) (classes : list string),
            has_class c (classList_toggle "fa-eye-slash" (classList_toggle "fa-eye" classes)) =
            if String.eqb c "fa-eye" || String.eqb c "fa-eye-slash"
            then negb (has_class c classes) else has_class c classes).
  { intros c classes. rewrite has_class_toggle.
    destruct (String.eqb_spec c "fa-eye-slash") as [->|Hslash].
    - rewrite has_class_toggle. cbn [String.eqb Ascii.eqb Bool.eqb andb orb]. reflexivity.
    - rewrite has_class_toggle, orb_false_r.
      destruct (String.eqb_spec c "fa-eye") as [->|Heye]; reflexivity. }
  split; [|split; [|split; [|split]]].
  - destruct (bool_decide_reflect (input_type s = Some "password")) as [Hp|Hp].
    + split; [intros _; exact Hp | intros _; reflexivity].
    + split; [intros Hclear; discriminate Hclear | contradiction].
  - destruct (bool_decide_reflect (input_type s = Some "password")) as [Hp|Hp].
    + intros Hclear. discriminate Hclear.
    + reflexivity.
  - intros c. apply Hflip.
  - intros c. rewrite !Hflip.
    destruct (String.eqb c "fa-eye" || String.eqb c "fa-eye-slash"); [|reflexivity].
    apply negb_involutive.
  - intros [Hp | Ht]; rewrite ?Hp, ?Ht; reflexivity.
Qed.

(** * The further properties on the example states *)

(** The backend is down: the error names the URL that was called. *)
Lemma apiRequest_never_failed_to_fetch_witness :
  let w := Sample.state [] "/dashboard.html" (Sample.backend []) Cases.blank_page in
  let e := Error "Could not connect to the backend server at /api/users/students" in
  fst (@apiRequest Sample.engine "/users/students" no_options w) = Throw e /\
  e = Error ("Could not connect to the backend server at " +:+
             request_url "/api" "/users/students").
Proof.
  intros w e.
  assert (Hthrow : fst (@apiRequest Sample.engine "/users/students" no_options w) = Throw e)
    by (vm_compute; reflexivity).
  split; [exact Hthrow|].
  destruct (@apiRequest_never_failed_to_fetch Sample.engine "/users/students" no_options w e
              Hthrow) as [_ Hrejected].
  apply (Hrejected (TypeError "Failed to fetch")); vm_compute; reflexivity.
Defined.

(** The students request answered with an empty array. *)
Lemma apiRequest_data_only_on_2xx_witness :
  let w := Sample.state [] "/dashboard.html" (Sample.backend [("/users/students", JArr [])])
             Cases.blank_page in
  fst (@apiRequest Sample.engine "/users/students" no_options w) = Normal (JArr []) /\
  exists (response : response) (text : string),
    network w (request_of w "/users/students" no_options) = Resolved response /\
    ok response = true /\
    resp_text response = Normal text.
Proof.
  intros w.
  assert (Hdata : fst (@apiRequest Sample.engine "/users/students" no_options w)
                  = Normal (JArr [])) by (vm_compute; reflexivity).
  split; [exact Hdata|].
  exact (@apiRequest_data_only_on_2xx Sample.engine "/users/students" no_options w (JArr [])
           Hdata).
Defined.

(** A server error with a blank JSON body is reported as a success text. *)
Lemma apiRequest_blank_json_body_witness :
  let w := Sample.state [] "/dashboard.html"
             (Cases.always (Cases.answer 500 "Internal Server Error" "application/json" "  "))
             Cases.blank_page in
  fst (@apiRequest Cases.engine "/users/students" no_options w) =
  Throw (Error "Success (No data returned)").
Proof.
  intros w.
  rewrite (@apiRequest_blank_json_body Cases.engine "/users/students" no_options w
             (Cases.answer 500 "Internal Server Error" "application/json" "  ") "  ");
    vm_compute; reflexivity.
Defined.

(** A truncated JSON body. *)
Lemma apiRequest_invalid_json_witness :
  let w := Sample.state [] "/dashboard.html"
             (Cases.always (Cases.answer 200 "OK" "application/json" "{oops"))
             Cases.blank_page in
  fst (@apiRequest Cases.engine "/users/students" no_options w) =
  Throw (Error "Invalid JSON from server: {oops...").
Proof.
  intros w.
  rewrite (@apiRequest_invalid_json Cases.engine "/users/students" no_options w
             (Cases.answer 200 "OK" "application/json" "{oops") "{oops"
             (SyntaxError "Unexpected token in JSON")).
  - reflexivity.
  - vm_compute; reflexivity.
  - vm_compute; reflexivity.
  - vm_compute; reflexivity.
  - intros Hblank. vm_compute in Hblank. discriminate Hblank.
  - vm_compute; reflexivity.
  - vm_compute; reflexivity.
Defined.

(** A refused login whose body has an [error] and no [message]. *)
Lemma apiRequest_error_message_witness :
  let w := Sample.state [] "/faculty-login.html"
             (Cases.backend [("/auth/login", (401%N, Cases.invalid_credentials))])
             Cases.blank_page in
  fst (@apiRequest Cases.engine "/auth/login" no_options w) =
  Throw (Error "Invalid credentials").
Proof.
  intros w.
  destruct (@apiRequest_error_message Cases.engine "/auth/login" no_options w
              (Cases.answer 401 "" "application/json"
                 (Sample.stringify Cases.invalid_credentials))
              (Sample.stringify Cases.invalid_credentials)
              [("error", JStr "Invalid credentials")])
    as (msg & Hthrown & _ & Herror & _).
  - vm_compute; reflexivity.
  - vm_compute; reflexivity.
  - vm_compute; reflexivity.
  - vm_compute; reflexivity.
  - intros Hblank. vm_compute in Hblank. discriminate Hblank.
  - vm_compute; reflexivity.
  - rewrite Hthrown, (Herror "Invalid credentials"); try reflexivity. discriminate.
Defined.


(** A faculty login while the backend is down: the request still goes out. *)
Lemma login_sends_one_request_witness :
  let w := Sample.state [] "/faculty-login.html" (Sample.backend [])
             (Sample.login_page "#facultyLoginForm" "#facultyId") in
  exists r : request,
    requests (snd (@login_submit Sample.engine faculty_portal w)) = [r] /\
    req_url r = "/api/auth/login" /\
    req_method r = Some "POST" /\
    req_body r = Some (Sample.stringify
                         (JObj [("username", JStr "ada"); ("password", JStr "secret");
                                ("role", JStr "faculty")])).
Proof.
  intros w.
  destruct (@login_sends_one_request Sample.engine faculty_portal w
              {["value" := "ada"]} {["value" := "secret"]} ∅)
    as (r & Hrequests & Hurl & Hmethod & Hbody).
  - vm_compute; reflexivity.
  - vm_compute; reflexivity.
  - vm_compute; reflexivity.
  - exists r. split; [exact Hrequests|]. split; [exact Hurl|]. split; [exact Hmethod|].
    exact Hbody.
Defined.

(** After a failed login the button can be pressed again. *)
Lemma login_button_after_submit_witness :
  let w := Sample.state [] "/faculty-login.html" (Sample.backend [])
             (Sample.login_page "#facultyLoginForm" "#facultyId") in
  exists el : gmap string string,
    elements (document (snd (@login_submit Sample.engine faculty_portal w)))
      !! "#facultyLoginForm .login-button" = Some el /\
    el !! "disabled" = Some "false" /\
    el !! "innerHTML" = Some (idle_html faculty_portal).
Proof.
  intros w.
  destruct (@login_button_after_submit Sample.engine faculty_portal w
              {["value" := "ada"]} {["value" := "secret"]} ∅)
    as [(el & Hel & Hdisabled & Hlabel) _].
  - vm_compute; reflexivity.
  - vm_compute; reflexivity.
  - vm_compute; reflexivity.
  - exists el. split; [exact Hel|]. split; [exact Hdisabled | exact Hlabel].
Defined.

(** A page without the form fields. *)
Lemma login_missing_element_witness :
  let w := Sample.state [] "/faculty-login.html" (Sample.backend []) Cases.blank_page in
  snd (@login_submit Sample.engine faculty_portal w) = w /\
  exists msg : string, fst (@login_submit Sample.engine faculty_portal w) = Throw (TypeError msg).
Proof.
  intros w. apply (@login_missing_element Sample.engine faculty_portal w).
  left. vm_compute; reflexivity.
Defined.

(** A faculty member logs in and out; the stored theme stays. *)
Lemma login_then_logout_witness :
  let w := Sample.state [("theme", "dark")] "/faculty-login.html"
             (Sample.backend [("/auth/login", Sample.faculty_session)])
             (Sample.login_page "#facultyLoginForm" "#facultyId") in
  localStorage (snd (@logout (snd (@login_submit Sample.engine faculty_portal w)))) =
  delete "eduAttendUser" (delete "eduAttendToken" (localStorage w)).
Proof.
  intros w.
  apply (@login_then_logout Sample.engine faculty_portal w
           {["value" := "ada"]} {["value" := "secret"]} ∅); vm_compute; reflexivity.
Defined.

(** The marking page opened with the session of a student in the storage. *)
Lemma attendance_page_unguarded_witness :
  let w := Sample.state [("eduAttendUser", Sample.stringify Sample.student_session)]
             "/attendance.html" (Sample.backend []) Cases.list_page in
  fst (@DOMContentLoaded Sample.engine w) = Normal tt /\
  href (snd (@DOMContentLoaded Sample.engine w)) = None /\
  alerts (snd (@DOMContentLoaded Sample.engine w)) = [] /\
  localStorage (snd (@DOMContentLoaded Sample.engine w)) = localStorage w /\
  pending (snd (@DOMContentLoaded Sample.engine w)) = [LoadStudentsForMarking].
Proof.
  intros w. apply (@attendance_page_unguarded Sample.engine w); vm_compute; reflexivity.
Defined.

(** Bob logs in as a student and lands on the faculty login. *)
Lemma student_login_bounces_witness :
  let w := Sample.state [] "/student-login.html"
             (Sample.backend [("/auth/login", Sample.student_session)])
             (Sample.login_page "#studentLoginForm" "#studentEmail") in
  let w2 := Sample.state [("eduAttendToken", "tok-student");
                          ("eduAttendUser", Sample.stringify Sample.student_session)]
              "/student-dashboard.html" (Sample.backend []) Sample.student_dashboard_page in
  href (snd (@studentForm_submit Sample.engine w)) = Some "student-dashboard.html" /\
  fst (@DOMContentLoaded Sample.engine w2) = Normal tt /\
  href (snd (@DOMContentLoaded Sample.engine w2)) = Some "faculty-login.html" /\
  pending (snd (@DOMContentLoaded Sample.engine w2)) = pending w2 /\
  requests (snd (@DOMContentLoaded Sample.engine w2)) = requests w2.
Proof.
  intros w w2.
  apply (@student_login_bounces Sample.engine w w2
           {["value" := "ada"]} {["value" := "secret"]} ∅ Sample.student_session);
    vm_compute; reflexivity.
Defined.

(** Ada logs in as faculty and the dashboard starts loading. *)
Lemma faculty_login_admitted_witness :
  let w := Sample.state [] "/faculty-login.html"
             (Sample.backend [("/auth/login", Sample.faculty_session)])
             (Sample.login_page "#facultyLoginForm" "#facultyId") in
  let w2 := Sample.state [("eduAttendToken", "tok-faculty");
                          ("eduAttendUser", Sample.stringify Sample.faculty_session)]
              "/dashboard.html" (Sample.backend []) Sample.faculty_dashboard_page in
  href (snd (@facultyForm_submit Sample.engine w)) = Some "dashboard.html" /\
  fst (@DOMContentLoaded Sample.engine w2) = Normal tt /\
  href (snd (@DOMContentLoaded Sample.engine w2)) = href w2 /\
  exists rest : list task,
    pending (snd (@DOMContentLoaded Sample.engine w2)) = pending w2 ++ LoadDashboardStats :: rest.
Proof.
  intros w w2.
  apply (@faculty_login_admitted Sample.engine w w2
           {["value" := "ada"]} {["value" := "secret"]} ∅ Sample.faculty_session);
    vm_compute; reflexivity.
Defined.


(** Three records, the second without a status: the log is not touched. *)
Lemma student_log_entries_witness :
  let w := Sample.state [] "/student-dashboard.html"
             (Cases.backend [("/attendance/my-history", (200%N, Cases.three_records))])
             Sample.student_dashboard_page in
  let entries := shown_before_failure (@log_item_html Cases.engine) (firstn 10 Cases.three) in
  fst (@loadStudentAttendance Cases.engine w) = Normal tt /\
  (List.length entries <= 10)%nat /\
  List.length entries = 1%nat /\
  elements (document (snd (@loadStudentAttendance Cases.engine w))) !! ".performance-list" =
    Some ∅.
Proof.
  intros w entries.
  split; [|split; [|split; [vm_compute; reflexivity|]]];
    apply (@student_log_entries Cases.engine w Cases.three ∅).
  all: first [ discriminate | repeat constructor; discriminate | vm_compute; reflexivity ].
Defined.


(** The second entry of the answer is [null]: the row of the first student
    is dropped again. *)
Lemma marking_list_failure_witness :
  let w := Sample.state [] "/attendance.html"
             (Cases.backend [("/users/students", (200%N, Cases.students_and_null))])
             Cases.list_page in
  let w' := snd (@loadStudentsForMarking Cases.engine w) in
  fst (@apiRequest Cases.engine "/users/students" no_options w) =
    Normal (JArr [Cases.student "s1" "Bob" "bob"; JNull]) /\
  fst (@loadStudentsForMarking Cases.engine w) = Normal tt /\
  elements (document w') !! ".marking-list" =
    Some {["innerHTML" :=
             "<div style=" +:+ dq +:+ "text-align: center; padding: 2rem; color: #ef4444;" +:+
             dq +:+ ">Error loading students.</div>"]} /\
  action_rows (document w') = [] /\
  alerts w' = [].
Proof.
  intros w.
  assert (Hdata : fst (@apiRequest Cases.engine "/users/students" no_options w) =
                  Normal (JArr [Cases.student "s1" "Bob" "bob"; JNull]))
    by (vm_compute; reflexivity).
  split; [exact Hdata|].
  destruct (@marking_list_failure Cases.engine w {["innerHTML" := "<p>Loading...</p>"]})
    as (Hdone & Hlist & Hrows & Halerts).
  - vm_compute; reflexivity.
  - right. exists [Cases.student "s1" "Bob" "bob"; JNull].
    split; [exact Hdata|]. split; [vm_compute; reflexivity|]. right. left. reflexivity.
  - split; [exact Hdone|]. split; [|split; [exact Hrows | exact Halerts]].
    cbv zeta in Hlist. rewrite Hlist. vm_compute. reflexivity.
Defined.

(** Bob is marked Absent, then Late. *)
Lemma one_status_per_student_witness :
  let w := Sample.state [] "/attendance.html" (Sample.backend [("/attendance/mark", JNull)])
             Sample.marking_page in
  Forall one_choice
    (action_rows (document (snd (@clicks_run Sample.engine
       [(("s1", "Absent"), (0, 1)%nat); (("s1", "Late"), (0, 2)%nat)] w)))).
Proof.
  intros w. apply (@one_status_per_student Sample.engine w).
  repeat constructor.
Defined.

(** Two containers, the Present button of the first one active already, and
    a backend that is down: one request goes out, for the second student,
    and the alert comes all the same. *)
Lemma mark_all_requests_witness :
  let rows := [[["action-btn"; "btn-p"; "active"]; ["action-btn"; "btn-a"];
                ["action-btn"; "btn-l"]];
               [["action-btn"; "btn-p"]; ["action-btn"; "btn-a"; "active"];
                ["action-btn"; "btn-l"]]] in
  let w := Sample.state [] "/attendance.html" (Sample.backend [])
             {| elements := ∅; element_lists := ∅; root_style := ∅; action_rows := rows;
                listeners := [] |} in
  let ids := fun r : nat => match r with O => "s1" | _ => "s2" end in
  requests (snd (@markAllBtn_click Sample.engine ids w)) =
    [{| req_url := "/api/attendance/mark"; req_method := Some "POST";
        req_body := Some (Sample.stringify (JObj [("studentId", JStr "s2");
                                                  ("status", JStr "Present");
                                                  ("subject", JStr "CS101-A")]));
        req_headers := [("Content-Type", "application/json")] |}] /\
  exists failures : list string,
    alerts (snd (@markAllBtn_click Sample.engine ids w)) =
    "All students marked as present!" :: failures.
Proof.
  intros rows w ids.
  destruct (@mark_all_requests Sample.engine ids w)
    as (clicked & Hclicked & Hsorted & _ & Hrequests & Halerts).
  assert (Honly : forall btn : nat * nat, In btn clicked <-> btn = (1, 0)%nat).
  { intros btn. rewrite Hclicked. split.
    - intros (buttons & classes & Hrow & Hbutton & Hp & Ha).
      destruct btn as [[|[|r]] i]; cbn in Hrow; try discriminate Hrow;
        injection Hrow as <-;
        destruct i as [|[|[|i]]]; cbn in Hbutton; try discriminate Hbutton;
        injection Hbutton as <-; cbn in Hp, Ha;
        first [ reflexivity | exfalso; intuition discriminate ].
    - intros ->. eexists _, _. cbn [fst snd].
      split; [reflexivity|]. split; [reflexivity|]. split; [right; left; reflexivity|].
      intros [Hin | [Hin | []]]; discriminate Hin. }
  assert (Hlist : clicked = [(1, 0)%nat]).
  { destruct clicked as [|a rest].
    - exfalso. apply (proj2 (Honly (1, 0)%nat) eq_refl).
    - pose proof (proj1 (Honly a) (or_introl eq_refl)) as ->.
      destruct rest as [|b rest]; [reflexivity|].
      pose proof (proj1 (Honly b) (or_intror (or_introl eq_refl))) as ->.
      exfalso. inversion Hsorted as [|? ? _ Hfirst]. inversion Hfirst as [|? ? Hbefore _].
      destruct Hbefore as [Hlt | [_ Hlt]]; cbn in Hlt; lia. }
  rewrite Hlist in Hrequests. split; [exact Hrequests | exact Halerts].
Defined.
